(** * lyse: the FileBox / analysis-loop subsystem and the analysis worker

    A shallow embedding of [lyse/main_window.py] (classes [DataFrameModel]
    and [FileBox]) and of [lyse/analysis_subprocess.py] (classes
    [AnalysisWorker] and [LyseWorker]).

    Python objects are modelled by records, dictionaries by [gmap], the
    methods by functions that pass the object explicitly.  A method that
    can raise returns an [outcome]; the object as mutated up to the raise
    is returned with it, because Python keeps those mutations.

    Purely visual attributes of the Qt widgets (icons, tool tips, header
    labels, column widths, progress bar, output box text) carry no logic
    and are left out. *)

From stdpp Require Import base option list gmap sets strings sorting.
From Stdlib Require Import ZArith Lia.

Local Open Scope string_scope.
Local Open Scope list_scope.
Local Open Scope nat_scope.

(** ** Python exceptions *)

(** The exception classes the modelled code can meet.  [SystemExit] and
    [KeyboardInterrupt] derive from [BaseException] only; every other class
    below derives from [Exception]. *)
Inductive exn :=
  | ValueError | KeyError | IndexError | TypeError | AttributeError
  | AssertionError | IOError | RuntimeError
  | UserError (name : string)
  | SystemExit | KeyboardInterrupt.

(** [isinstance(e, Exception)]: what an [except Exception:] clause catches. *)
Definition is_Exception (e : exn) : bool :=
  match e with
  | SystemExit | KeyboardInterrupt => false
  | _ => true
  end.

(** How a call ends: it returns a value or an exception leaves it. *)
Inductive outcome (A : Type) :=
  | Returns (a : A)
  | Raises (e : exn).
Arguments Returns {A} a.
Arguments Raises {A} e.

(** * The analysis worker: lyse/analysis_subprocess.py *)

Module AnalysisSubprocess.

(** Results an analysis script saved during a run, [lyse._updated_data]:
    per shot file, the (group, name) entries written. *)
Definition updated_data := list (string * list ((string * string) * string)).


(** Observable actions of the worker, in program order. *)
Inductive event :=
  | EvPrintHeader (path : option string)
  | EvPreAnalysisPlotActions
  | EvResetRoutineModule
  | EvChdir (dir : string)
  | EvExecScript
  | EvPrintTraceback
  | EvPrintBlank
  | EvPostAnalysisPlotActions
  | EvShowWindow
  | EvWaitDelayEvent
  | EvSaveConfiguration
  | EvQApplicationQuit.






Section DoAnalysis.

(** [os.path.dirname], a library function. *)
Variable dirname : string → string.



(** A message put on [to_parent]: a two-element list whose second element
    is the updated data or, for an invalid task, a text. *)
Inductive payload :=
  | UpdatedData (d : updated_data)
  | Message (s : string).

Definition reply : Type := string * payload.




(** ** Terms used to state the properties of the worker *)





End DoAnalysis.






End AnalysisSubprocess.

(** * The pandas dataframe holding one row of scalar data per shot *)

Module pandas.

(** A cell value.  A [float] is carried with the text that
    [lyse.utils.gui.scientific_notation] gives for it and any other object
    with its [str()]; a string is itself. *)
Inductive value :=
  | VStr (s : string)
  | VFloat (shown : string)
  | VObj (shown : string).

#[global] Instance value_eq_dec : EqDecision value.
Proof. solve_decision. Defined.

(** A missing cell reads as NaN, a float. *)
Definition NaN : value := VFloat "nan".

(** A column label of a MultiIndex: a tuple of strings, one per level. *)
Definition colkey : Type := list string.

(** A dataframe: the column labels in order, the number of levels of the
    column MultiIndex, and the rows in order, each with its index label. *)
Record DataFrame := {
  columns : list colkey;
  nlevels : nat;
  rows : list (nat * gmap colkey value);
}.

(** [len(df)] *)
Definition len (df : DataFrame) : nat := length (rows df).

(** [df.index] *)
Definition index (df : DataFrame) : list nat := (rows df).*1.

Definition cell (r : gmap colkey value) (c : colkey) : value :=
  default NaN (r !! c).

(** The columns selected by [df[top]]: those whose first level is [top]. *)
Definition top_level_columns (top : string) (df : DataFrame) : list colkey :=
  filter (λ c, head c = Some top) (columns df).

(** [df[top].values], one list of cells per row; [KeyError] when no column
    has [top] as its first level. *)
Definition getitem_values (top : string) (df : DataFrame)
  : outcome (list (list value)) :=
  match top_level_columns top df with
  | [] => Raises KeyError
  | cs => Returns ((λ r, cell r.2 <$> cs) <$> rows df)
  end.

(** [np.where(df[top].values == v)[0]]: the positions of the rows holding
    [v] under [top], once per matching cell. *)
Definition where_equal (v : value) (vals : list (list value)) : list nat :=
  mjoin (imap (λ i cells, const i <$> filter (λ x, x = v) cells) vals).

(** [v in df[top].values] *)
Definition values_contain (v : value) (vals : list (list value)) : bool :=
  bool_decide (Exists (λ cells, v ∈ cells) vals).

(** [df.drop(labels)]: the rows whose label is listed are removed;
    [KeyError] when a listed label is not in the index. *)
Definition drop (labels : list nat) (df : DataFrame) : outcome DataFrame :=
  if decide (Forall (λ l, l ∈ index df) labels) then
    Returns {| columns := columns df; nlevels := nlevels df;
               rows := filter (λ r, r.1 ∉ labels) (rows df) |}
  else Raises KeyError.

(** [df.index = pandas.Index(range(len(df)))] *)
Definition set_range_index (df : DataFrame) : DataFrame :=
  {| columns := columns df; nlevels := nlevels df;
     rows := imap (λ i r, (i, r.2)) (rows df) |}.

(** [df.at[label, c]] read: [KeyError] when the column or the label is
    missing. *)
Definition at_get (label : nat) (c : colkey) (df : DataFrame) : outcome value :=
  if decide (c ∈ columns df) then
    match list_find (λ r, r.1 = label) (rows df) with
    | Some (_, r) => Returns (cell r.2 c)
    | None => Raises KeyError
    end
  else Raises KeyError.

(** [df.at[label, c] = v]: the column is created when missing (other rows
    read NaN there) and a row is appended when the label is missing. *)
Definition at_set (label : nat) (c : colkey) (v : value) (df : DataFrame)
  : DataFrame :=
  {| columns := if decide (c ∈ columns df) then columns df
                else columns df ++ [c];
     nlevels := nlevels df;
     rows := if decide (label ∈ index df)
             then (λ r, if decide (r.1 = label)
                        then (r.1, <[c := v]> r.2) else r) <$> rows df
             else rows df ++ [(label, {[c := v]})] |}.

(** [df.iloc[i].to_dict()[c]]: the cell of column [c] in the row at
    position [i]. *)
Definition iloc (i : nat) (df : DataFrame) : outcome (gmap colkey value) :=
  match rows df !! i with
  | Some r => Returns r.2
  | None => Raises IndexError
  end.

Definition to_dict_get (df : DataFrame) (r : gmap colkey value) (c : colkey)
  : outcome value :=
  if decide (c ∈ columns df) then Returns (cell r c) else Raises KeyError.

(** The functions of [lyse.dataframe_utilities], [pandas.notna] and the
    built-ins [str.splitlines] and [str.format], which the modelled code
    calls and which lie outside the source tree.  [notna] and [format_04d]
    are given a value read from [df[top].values]: the columns that [df[top]]
    selects and the cells of the row under them.  [notna] is the truth of
    [pandas.notna(val)] as an [if] reads it, and [format_04d] is
    ['{:04d}'.format(val)]; both can raise. *)
Class Helpers := {
  concat_with_padding : list DataFrame → DataFrame;
  replace_with_padding : DataFrame → DataFrame → nat → DataFrame;
  get_dataframe_from_shot : string → outcome DataFrame;
  splitlines : string → list string;
  notna : list colkey → list value → outcome bool;
  format_04d : list colkey → list value → outcome string;
}.

End pandas.

(** * The Qt item model shown by the table view *)

Module Qt.

(** A [QStandardItem]: its text and the data stored under the two roles
    [ROLE_STATUS_PERCENT] and [ROLE_DELETED_OFF_DISK].  Unset data reads
    [None]; for the second role only its truth value is ever used. *)
Record item := {
  text : string;
  status_percent : option Z;
  deleted_off_disk : bool;
}.

#[global] Instance item_eq_dec : EqDecision item.
Proof. solve_decision. Defined.

(** [QStandardItem(text)] *)
Definition new_item (s : string) : item :=
  {| text := s; status_percent := None; deleted_off_disk := false |}.

Definition setText (s : string) (it : item) : item :=
  {| text := s; status_percent := status_percent it;
     deleted_off_disk := deleted_off_disk it |}.

Definition setStatusPercent (p : Z) (it : item) : item :=
  {| text := text it; status_percent := Some p;
     deleted_off_disk := deleted_off_disk it |}.

Definition setDeletedOffDisk (b : bool) (it : item) : item :=
  {| text := text it; status_percent := status_percent it;
     deleted_off_disk := b |}.

(** A [QStandardItemModel]: its rows, each a list of cells by column where
    a cell without item is [None] (cells past the end of the list have no
    item either), and its column count. *)
Record QStandardItemModel := {
  qrows : list (list (option item));
  columnCount : nat;
}.

Definition rowCount (m : QStandardItemModel) : nat := length (qrows m).

(** [model.item(r, c)], [None] when there is no item. *)
Definition item_at (r c : nat) (m : QStandardItemModel) : option item :=
  row ← qrows m !! r; mjoin (row !! c).

Definition appendRow (items : list item) (m : QStandardItemModel)
  : QStandardItemModel :=
  {| qrows := qrows m ++ [Some <$> items];
     columnCount := columnCount m `max` length items |}.

Definition removeRow (r : nat) (m : QStandardItemModel) : QStandardItemModel :=
  {| qrows := delete r (qrows m); columnCount := columnCount m |}.

(** [model.removeColumn(c)] does nothing when [c] is not a column. *)
Definition removeColumn (c : nat) (m : QStandardItemModel) : QStandardItemModel :=
  if decide (c < columnCount m) then
    {| qrows := delete c <$> qrows m; columnCount := columnCount m - 1 |}
  else m.

(** [model.insertColumns(column, count)] *)
Definition insertColumns (column count : nat) (m : QStandardItemModel)
  : QStandardItemModel :=
  if decide (column ≤ columnCount m ∧ 0 < count) then
    {| qrows := (λ row, if decide (column < length row)
                        then take column row ++ replicate count None
                               ++ drop column row
                        else row) <$> qrows m;
       columnCount := columnCount m + count |}
  else m.

(** [model.setItem(r, c, it)]; the model grows when the cell lies outside. *)
Definition setItem (r c : nat) (it : item) (m : QStandardItemModel)
  : QStandardItemModel :=
  {| qrows := alter (λ row, <[c := Some it]>
                              (row ++ replicate (S c - length row) None)) r
                (qrows m ++ replicate (S r - length (qrows m)) []);
     columnCount := columnCount m `max` S c |}.

(** A method called on the item object found at a cell changes it in
    place. *)
Definition update_item (r c : nat) (f : item → item) (m : QStandardItemModel)
  : QStandardItemModel :=
  {| qrows := alter (alter (fmap f) c) r (qrows m);
     columnCount := columnCount m |}.

End Qt.

(** * A state and exception monad for the methods *)

Definition M (S A : Type) : Type := S → outcome A * S.

Definition ret {S A} (a : A) : M S A := λ s, (Returns a, s).
Definition raise {S A} (e : exn) : M S A := λ s, (Raises e, s).
Definition bind {S A B} (m : M S A) (k : A → M S B) : M S B :=
  λ s, match m s with
       | (Returns a, s') => k a s'
       | (Raises e, s') => (Raises e, s')
       end.
Definition gets {S A} (f : S → A) : M S A := λ s, (Returns (f s), s).
Definition modify {S} (f : S → S) : M S unit := λ s, (Returns (), f s).
Definition lift {S A} (o : outcome A) : M S A := λ s, (o, s).
(** A dictionary or item lookup that raises [e] when nothing is found. *)
Definition found {S A} (e : exn) (o : option A) : M S A :=
  match o with Some a => ret a | None => raise e end.

Notation "'let!' x ':=' m 'in' k" := (bind m (λ x, k))
  (at level 10, x pattern, m at level 100, k at level 200,
   format "'let!'  x  ':='  m  'in' '//' k").
Notation "m ';;;' k" := (bind m (λ _, k))
  (at level 100, k at level 200, right associativity,
   format "m  ';;;' '//' k").

(** [o is None] *)
Definition is_none {A} (o : option A) : bool :=
  match o with None => true | Some _ => false end.

(** A [for] loop whose body can raise. *)
Fixpoint for_each {S A} (l : list A) (body : A → M S unit) : M S unit :=
  match l with
  | [] => ret ()
  | x :: l => body x ;;; for_each l body
  end.

(** * DataFrameModel: lyse/main_window.py, lines 279-732 *)

Module DataFrameModel.
Import pandas.

Definition COL_STATUS : nat := 0.
Definition COL_FILEPATH : nat := 1.

(** A name in [column_names]: the string of a special column or the tuple
    of a dataframe column. *)
Inductive colname :=
  | Special (s : string)
  | Tuple (t : colkey).

#[global] Instance colname_eq_dec : EqDecision colname.
Proof. solve_decision. Defined.

#[global] Instance colname_countable : Countable colname.
Proof.
  refine (inj_countable'
    (λ n, match n with Special s => inl s | Tuple t => inr t end)
    (λ x, match x with inl s => Special s | inr t => Tuple t end) _).
  by intros [].
Defined.

(** [isinstance(column_name, tuple)] *)
Definition is_tuple (n : colname) : bool :=
  match n with Tuple _ => true | Special _ => false end.

(** The attributes of a [DataFrameModel] object. *)
Record state := {
  dataframe : DataFrame;
  nlevels : nat;
  model : Qt.QStandardItemModel;
  row_number_by_filepath : gmap string nat;
  previous_n_digits : nat;
  column_indices : gmap colname nat;
  column_names : gmap nat colname;
  columns_visible : gmap nat bool;
  deleted_columns_visible : gmap colname bool;
  signals_blocked : bool;
  integer_indexing : bool;
}.

Definition set_dataframe (df : DataFrame) (s : state) : state :=
  {| dataframe := df; nlevels := nlevels s; model := model s;
     row_number_by_filepath := row_number_by_filepath s;
     previous_n_digits := previous_n_digits s;
     column_indices := column_indices s; column_names := column_names s;
     columns_visible := columns_visible s;
     deleted_columns_visible := deleted_columns_visible s;
     signals_blocked := signals_blocked s;
     integer_indexing := integer_indexing s |}.

Definition set_nlevels (n : nat) (s : state) : state :=
  {| dataframe := dataframe s; nlevels := n; model := model s;
     row_number_by_filepath := row_number_by_filepath s;
     previous_n_digits := previous_n_digits s;
     column_indices := column_indices s; column_names := column_names s;
     columns_visible := columns_visible s;
     deleted_columns_visible := deleted_columns_visible s;
     signals_blocked := signals_blocked s;
     integer_indexing := integer_indexing s |}.

Definition set_model (f : Qt.QStandardItemModel → Qt.QStandardItemModel)
    (s : state) : state :=
  {| dataframe := dataframe s; nlevels := nlevels s; model := f (model s);
     row_number_by_filepath := row_number_by_filepath s;
     previous_n_digits := previous_n_digits s;
     column_indices := column_indices s; column_names := column_names s;
     columns_visible := columns_visible s;
     deleted_columns_visible := deleted_columns_visible s;
     signals_blocked := signals_blocked s;
     integer_indexing := integer_indexing s |}.

Definition set_row_number_by_filepath (m : gmap string nat) (s : state) : state :=
  {| dataframe := dataframe s; nlevels := nlevels s; model := model s;
     row_number_by_filepath := m;
     previous_n_digits := previous_n_digits s;
     column_indices := column_indices s; column_names := column_names s;
     columns_visible := columns_visible s;
     deleted_columns_visible := deleted_columns_visible s;
     signals_blocked := signals_blocked s;
     integer_indexing := integer_indexing s |}.

Definition set_previous_n_digits (n : nat) (s : state) : state :=
  {| dataframe := dataframe s; nlevels := nlevels s; model := model s;
     row_number_by_filepath := row_number_by_filepath s;
     previous_n_digits := n;
     column_indices := column_indices s; column_names := column_names s;
     columns_visible := columns_visible s;
     deleted_columns_visible := deleted_columns_visible s;
     signals_blocked := signals_blocked s;
     integer_indexing := integer_indexing s |}.

Definition set_column_indices (m : gmap colname nat) (s : state) : state :=
  {| dataframe := dataframe s; nlevels := nlevels s; model := model s;
     row_number_by_filepath := row_number_by_filepath s;
     previous_n_digits := previous_n_digits s;
     column_indices := m; column_names := column_names s;
     columns_visible := columns_visible s;
     deleted_columns_visible := deleted_columns_visible s;
     signals_blocked := signals_blocked s;
     integer_indexing := integer_indexing s |}.

Definition set_column_names (m : gmap nat colname) (s : state) : state :=
  {| dataframe := dataframe s; nlevels := nlevels s; model := model s;
     row_number_by_filepath := row_number_by_filepath s;
     previous_n_digits := previous_n_digits s;
     column_indices := column_indices s; column_names := m;
     columns_visible := columns_visible s;
     deleted_columns_visible := deleted_columns_visible s;
     signals_blocked := signals_blocked s;
     integer_indexing := integer_indexing s |}.

Definition set_columns_visible (m : gmap nat bool) (s : state) : state :=
  {| dataframe := dataframe s; nlevels := nlevels s; model := model s;
     row_number_by_filepath := row_number_by_filepath s;
     previous_n_digits := previous_n_digits s;
     column_indices := column_indices s; column_names := column_names s;
     columns_visible := m;
     deleted_columns_visible := deleted_columns_visible s;
     signals_blocked := signals_blocked s;
     integer_indexing := integer_indexing s |}.

Definition set_deleted_columns_visible (m : gmap colname bool) (s : state)
  : state :=
  {| dataframe := dataframe s; nlevels := nlevels s; model := model s;
     row_number_by_filepath := row_number_by_filepath s;
     previous_n_digits := previous_n_digits s;
     column_indices := column_indices s; column_names := column_names s;
     columns_visible := columns_visible s;
     deleted_columns_visible := m;
     signals_blocked := signals_blocked s;
     integer_indexing := integer_indexing s |}.

(** [self._model.blockSignals(b)] *)
Definition blockSignals (b : bool) (s : state) : state :=
  {| dataframe := dataframe s; nlevels := nlevels s; model := model s;
     row_number_by_filepath := row_number_by_filepath s;
     previous_n_digits := previous_n_digits s;
     column_indices := column_indices s; column_names := column_names s;
     columns_visible := columns_visible s;
     deleted_columns_visible := deleted_columns_visible s;
     signals_blocked := b;
     integer_indexing := integer_indexing s |}.

(** [('filepath',) + ('',) * (nlevels - 1)] *)
Definition filepath_colname (nlevels : nat) : colkey :=
  "filepath" :: replicate (nlevels - 1) "".

(** The object as [__init__] leaves it (lines 289-356); [integer_indexing]
    is what [exp_config.getboolean('lyse', 'integer_indexing')] gives, and
    [False] when the configuration has no such option (lines 320-323). *)
Definition init (integer_indexing : bool) : state :=
  {| dataframe := {| columns := [["filepath"; ""]]; pandas.nlevels := 2;
                     rows := [] |};
     nlevels := 2;
     model := {| Qt.qrows := []; Qt.columnCount := 2 |};
     row_number_by_filepath := ∅;
     previous_n_digits := 0;
     column_indices := {[ Special "__status" := COL_STATUS;
                          Tuple ["filepath"; ""] := COL_FILEPATH ]};
     column_names := {[ COL_STATUS := Special "__status";
                        COL_FILEPATH := Tuple ["filepath"; ""] ]};
     columns_visible := {[ COL_STATUS := true; COL_FILEPATH := true ]};
     deleted_columns_visible := ∅;
     signals_blocked := false;
     DataFrameModel.integer_indexing := integer_indexing |}.

(** A dictionary built by assigning the items in order: a later item
    replaces an earlier one with the same key. *)
Definition dict_from `{Countable K} {A} (items : list (K * A)) : gmap K A :=
  list_to_map (reverse items).

(** [sorted(d.items())] for a dictionary with integer keys: the keys of a
    dictionary differ, so the items are ordered by key. *)
Definition key_le {A} (a b : nat * A) : Prop := a.1 ≤ b.1.

#[global] Instance key_le_dec {A} : RelDecision (@key_le A).
Proof. intros a b. unfold key_le. apply _. Defined.

Definition sorted_items {A} (d : gmap nat A) : list (nat * A) :=
  merge_sort key_le (map_to_list d).

(** [{newindex: x for newindex, (oldindex, x) in enumerate(sorted(d.items()))}] *)
Definition renumber {A} (d : gmap nat A) : gmap nat A :=
  dict_from (imap (λ newindex kv, (newindex, kv.2)) (sorted_items d)).

(** [{name: index for index, name in d.items()}] *)
Definition inverse_mapping (d : gmap nat colname) : gmap colname nat :=
  dict_from ((λ kv, (kv.2, kv.1)) <$> map_to_list d).

(** The order of Python on tuples of strings, and on names. *)
Fixpoint tuple_compare (a b : colkey) : comparison :=
  match a, b with
  | [], [] => Eq
  | [], _ :: _ => Lt
  | _ :: _, [] => Gt
  | x :: a, y :: b =>
      match String.compare x y with
      | Eq => tuple_compare a b
      | c => c
      end
  end.

Definition colname_le (n1 n2 : colname) : Prop :=
  match n1, n2 with
  | Special s1, Special s2 => String.leb s1 s2 = true
  | Special _, Tuple _ => True
  | Tuple _, Special _ => False
  | Tuple a, Tuple b => tuple_compare a b ≠ Gt
  end.

#[global] Instance colname_le_dec : RelDecision colname_le.
Proof. intros [?|?] [?|?]; simpl; apply _. Defined.

(** [len(str(n))] for a natural number. *)
Fixpoint n_digits_aux (fuel n : nat) : nat :=
  match fuel with
  | 0 => 1
  | S fuel => if decide (n < 10) then 1 else S (n_digits_aux fuel (n / 10))
  end.
Definition n_digits (n : nat) : nat := n_digits_aux n n.

Section Methods.
Context `{!Helpers}.

(** [new_row(filepath, done)]: the status item and the name item. *)
Definition new_row (filepath : string) (done : bool) : list Qt.item :=
  [ {| Qt.text := "";
       Qt.status_percent := Some (if done then 100%Z else 0%Z);
       Qt.deleted_off_disk := false |};
    Qt.new_item filepath ].

(** [get_first_incomplete()], lines 725-732: the rows are visited in
    order; falling off the loop returns [None]. *)
Fixpoint first_incomplete (qrows : list (list (option Qt.item)))
  : outcome (option string) :=
  match qrows with
  | [] => Returns None
  | row :: qrows =>
      match mjoin (row !! COL_STATUS) with
      | None => Raises AttributeError
      | Some status_item =>
          if decide (Qt.status_percent status_item ≠ Some 100%Z) then
            match mjoin (row !! COL_FILEPATH) with
            | None => Raises AttributeError
            | Some filepath_item => Returns (Some (Qt.text filepath_item))
            end
          else first_incomplete qrows
      end
  end.

Definition get_first_incomplete (self : state) : outcome (option string) :=
  first_incomplete (Qt.qrows (model self)).

(** [set_status_percent(filepath, status_percent)], lines 623-630. *)
Definition set_status_percent (filepath : string) (status_percent : Z)
  : M state unit :=
  let! known := gets (λ self, row_number_by_filepath self !! filepath) in
  match known with
  | None => ret ()
  | Some row_number =>
      let! _ := (λ self, found AttributeError
                   (Qt.item_at row_number COL_STATUS (model self)) self) in
      modify (set_model (Qt.update_item row_number COL_STATUS
                           (Qt.setStatusPercent status_percent)))
  end.

(** The columns of line 667. *)
Definition header_cols : list string :=
  ["sequence_index"; "run number"; "run repeat"].

(** Lines 670-674 for one of [header_cols]: the text for the value of the
    row under the column. *)
Definition header_string (row_number : nat) (col : string) (df : DataFrame)
  : outcome string :=
  match getitem_values col df with
  | Raises e => Raises e
  | Returns vals =>
      match vals !! row_number with
      | None => Raises IndexError
      | Some val =>
          match notna (top_level_columns col df) val with
          | Raises e => Raises e
          | Returns true => format_04d (top_level_columns col df) val
          | Returns false => Returns "----"
          end
      end
  end.

(** The body of the loop of [renumber_rows], lines 659-679.  The text of
    the vertical header is shown only and is not kept; with
    [integer_indexing] it is made of the values that the dataframe holds for
    the row under [header_cols], and reading or formatting one of them can
    raise. *)
Definition number_row (row_number : nat) : M state unit :=
  let! filepath_item := (λ self, found AttributeError
               (Qt.item_at row_number COL_FILEPATH (model self)) self) in
  modify (λ self, set_row_number_by_filepath
                    (<[Qt.text filepath_item := row_number]>
                       (row_number_by_filepath self)) self) ;;;
  let! integer_indexing := gets integer_indexing in
  if integer_indexing : bool then
    for_each header_cols (λ col,
      let! df := gets dataframe in
      let! _ := lift (header_string row_number col df) in
      ret ())
  else ret ().

(** [renumber_rows(add_from)], lines 643-679. *)
Definition renumber_rows (add_from : nat) : M state unit :=
  let! rowCount := gets (λ self, Qt.rowCount (model self)) in
  let! previous := gets previous_n_digits in
  let add_from := if decide (n_digits rowCount ≠ previous) then 0 else add_from in
  modify (set_previous_n_digits (n_digits rowCount)) ;;;
  (if decide (add_from = 0) then modify (set_row_number_by_filepath ∅)
   else ret ()) ;;;
  for_each (seq add_from (rowCount - add_from)) number_row.

(** [column_name + ('',) * extra_levels] for a tuple; a special name is
    kept. *)
Definition pad_name (extra_levels : nat) (column_name : colname) : colname :=
  match column_name with
  | Special s => Special s
  | Tuple t => Tuple (t ++ replicate extra_levels "")
  end.

(** [update_column_levels()], lines 434-454. *)
Definition update_column_levels (self : state) : state :=
  let extra_levels := pandas.nlevels (dataframe self) - nlevels self in
  if decide (0 < extra_levels) then
    let items := map_to_list (column_indices self) in
    set_column_names
      (dict_from ((λ kv, (kv.2, pad_name extra_levels kv.1)) <$> items))
      (set_column_indices
         (dict_from ((λ kv, (pad_name extra_levels kv.1, kv.2)) <$> items))
         (set_nlevels (pandas.nlevels (dataframe self)) self))
  else self.

(** [mark_as_deleted_off_disk(filepath)], lines 457-476. *)
Definition mark_as_deleted_off_disk (filepath : string) : M state unit :=
  let! vals := (λ self, (getitem_values "filepath" (dataframe self), self)) in
  if negb (values_contain (VStr filepath) vals) then ret () else
  let! row_number := (λ self, found KeyError
                        (row_number_by_filepath self !! filepath) self) in
  let! status_item := (λ self, found AttributeError
                         (Qt.item_at row_number COL_STATUS (model self)) self) in
  if Qt.deleted_off_disk status_item then ret () else
  modify (set_model (Qt.update_item row_number COL_STATUS
            (λ it, Qt.setStatusPercent 100 (Qt.setDeletedOffDisk true it)))).

(** The data a worker reports for one shot: a dictionary keyed by
    (group, name), given by its items in order. *)
Definition updated_row : Type := list ((string * string) * value).

(** Lines 508-523: every reported value is stored with
    [dataframe.at[row_number, column_name] = value].  The [except
    ValueError] branch first creates the column or widens its type and then
    stores the value: the cell and the set of columns end up the same. *)
Definition set_updated_cells (row_number : nat) (updated_row_data : updated_row)
    (self : state) : state :=
  foldl (λ self item,
           let column_name :=
             [item.1.1; item.1.2] ++ replicate (nlevels self - 2) "" in
           set_dataframe
             (at_set row_number column_name item.2 (dataframe self)) self)
        self updated_row_data.

(** Lines 535-555: a column of the Qt model is made for every new name. *)
Definition new_column_names (self : state) : gset colname :=
  list_to_set (Tuple <$> columns (dataframe self)) ∖ map_img (column_names self).

Definition add_column (column_number : nat) (column_name : colname)
    (self : state) : state :=
  let visible := default true (deleted_columns_visible self !! column_name) in
  set_columns_visible (<[column_number := visible]> (columns_visible self))
    (set_column_indices (<[column_name := column_number]> (column_indices self))
       (set_column_names (<[column_number := column_name]> (column_names self))
          self)).

Fixpoint add_columns (column_number : nat) (names : list colname)
    (self : state) : state :=
  match names with
  | [] => self
  | column_name :: names =>
      add_columns (S column_number) names
        (add_column column_number column_name self)
  end.

Definition create_new_columns (self : state) : state :=
  let sorted_new := merge_sort colname_le (elements (new_column_names self)) in
  let new_columns_start := Qt.columnCount (model self) in
  add_columns new_columns_start sorted_new
    (set_model (Qt.insertColumns new_columns_start (length sorted_new)) self).

(** Lines 558-577: the columns whose name left the dataframe are removed,
    the two special columns excepted, and the dictionaries renumbered. *)
Definition defunct_column_names (self : state) : outcome (gset colname) :=
  match column_names self !! COL_STATUS, column_names self !! COL_FILEPATH with
  | Some status_name, Some filepath_name =>
      Returns (map_img (column_names self)
                 ∖ list_to_set (Tuple <$> columns (dataframe self))
                 ∖ {[status_name; filepath_name]})
  | _, _ => Raises KeyError
  end.

Fixpoint lookup_all `{Countable K} {A} (d : gmap K A) (keys : list K)
  : outcome (list A) :=
  match keys with
  | [] => Returns []
  | k :: keys =>
      match d !! k, lookup_all d keys with
      | Some a, Returns l => Returns (a :: l)
      | _, _ => Raises KeyError
      end
  end.

Definition remove_column (column_number : nat) : M state unit :=
  modify (set_model (Qt.removeColumn column_number)) ;;;
  let! visible := (λ self, found KeyError
                     (columns_visible self !! column_number) self) in
  let! name := (λ self, found KeyError
                  (column_names self !! column_number) self) in
  modify (λ self,
    set_columns_visible (delete column_number (columns_visible self))
      (set_column_names (delete column_number (column_names self))
         (set_deleted_columns_visible
            (<[name := visible]> (deleted_columns_visible self)) self))).

Definition renumber_columns (self : state) : state :=
  let names := renumber (column_names self) in
  set_column_indices (inverse_mapping names)
    (set_columns_visible (renumber (columns_visible self))
       (set_column_names names self)).

Definition remove_defunct_columns : M state unit :=
  let! defunct := (λ self, (defunct_column_names self, self)) in
  let! defunct_column_indices :=
    (λ self, (lookup_all (column_indices self) (elements defunct), self)) in
  for_each (merge_sort (flip le) defunct_column_indices) remove_column ;;;
  if decide (defunct_column_indices = []) then ret ()
  else modify renumber_columns.

(** Lines 590-598: the text shown for a value. *)
Definition value_str (v : value) : string :=
  match v with VStr s => s | VFloat shown => shown | VObj shown => shown end.

Definition short_value_str (v : value) : string :=
  let lines := splitlines (value_str v) in
  if decide (1 < length lines) then default "" (head lines) +:+ " ..."
  else value_str v.

(** Lines 600-607: the text goes to the item of the cell, which is made
    when the cell has none. *)
Definition set_cell_text (r c : nat) (s : string) (m : Qt.QStandardItemModel)
  : Qt.QStandardItemModel :=
  match Qt.item_at r c m with
  | None => Qt.setItem r c (Qt.new_item s) m
  | Some _ => Qt.update_item r c (Qt.setText s) m
  end.

(** [tuple(s for s in column_name if s) in updated_row_data] *)
Definition reported (updated_row_data : updated_row) (column_name : colkey)
  : bool :=
  bool_decide (filter (λ s, s ≠ "") column_name
                 ∈ (λ item, [item.1.1; item.1.2]) <$> updated_row_data).

(** Lines 581-608: the body of the loop over [column_names.items()]. *)
Definition write_cell (row_number : nat) (updated_row_data : option updated_row)
    (dataframe_row : gmap colkey value) (entry : nat * colname)
  : M state unit :=
  match entry.2 with
  | Special _ => ret ()
  | Tuple column_name =>
      if match updated_row_data with
         | Some d => negb (reported d column_name)
         | None => false
         end
      then ret ()
      else
        let! v := (λ self,
          (to_dict_get (dataframe self) dataframe_row column_name, self)) in
        modify (set_model
                  (set_cell_text row_number entry.1 (short_value_str v)))
  end.

(** [update_row(filepath, dataframe_already_updated, new_row_data,
    updated_row_data)], lines 488-620. *)
Definition update_row (filepath : string) (dataframe_already_updated : bool)
    (new_row_data : option DataFrame) (updated_row_data : option updated_row)
  : M state unit :=
  modify (blockSignals true) ;;;
  if Bool.eqb (is_none new_row_data) (is_none updated_row_data)
     && negb dataframe_already_updated
  then raise ValueError else
  let! known := gets (λ self, row_number_by_filepath self !! filepath) in
  match known with
  | None => ret ()
  | Some row_number =>
      let! stored := (λ self,
        (at_get row_number (filepath_colname (nlevels self)) (dataframe self),
         self)) in
      if decide (stored ≠ VStr filepath) then raise AssertionError else
      match updated_row_data with
      | Some d =>
          if dataframe_already_updated then ret ()
          else modify (set_updated_cells row_number d)
      | None =>
          if dataframe_already_updated then ret () else
          match new_row_data with
          | None => raise ValueError
          | Some row =>
              modify (λ self, update_column_levels
                (set_dataframe
                   (replace_with_padding (dataframe self) row row_number)
                   self))
          end
      end ;;;
      modify create_new_columns ;;;
      remove_defunct_columns ;;;
      let! dataframe_row := (λ self, (iloc row_number (dataframe self), self)) in
      let! entries := gets (λ self, map_to_list (column_names self)) in
      for_each entries (write_cell row_number updated_row_data dataframe_row) ;;;
      modify (blockSignals false)
  end.

(** Lines 689-697 of [add_files]: the filepaths already in the model or
    met earlier in the call are left out of [to_add] (a warning is
    printed), and the rows of [new_row_data] holding such a filepath are
    dropped. *)
Definition drop_rows_of (filepath : string) (new_row_data : DataFrame)
  : outcome DataFrame :=
  match getitem_values "filepath" new_row_data with
  | Raises e => Raises e
  | Returns vals =>
      match drop (where_equal (VStr filepath) vals) new_row_data with
      | Raises e => Raises e
      | Returns df => Returns (set_range_index df)
      end
  end.

Fixpoint check_duplicates (known : gmap string nat)
    (filepaths to_add : list string) (new_row_data : option DataFrame)
  : outcome (list string * option DataFrame) :=
  match filepaths with
  | [] => Returns (to_add, new_row_data)
  | filepath :: filepaths =>
      if decide (is_Some (known !! filepath) ∨ filepath ∈ to_add) then
        match new_row_data with
        | None => check_duplicates known filepaths to_add None
        | Some df =>
            match drop_rows_of filepath df with
            | Raises e => Raises e
            | Returns df => check_duplicates known filepaths to_add (Some df)
            end
        end
      else check_duplicates known filepaths (to_add ++ [filepath]) new_row_data
  end.

(** [add_files(filepaths, new_row_data, done)], lines 682-721. *)
Definition add_files (filepaths : list string) (new_row_data : option DataFrame)
    (done : bool) : M state unit :=
  let! checked := (λ self,
    (check_duplicates (row_number_by_filepath self) filepaths [] new_row_data,
     self)) in
  let to_add := checked.1 in
  match checked.2 with
  | None => raise TypeError
  | Some new_row_data =>
      if decide (len new_row_data ≠ length to_add) then raise AssertionError
      else
        (if decide (to_add = []) then ret ()
         else modify (λ self, update_column_levels
                (set_dataframe
                   (concat_with_padding [dataframe self; new_row_data]) self))) ;;;
        for_each to_add (λ filepath,
          modify (set_model (Qt.appendRow (new_row filepath done)))) ;;;
        let! rowCount := gets (λ self, Qt.rowCount (model self)) in
        renumber_rows (rowCount - length to_add) ;;;
        for_each to_add (λ filepath, update_row filepath true None None)
  end.

(** Lines 377-379 of [remove_selection]: every selected item is asked for
    the row it is in now, which is the row it had when selected less the
    number of rows already removed above it, and that row is removed.  An
    item no longer in the model answers -1 and nothing is removed. *)
Fixpoint remove_selected_rows (selected removed : list nat)
    (m : Qt.QStandardItemModel) : Qt.QStandardItemModel :=
  match selected with
  | [] => m
  | row :: selected =>
      if decide (row ∈ removed) then remove_selected_rows selected removed m
      else remove_selected_rows selected (row :: removed)
             (Qt.removeRow (row - length (filter (λ r, r < row) removed)) m)
  end.

(** [remove_selection(confirm)], lines 365-380, for the rows selected in
    the view and the answer the user gives to the question dialog. *)
Definition remove_selection (selected_rows : list nat) (confirm answer : bool)
  : M state unit :=
  if decide (selected_rows = []) then ret () else
  if confirm && negb answer then ret () else
  let! df := (λ self, (drop selected_rows (dataframe self), self)) in
  modify (set_dataframe (set_range_index df)) ;;;
  modify (set_model (remove_selected_rows selected_rows [])) ;;;
  renumber_rows 0.

(** The body of the loop of [mark_selection_not_done], lines 386-400;
    [exists_] is [os.path.exists]. *)
Definition mark_row_not_done (exists_ : string → bool) (row : nat)
  : M state unit :=
  let! status_item := (λ self, found AttributeError
                         (Qt.item_at row COL_STATUS (model self)) self) in
  if Qt.deleted_off_disk status_item then
    let! filepath_item := (λ self, found AttributeError
                             (Qt.item_at row COL_FILEPATH (model self)) self) in
    if negb (exists_ (Qt.text filepath_item)) then ret ()
    else modify (set_model (Qt.update_item row COL_STATUS
                   (λ it, Qt.setStatusPercent 0 (Qt.setDeletedOffDisk false it))))
  else modify (set_model (Qt.update_item row COL_STATUS (Qt.setStatusPercent 0))).

(** [mark_selection_not_done()], lines 382-400. *)
Definition mark_selection_not_done (exists_ : string → bool)
    (selected_rows : gset nat) : M state unit :=
  for_each (elements selected_rows) (mark_row_not_done exists_).

End Methods.

(** ** Terms used to state the properties of the model *)

(** The status item and the filepath item of every row of a Qt model. *)
Definition shot_items (m : Qt.QStandardItemModel)
  : list (option Qt.item * option Qt.item) :=
  (λ row, (mjoin (row !! COL_STATUS), mjoin (row !! COL_FILEPATH)))
    <$> Qt.qrows m.

(** The status item and the filepath item of a row appended by
    [add_files] for a filepath. *)
Definition appended (done : bool) (fp : string)
  : option Qt.item * option Qt.item :=
  (Some {| Qt.text := "";
           Qt.status_percent := Some (if done then 100%Z else 0%Z);
           Qt.deleted_off_disk := false |},
   Some (Qt.new_item fp)).

(** The status item of a row after a method was called on it. *)
Definition restatus (f : Qt.item → Qt.item)
    (x : option Qt.item * option Qt.item) : option Qt.item * option Qt.item :=
  (f <$> x.1, x.2).

(** [status_item.data(ROLE_STATUS_PERCENT)] and
    [status_item.data(ROLE_DELETED_OFF_DISK)] for the status item of a
    row. *)
Definition row_status (self : state) (row : nat) : option Z :=
  it ← Qt.item_at row COL_STATUS (model self); Qt.status_percent it.

Definition row_deleted_off_disk (self : state) (row : nat) : bool :=
  default false (Qt.deleted_off_disk <$> Qt.item_at row COL_STATUS (model self)).

(** What is left of a list, whose first element has position [i], when
    the elements at the positions [removed] are taken out. *)
Fixpoint remaining_from {A} (i : nat) (removed : list nat) (l : list A)
  : list A :=
  match l with
  | [] => []
  | x :: l =>
      if decide (i ∈ removed) then remaining_from (S i) removed l
      else x :: remaining_from (S i) removed l
  end.

(** The filepath item of a row after [text] was written to it. *)
Definition retext (text : string) (x : option Qt.item * option Qt.item)
  : option Qt.item * option Qt.item :=
  (x.1, Some (match x.2 with
              | Some it => Qt.setText text it
              | None => Qt.new_item text
              end)).

(** No two keys of a dictionary hold the same value. *)
Definition injective {A} (d : gmap nat A) : Prop :=
  ∀ i j x, d !! i = Some x → d !! j = Some x → i = j.

(** The column dictionaries are coherent and their keys are the numbers
    below [k]: the two special columns sit at 0 and 1, [column_indices] is
    the exact inverse of [column_names], and [columns_visible] has the same
    keys. *)
Record cols_inv (k : nat) (s : state) : Prop := {
  ci_status : column_names s !! COL_STATUS = Some (Special "__status");
  ci_filepath :
    column_names s !! COL_FILEPATH = Some (Tuple (filepath_colname (nlevels s)));
  ci_keys : ∀ i, is_Some (column_names s !! i) ↔ i < k;
  ci_inverse : ∀ i n,
    column_names s !! i = Some n ↔ column_indices s !! n = Some i;
  ci_visible : ∀ i,
    is_Some (columns_visible s !! i) ↔ is_Some (column_names s !! i);
}.

(** The column dictionaries number exactly the columns of the Qt model. *)
Definition columns_wf (s : state) : Prop :=
  cols_inv (Qt.columnCount (model s)) s ∧ 1 ≤ nlevels s.

(** The tuple-named columns of the model are exactly the columns of the
    dataframe. *)
Definition columns_synced (s : state) : Prop :=
  ∀ t, (∃ i, column_names s !! i = Some (Tuple t)) ↔ t ∈ columns (dataframe s).

(** What an operation on the columns leaves alone. *)
Record same_table (s s' : state) : Prop := {
  st_dataframe : dataframe s' = dataframe s;
  st_nlevels : nlevels s' = nlevels s;
  st_rows : row_number_by_filepath s' = row_number_by_filepath s;
  st_digits : previous_n_digits s' = previous_n_digits s;
}.

(** The filepaths shown by the rows of the Qt model. *)
Definition shown (m : Qt.QStandardItemModel) : list (option string) :=
  (λ x : option Qt.item * option Qt.item, Qt.text <$> x.2) <$> shot_items m.

(** The filepath stored in every row of the dataframe. *)
Definition stored_filepaths (nlevels : nat) (df : DataFrame) : list value :=
  (λ r, cell r.2 (filepath_colname nlevels)) <$> rows df.

(** The table holds the shots [fps], in this order, row for row: the
    index of the dataframe is [0..n-1], row [i] of the dataframe stores and
    row [i] of the Qt model shows the filepath [fps !! i], every row of the
    Qt model has a status item, and [row_number_by_filepath] maps exactly
    each filepath to its row. *)
Record table_of (s : state) (fps : list string) : Prop := {
  t_index : index (dataframe s) = seq 0 (length fps);
  t_column : filepath_colname (nlevels s) ∈ columns (dataframe s);
  t_stored : stored_filepaths (nlevels s) (dataframe s) = VStr <$> fps;
  t_shown : shown (model s) = Some <$> fps;
  t_status : Forall (λ x, is_Some x.1) (shot_items (model s));
  t_rows : ∀ fp i, row_number_by_filepath s !! fp = Some i ↔ fps !! i = Some fp;
}.

(** What writing the cells of a row leaves alone. *)
Record same_columns (s s' : state) : Prop := {
  sc_names : column_names s' = column_names s;
  sc_indices : column_indices s' = column_indices s;
  sc_visible : columns_visible s' = columns_visible s;
  sc_count : Qt.columnCount (model s') = Qt.columnCount (model s);
}.

(** What numbering the rows leaves alone. *)
Record same_but_row_numbers (s s' : state) : Prop := {
  sr_dataframe : dataframe s' = dataframe s;
  sr_nlevels : nlevels s' = nlevels s;
  sr_model : model s' = model s;
  sr_columns : same_columns s s';
}.

(** The frame holds one row per filepath, in order and under a fresh
    index, and its filepath column is its only column headed
    ['filepath']. *)
Record rows_for (df : DataFrame) (filepaths : list string) : Prop := {
  rf_index : index df = seq 0 (length filepaths);
  rf_stored : stored_filepaths (pandas.nlevels df) df = VStr <$> filepaths;
  rf_column :
    top_level_columns "filepath" df = [filepath_colname (pandas.nlevels df)];
}.

(** Whether the loop of lines 581-608 writes the cell of a column. *)
Definition writes (updated_row_data : option updated_row) (t : colkey) : bool :=
  match updated_row_data with
  | Some d => reported d t
  | None => true
  end.

(** The reported values do not address the filepath column. *)
Definition leaves_filepath_column (d : updated_row) : Prop :=
  ∀ item, item ∈ d → ¬ (item.1.1 = "filepath" ∧ item.1.2 = "").

Section HelperTerms.
Context `{!Helpers}.

(** The text shown for the filepath is the filepath. *)
Definition shown_in_full (fp : string) : Prop :=
  short_value_str (VStr fp) = fp.

(** What the frame returned by [replace_with_padding] must keep for the
    filepath column to stay in place. *)
Definition replace_keeps_filepath_column (s : state) (row : DataFrame)
    (r : nat) : Prop :=
  nlevels s ≤ pandas.nlevels (replace_with_padding (dataframe s) row r)
  ∧ filepath_colname (pandas.nlevels (replace_with_padding (dataframe s) row r))
      ∈ columns (replace_with_padding (dataframe s) row r).

(** What the frame returned by [replace_with_padding] must keep for the
    table to stay consistent. *)
Definition replace_keeps_table (s : state) (row : DataFrame) (r : nat) : Prop :=
  replace_keeps_filepath_column s row r
  ∧ index (replace_with_padding (dataframe s) row r) = index (dataframe s)
  ∧ stored_filepaths
      (pandas.nlevels (replace_with_padding (dataframe s) row r))
      (replace_with_padding (dataframe s) row r)
    = stored_filepaths (nlevels s) (dataframe s).

(** What the frame returned by [concat_with_padding] for the dataframe
    and the new rows must be for the table to stay consistent: the rows of
    the one, then the rows of the other, under a fresh index, with their
    filepaths in the filepath column, and no level lost. *)
Record concat_ok (s : state) (new : DataFrame) : Prop := {
  co_index :
    index (concat_with_padding [dataframe s; new])
    = seq 0 (len (dataframe s) + len new);
  co_levels :
    nlevels s ≤ pandas.nlevels (concat_with_padding [dataframe s; new]);
  co_column :
    filepath_colname (pandas.nlevels (concat_with_padding [dataframe s; new]))
      ∈ columns (concat_with_padding [dataframe s; new]);
  co_stored :
    stored_filepaths
      (pandas.nlevels (concat_with_padding [dataframe s; new]))
      (concat_with_padding [dataframe s; new])
    = stored_filepaths (nlevels s) (dataframe s)
        ++ stored_filepaths (pandas.nlevels new) new;
}.

End HelperTerms.

(** ** A table for the examples *)

(** Plain stand-ins for the helpers, for frames with two levels of column
    labels and filepaths without line breaks: frames are concatenated row
    after row under the union of their columns with a fresh index, a row is
    replaced in place, every file under [/lab/shots/] can be read and holds
    its filepath and a run number, and a text is one line. *)
Definition example_concat (dataframes : list DataFrame) : DataFrame :=
  set_range_index
    {| columns := remove_dups (mjoin (columns <$> dataframes));
       pandas.nlevels := foldr max 0 (pandas.nlevels <$> dataframes);
       rows := mjoin (rows <$> dataframes) |}.

Definition example_replace (df row : DataFrame) (i : nat) : DataFrame :=
  {| columns := remove_dups (columns df ++ columns row);
     pandas.nlevels := pandas.nlevels df `max` pandas.nlevels row;
     rows := match rows row with
             | r :: _ => <[i := (i, r.2)]> (rows df)
             | [] => rows df
             end |}.

Definition example_shot (filepath : string) : DataFrame :=
  {| columns := [["filepath"; ""]; ["run number"; ""]];
     pandas.nlevels := 2;
     rows := [(0, {[ ["filepath"; ""] := VStr filepath;
                     ["run number"; ""] := VObj "7" ]})] |}.

Definition example_get_dataframe_from_shot (filepath : string)
  : outcome DataFrame :=
  if String.prefix "/lab/shots/" filepath then Returns (example_shot filepath)
  else Raises IOError.

(** A value is missing when it is the one cell NaN; the text of an
    object is padded with zeros to four characters, and a string, a float
    and a row of several cells are refused. *)
Definition example_notna (cs : list colkey) (val : list value)
  : outcome bool :=
  match val with
  | [v] => Returns (bool_decide (v ≠ NaN))
  | _ => Raises ValueError
  end.

Definition example_format_04d (cs : list colkey) (val : list value)
  : outcome string :=
  match val with
  | [VObj shown] =>
      Returns (String.concat "" (replicate (4 - String.length shown) "0")
               +:+ shown)
  | _ => Raises ValueError
  end.

Definition example_helpers : Helpers :=
  {| concat_with_padding := example_concat;
     replace_with_padding := example_replace;
     get_dataframe_from_shot := example_get_dataframe_from_shot;
     splitlines := λ s, [s];
     notna := example_notna;
     format_04d := example_format_04d |}.

(** The table after the shot [/lab/shots/0.h5] was added to an empty one
    and analysed. *)
Definition one_shot : state :=
  {| dataframe := example_shot "/lab/shots/0.h5";
     nlevels := 2;
     model := {| Qt.qrows :=
                   [[Some {| Qt.text := ""; Qt.status_percent := Some 100%Z;
                             Qt.deleted_off_disk := false |};
                     Some (Qt.new_item "/lab/shots/0.h5");
                     Some (Qt.new_item "7")]];
                 Qt.columnCount := 3 |};
     row_number_by_filepath := {[ "/lab/shots/0.h5" := 0 ]};
     previous_n_digits := 1;
     column_indices := {[ Special "__status" := 0;
                          Tuple ["filepath"; ""] := 1;
                          Tuple ["run number"; ""] := 2 ]};
     column_names := {[ 0 := Special "__status";
                        1 := Tuple ["filepath"; ""];
                        2 := Tuple ["run number"; ""] ]};
     columns_visible := {[ 0 := true; 1 := true; 2 := true ]};
     deleted_columns_visible := ∅;
     signals_blocked := false;
     integer_indexing := false |}.

(** The same table in a lyse whose configuration sets [integer_indexing]. *)
Definition one_shot_integer_indexing : state :=
  {| dataframe := dataframe one_shot;
     nlevels := nlevels one_shot;
     model := model one_shot;
     row_number_by_filepath := row_number_by_filepath one_shot;
     previous_n_digits := previous_n_digits one_shot;
     column_indices := column_indices one_shot;
     column_names := column_names one_shot;
     columns_visible := columns_visible one_shot;
     deleted_columns_visible := deleted_columns_visible one_shot;
     signals_blocked := signals_blocked one_shot;
     integer_indexing := true |}.

(** What a script reports for that shot: a fitted width. *)
Definition example_report : updated_row := [(("fit", "width"), VFloat "1.5")].

(** The table after the shot [/lab/shots/1.h5] was added to it and before
    the shot is analysed. *)
Definition two_shots : state :=
  (@add_files example_helpers ["/lab/shots/1.h5"]
     (Some (example_shot "/lab/shots/1.h5")) false one_shot).2.

End DataFrameModel.

(** * FileBox: lyse/main_window.py, lines 735-1040 *)

Module FileBox.
Import pandas.

(** A message taken from [from_singleshot] or [from_multishot]: the signal,
    the status percent, the updated data per shot file, and what
    [os.path.exists] answers from the moment the message is received. *)
Record message := {
  signal : string;
  status_percent : option Z;
  updated_data : list (string * DataFrameModel.updated_row);
  exists_then : string → bool;
}.

(** The lines written with [logger.info]. *)
Inductive info :=
  | Adding (filepaths : list string)
  | Analysing (filepath : string)
  | AnalysisIsPaused
  | DoingMultishotAnalysis.

(** The attributes of a [FileBox] object that the two loops use, the
    queues to and from the routine boxes, and the disk.  A queue the loops
    read holds the items in the order they will be got. *)
Record state := {
  shots_model : DataFrameModel.state;
  analysis_paused : bool;
  multishot_required : bool;
  analysis_pending : bool;
  incoming_queue : list string;
  to_singleshot : list string;
  from_singleshot : list message;
  to_multishot : nat;
  from_multishot : list message;
  exists_ : string → bool;
  logged : list info;
  raised_in_thread : list exn;
}.

Definition set_shots_model (x : DataFrameModel.state) (s : state) : state :=
  {| shots_model := x; analysis_paused := analysis_paused s;
     multishot_required := multishot_required s;
     analysis_pending := analysis_pending s;
     incoming_queue := incoming_queue s; to_singleshot := to_singleshot s;
     from_singleshot := from_singleshot s; to_multishot := to_multishot s;
     from_multishot := from_multishot s; exists_ := exists_ s;
     logged := logged s; raised_in_thread := raised_in_thread s |}.

Definition set_analysis_paused (x : bool) (s : state) : state :=
  {| shots_model := shots_model s; analysis_paused := x;
     multishot_required := multishot_required s;
     analysis_pending := analysis_pending s;
     incoming_queue := incoming_queue s; to_singleshot := to_singleshot s;
     from_singleshot := from_singleshot s; to_multishot := to_multishot s;
     from_multishot := from_multishot s; exists_ := exists_ s;
     logged := logged s; raised_in_thread := raised_in_thread s |}.

Definition set_multishot_required (x : bool) (s : state) : state :=
  {| shots_model := shots_model s; analysis_paused := analysis_paused s;
     multishot_required := x;
     analysis_pending := analysis_pending s;
     incoming_queue := incoming_queue s; to_singleshot := to_singleshot s;
     from_singleshot := from_singleshot s; to_multishot := to_multishot s;
     from_multishot := from_multishot s; exists_ := exists_ s;
     logged := logged s; raised_in_thread := raised_in_thread s |}.

Definition set_analysis_pending (x : bool) (s : state) : state :=
  {| shots_model := shots_model s; analysis_paused := analysis_paused s;
     multishot_required := multishot_required s;
     analysis_pending := x;
     incoming_queue := incoming_queue s; to_singleshot := to_singleshot s;
     from_singleshot := from_singleshot s; to_multishot := to_multishot s;
     from_multishot := from_multishot s; exists_ := exists_ s;
     logged := logged s; raised_in_thread := raised_in_thread s |}.

Definition set_incoming_queue (x : list string) (s : state) : state :=
  {| shots_model := shots_model s; analysis_paused := analysis_paused s;
     multishot_required := multishot_required s;
     analysis_pending := analysis_pending s;
     incoming_queue := x; to_singleshot := to_singleshot s;
     from_singleshot := from_singleshot s; to_multishot := to_multishot s;
     from_multishot := from_multishot s; exists_ := exists_ s;
     logged := logged s; raised_in_thread := raised_in_thread s |}.

(** [to_singleshot.put(filepath)] *)
Definition put_to_singleshot (filepath : string) (s : state) : state :=
  {| shots_model := shots_model s; analysis_paused := analysis_paused s;
     multishot_required := multishot_required s;
     analysis_pending := analysis_pending s;
     incoming_queue := incoming_queue s;
     to_singleshot := to_singleshot s ++ [filepath];
     from_singleshot := from_singleshot s; to_multishot := to_multishot s;
     from_multishot := from_multishot s; exists_ := exists_ s;
     logged := logged s; raised_in_thread := raised_in_thread s |}.

(** [to_multishot.put(None)] *)
Definition put_to_multishot (s : state) : state :=
  {| shots_model := shots_model s; analysis_paused := analysis_paused s;
     multishot_required := multishot_required s;
     analysis_pending := analysis_pending s;
     incoming_queue := incoming_queue s; to_singleshot := to_singleshot s;
     from_singleshot := from_singleshot s;
     to_multishot := S (to_multishot s);
     from_multishot := from_multishot s; exists_ := exists_ s;
     logged := logged s; raised_in_thread := raised_in_thread s |}.

(** [from_singleshot.get()] has returned [m]; [rest] stays queued. *)
Definition got_from_singleshot (m : message) (rest : list message) (s : state)
  : state :=
  {| shots_model := shots_model s; analysis_paused := analysis_paused s;
     multishot_required := multishot_required s;
     analysis_pending := analysis_pending s;
     incoming_queue := incoming_queue s; to_singleshot := to_singleshot s;
     from_singleshot := rest; to_multishot := to_multishot s;
     from_multishot := from_multishot s; exists_ := exists_then m;
     logged := logged s; raised_in_thread := raised_in_thread s |}.

(** [from_multishot.get()] has returned [m]; [rest] stays queued. *)
Definition got_from_multishot (m : message) (rest : list message) (s : state)
  : state :=
  {| shots_model := shots_model s; analysis_paused := analysis_paused s;
     multishot_required := multishot_required s;
     analysis_pending := analysis_pending s;
     incoming_queue := incoming_queue s; to_singleshot := to_singleshot s;
     from_singleshot := from_singleshot s; to_multishot := to_multishot s;
     from_multishot := rest; exists_ := exists_then m;
     logged := logged s; raised_in_thread := raised_in_thread s |}.

(** [logger.info(...)] *)
Definition log_info (i : info) (s : state) : state :=
  {| shots_model := shots_model s; analysis_paused := analysis_paused s;
     multishot_required := multishot_required s;
     analysis_pending := analysis_pending s;
     incoming_queue := incoming_queue s; to_singleshot := to_singleshot s;
     from_singleshot := from_singleshot s; to_multishot := to_multishot s;
     from_multishot := from_multishot s; exists_ := exists_ s;
     logged := logged s ++ [i]; raised_in_thread := raised_in_thread s |}.

(** [zprocess.raise_exception_in_thread(...)]: the exception is shown to
    the user from a thread of its own. *)
Definition raise_exception_in_thread (e : exn) (s : state) : state :=
  {| shots_model := shots_model s; analysis_paused := analysis_paused s;
     multishot_required := multishot_required s;
     analysis_pending := analysis_pending s;
     incoming_queue := incoming_queue s; to_singleshot := to_singleshot s;
     from_singleshot := from_singleshot s; to_multishot := to_multishot s;
     from_multishot := from_multishot s; exists_ := exists_ s;
     logged := logged s; raised_in_thread := raised_in_thread s ++ [e] |}.

(** How a piece of a loop's thread goes on: it completes, an exception
    leaves it, it waits on a queue or event that nothing will fill, or the
    bound on the number of loop rounds examined is reached. *)
Inductive progress (A : Type) :=
  | Done (a : A)
  | Fails (e : exn)
  | Blocks
  | OutOfFuel.
Arguments Done {A} a.
Arguments Fails {A} e.
Arguments Blocks {A}.
Arguments OutOfFuel {A}.

Definition F (A : Type) : Type := state → progress A * state.

Definition fret {A} (a : A) : F A := λ s, (Done a, s).
Definition fbind {A B} (m : F A) (k : A → F B) : F B :=
  λ s, match m s with
       | (Done a, s') => k a s'
       | (Fails e, s') => (Fails e, s')
       | (Blocks, s') => (Blocks, s')
       | (OutOfFuel, s') => (OutOfFuel, s')
       end.
Definition fgets {A} (f : state → A) : F A := λ s, (Done (f s), s).
Definition fmodify (f : state → state) : F unit := λ s, (Done (), f s).

(** A method of [shots_model] called from a loop. *)
Definition on_model {A} (m : M DataFrameModel.state A) : F A :=
  λ s, match m (shots_model s) with
       | (Returns a, sm) => (Done a, set_shots_model sm s)
       | (Raises e, sm) => (Fails e, set_shots_model sm s)
       end.

(** [try: body except Exception: handler] *)
Definition try_except (body : F unit) (handler : exn → F unit) : F unit :=
  λ s, match body s with
       | (Fails e, s') =>
           if is_Exception e then handler e s' else (Fails e, s')
       | r => r
       end.

Notation "'do!' x ':=' m 'in' k" := (fbind m (λ x, k))
  (at level 10, x pattern, m at level 100, k at level 200,
   format "'do!'  x  ':='  m  'in' '//' k").
Notation "m ';;' k" := (fbind m (λ _, k))
  (at level 100, k at level 200, right associativity,
   format "m  ';;' '//' k").

(** The object as [__init__] leaves it (lines 737-785), on a given disk;
    [integer_indexing] is the option that [DataFrameModel] reads from the
    configuration it is handed. *)
Definition init (integer_indexing : bool) (disk : string → bool) : state :=
  {| shots_model := DataFrameModel.init integer_indexing;
     analysis_paused := false; multishot_required := false;
     analysis_pending := false;
     incoming_queue := []; to_singleshot := []; from_singleshot := [];
     to_multishot := 0; from_multishot := [];
     exists_ := disk; logged := []; raised_in_thread := [] |}.

(** A box whose table is [sm], on a given disk, with analysis running and
    pending, and the messages that the routine boxes will send. *)
Definition box_of (sm : DataFrameModel.state) (disk : string → bool)
    (singleshot multishot : list message) : state :=
  {| shots_model := sm;
     analysis_paused := false; multishot_required := false;
     analysis_pending := true;
     incoming_queue := []; to_singleshot := []; from_singleshot := singleshot;
     to_multishot := 0; from_multishot := multishot;
     exists_ := disk; logged := []; raised_in_thread := [] |}.

(** A worker reports that it is half way through [/lab/shots/1.h5] and has
    fitted a width; a worker reports an error, the shot file being present
    or not at that moment; a worker reports that it is done. *)
Definition report_progress : message :=
  {| signal := "progress"; status_percent := Some 50%Z;
     updated_data := [("/lab/shots/1.h5", DataFrameModel.example_report)];
     exists_then := λ _, true |}.

Definition report_error (present : bool) : message :=
  {| signal := "error"; status_percent := None; updated_data := [];
     exists_then := λ _, present |}.

Definition report_done : message :=
  {| signal := "done"; status_percent := Some 100%Z; updated_data := [];
     exists_then := λ _, true |}.

(** Two shot files queued before any shot is in the table. *)
Definition two_queued : state :=
  set_incoming_queue ["/lab/shots/0.h5"; "/lab/shots/1.h5"] (init false (λ _, true)).

Section Loops.
Context `{!Helpers}.

(** [pause_analysis()], lines 990-992: checking the button runs the slot
    [on_analysis_running_toggled(True)], which sets [analysis_paused]. *)
Definition pause_analysis : F unit := fmodify (set_analysis_paused true).

(** [for file in updated_data: shots_model.update_row(file,
    updated_row_data=updated_data[file])] *)
Definition update_rows
    (updated_data : list (string * DataFrameModel.updated_row)) : F unit :=
  on_model (for_each updated_data (λ entry,
    DataFrameModel.update_row entry.1 false None (Some entry.2))).

(** The [while True:] loop of [do_singleshot_analysis], lines 1006-1027,
    over the messages that [from_singleshot] will deliver. *)
Fixpoint singleshot_replies (filepath : string) (messages : list message)
  : F unit :=
  match messages with
  | [] => λ s, (Blocks, s)
  | m :: messages =>
      fmodify (got_from_singleshot m messages) ;;
      update_rows (updated_data m) ;;
      match status_percent m with
      | Some p => on_model (DataFrameModel.set_status_percent filepath p)
      | None => fret ()
      end ;;
      if String.eqb (signal m) "done" then fret ()
      else if String.eqb (signal m) "error" then
        do! present := fgets (λ s, exists_ s filepath) in
        if negb present
        then on_model (DataFrameModel.mark_as_deleted_off_disk filepath)
        else pause_analysis
      else if String.eqb (signal m) "progress"
      then singleshot_replies filepath messages
      else λ s, (Fails ValueError, s)
  end.

(** [do_singleshot_analysis(filepath)], lines 994-1027. *)
Definition do_singleshot_analysis (filepath : string) : F unit :=
  do! present := fgets (λ s, exists_ s filepath) in
  if negb present
  then on_model (DataFrameModel.mark_as_deleted_off_disk filepath)
  else
    fmodify (put_to_singleshot filepath) ;;
    λ s, singleshot_replies filepath (from_singleshot s) s.

(** The [while True:] loop of [do_multishot_analysis], lines 1031-1040. *)
Fixpoint multishot_replies (messages : list message) : F unit :=
  match messages with
  | [] => λ s, (Blocks, s)
  | m :: messages =>
      fmodify (got_from_multishot m messages) ;;
      update_rows (updated_data m) ;;
      if String.eqb (signal m) "done"
      then fmodify (set_multishot_required false)
      else if String.eqb (signal m) "error" then pause_analysis
      else multishot_replies messages
  end.

(** [do_multishot_analysis()], lines 1029-1040. *)
Definition do_multishot_analysis : F unit :=
  fmodify put_to_multishot ;;
  λ s, multishot_replies (from_multishot s) s.

(** Lines 967-969 and 973-975. *)
Definition multishot_if_required : F unit :=
  do! required := fgets multishot_required in
  if required
  then fmodify (log_info DoingMultishotAnalysis) ;; do_multishot_analysis
  else fret ().

(** The inner [while True:] loop of [analysis_loop], lines 955-972; [fuel]
    bounds the number of rounds. *)
Fixpoint analysis_rounds (fuel : nat) (at_least_one_shot_analysed : bool)
  : F unit :=
  match fuel with
  | 0 => λ s, (OutOfFuel, s)
  | S fuel =>
      do! paused := fgets analysis_paused in
      if negb paused then
        do! filepath := on_model (λ sm,
          (DataFrameModel.get_first_incomplete sm, sm)) in
        match filepath with
        | Some filepath =>
            fmodify (log_info (Analysing filepath)) ;;
            do_singleshot_analysis filepath ;;
            multishot_if_required ;;
            analysis_rounds fuel true
        | None =>
            if at_least_one_shot_analysed
            then fmodify (set_multishot_required true)
            else fret ()
        end
      else fmodify (log_info AnalysisIsPaused)
  end.

(** The [try] block of [analysis_loop], lines 952-975, once the event
    [analysis_pending] is set. *)
Definition analysis_try (fuel : nat) : F unit :=
  fmodify (set_analysis_pending false) ;;
  analysis_rounds fuel false ;;
  multishot_if_required.

(** One round of the outer [while True:] loop of [analysis_loop], lines
    950-986. *)
Definition analysis_loop_round (fuel : nat) : F unit :=
  do! pending := fgets analysis_pending in
  if negb pending then λ s, (Blocks, s) else
  try_except (analysis_try fuel)
    (λ e, fmodify (raise_exception_in_thread RuntimeError) ;; pause_analysis).

(** Lines 888-896 of [incoming_buffer_loop]: more filepaths are taken
    without waiting until the queue is empty or, after a filepath has been
    added, the batch has [batch_size] filepaths or more. *)
Fixpoint drain (queue filepaths : list string) (batch_size : nat)
  : list string * list string :=
  match queue with
  | [] => (filepaths, [])
  | filepath :: queue =>
      let filepaths := filepaths ++ [filepath] in
      if decide (batch_size ≤ length filepaths) then (filepaths, queue)
      else drain queue filepaths batch_size
  end.

(** [l.index(x)] for an [x] in [l]. *)
Definition first_index (l : list string) (x : string) : nat :=
  default 0 (fst <$> list_find (λ y, y = x) l).

Definition index_le (l : list string) (a b : string) : Prop :=
  first_index l a ≤ first_index l b.

#[global] Instance index_le_dec l : RelDecision (index_le l).
Proof. intros a b. unfold index_le. apply _. Defined.

(** Line 904: [sorted(set(filepaths), key=filepaths.index)] *)
Definition remove_duplicates (filepaths : list string) : list string :=
  merge_sort (index_le filepaths) (elements (list_to_set filepaths : gset string)).

(** Lines 906-918: the shot files are read; one that raises [IOError] is
    noted by its position. *)
Fixpoint read_shots (i : nat) (filepaths : list string)
  : outcome (list DataFrame * list nat) :=
  match filepaths with
  | [] => Returns ([], [])
  | filepath :: filepaths =>
      match get_dataframe_from_shot filepath with
      | Returns dataframe =>
          match read_shots (S i) filepaths with
          | Returns (dataframes, not_found) =>
              Returns (dataframe :: dataframes, not_found)
          | Raises e => Raises e
          end
      | Raises IOError =>
          match read_shots (S i) filepaths with
          | Returns (dataframes, not_found) =>
              Returns (dataframes, i :: not_found)
          | Raises e => Raises e
          end
      | Raises e => Raises e
      end
  end.

(** Lines 928-929: [for i in reversed(indices): del filepaths[i]] *)
Definition delete_indices (indices : list nat) (filepaths : list string)
  : list string :=
  foldr (λ i l, delete i l) filepaths indices.

(** Lines 897-936, the rest of the [try] block once the batch is made
    (the progress bar left out). *)
Definition add_batch (filepaths : list string) : F unit :=
  fmodify (log_info (Adding filepaths)) ;;
  let filepaths := remove_duplicates filepaths in
  match read_shots 0 filepaths with
  | Raises e => λ s, (Fails e, s)
  | Returns (dataframes, indices_of_files_not_found) =>
      let new_row_data :=
        match dataframes with
        | [] => None
        | _ => Some (concat_with_padding dataframes)
        end in
      let filepaths := delete_indices indices_of_files_not_found filepaths in
      match filepaths with
      | [] => fret ()
      | _ =>
          on_model (DataFrameModel.add_files filepaths new_row_data false) ;;
          fmodify (set_analysis_pending true)
      end
  end.

(** The batch made by lines 880-896 from the queue: the filepath waited
    for, then those drained.  [arrived] are the filepaths put on the queue
    by other threads between the two. *)
Definition next_batch (arrived : list string) (s : state)
  : option (list string * list string) :=
  match incoming_queue s with
  | [] => None
  | filepath :: queue =>
      let batch_size :=
        len (DataFrameModel.dataframe (shots_model s)) / 3 + 1 in
      Some (drain (queue ++ arrived) [filepath] batch_size)
  end.

(** One round of the [while True:] loop of [incoming_buffer_loop], lines
    878-941. *)
Definition incoming_buffer_loop_round (arrived : list string) : F unit :=
  λ s, match next_batch arrived s with
       | None => (Blocks, s)
       | Some (filepaths, queue) =>
           try_except
             (fmodify (set_incoming_queue queue) ;; add_batch filepaths)
             (λ e, fmodify (raise_exception_in_thread e)) s
       end.

(** The slots of the buttons, lines 825-843. *)
Definition on_analysis_running_toggled (pressed : bool) (s : state) : state :=
  if pressed then set_analysis_paused true s
  else set_analysis_pending true (set_analysis_paused false s).

Definition on_mark_selection_not_done_clicked (selected_rows : gset nat)
  : F unit :=
  do! exists_now := fgets exists_ in
  on_model (DataFrameModel.mark_selection_not_done exists_now selected_rows) ;;
  fmodify (set_analysis_pending true).

Definition on_run_multishot_analysis_clicked (s : state) : state :=
  set_analysis_pending true (set_multishot_required true s).

End Loops.

(** ** Terms used to state the properties of the loops *)

(** A piece of a thread goes on in the same way whatever
    [analysis_paused] is, and leaves it as it is. *)
Definition ignores_pause {A} (m : F A) : Prop :=
  ∀ b s, m (set_analysis_paused b s)
         = ((m s).1, set_analysis_paused b (m s).2).

(** What a piece of a thread started in a state of [P] leaves: a state of
    [Q] when it completes, and a state of [E] when it does not. *)
Definition hoare {A} (P : state → Prop) (m : F A) (Q : A → state → Prop)
    (E : state → Prop) : Prop :=
  ∀ s, P s → match m s with
             | (Done a, s') => Q a s'
             | (_, s') => E s'
             end.

(** The data reported with a message does not name the filepath column. *)
Definition reports_results (m : message) : Prop :=
  ∀ entry, entry ∈ updated_data m →
           DataFrameModel.leaves_filepath_column entry.2.

(** The shot of row [i] of a table that holds the shots [fps] is at 100
    percent and is not among the filepaths put on [to_singleshot] after
    those of [base]; the messages still to come report results. *)
Record done_shot_waits (fps : list string) (i : nat) (base : list string)
    (s : state) : Prop := {
  dw_wf : DataFrameModel.columns_wf (shots_model s);
  dw_table : DataFrameModel.table_of (shots_model s) fps;
  dw_status : DataFrameModel.row_status (shots_model s) i = Some 100%Z;
  dw_sent : ∃ sent, to_singleshot s = base ++ sent
                    ∧ ∀ fp, fps !! i = Some fp → fp ∉ sent;
  dw_singleshot : Forall reports_results (from_singleshot s);
  dw_multishot : Forall reports_results (from_multishot s);
}.

Section LoopTerms.
Context `{!Helpers}.

(** Reading the shot file raises [IOError]: lines 912-914 leave the file
    out with a warning. *)
Definition not_found (filepath : string) : bool :=
  match get_dataframe_from_shot filepath with
  | Raises IOError => true
  | _ => false
  end.

End LoopTerms.

End FileBox.

(** * Lyse: closing the main window, lyse/main_window.py, lines 1145-1266 *)

Module Lyse.

(** The button pressed in a [QMessageBox.question] with the buttons Yes,
    No and Cancel. *)
Inductive reply := Yes | No | Cancel.

Section SaveData.
(** The values stored in the save data: lists of routines, folders,
    sizes. *)
Context {V : Type} `{!EqDecision V}.

(** The attributes of the [Lyse] object that closing the window uses.
    [gui] is the dictionary that [get_save_data()] builds from the widgets
    as they stand; [written] lists the calls of [save_appconfig], and
    [terminations] counts the calls of [terminate_all_workers]. *)
Record state := {
  gui : gmap string V;
  last_save_data : option (gmap string V);
  last_save_config_file : option string;
  written : list (option string * gmap string V);
  terminations : nat;
}.

Definition ui_keys : list string :=
  ["window_size"; "window_pos"; "splitter"; "splitter_vertical"].

(** [only_window_geometry_is_different(current_data, old_data)], lines
    1228-1231: every key of [current_data] that is not a ui key is looked up
    in both dictionaries. *)
Definition only_window_geometry_is_different (current_data old_data : gmap string V)
  : outcome bool :=
  let keys := filter (λ key, key ∉ ui_keys) (map_to_list current_data).*1 in
  if decide (Forall (λ key, is_Some (old_data !! key)) keys)
  then Returns (bool_decide
                  (Forall (λ key, current_data !! key = old_data !! key) keys))
  else Raises KeyError.

(** [terminate_all_workers()] *)
Definition terminate_all_workers : M state unit :=
  modify (λ self,
    {| gui := gui self; last_save_data := last_save_data self;
       last_save_config_file := last_save_config_file self;
       written := written self; terminations := S (terminations self) |}).

(** [save_configuration(save_file)], lines 1262-1266. *)
Definition save_configuration (save_file : option string) : M state unit :=
  modify (λ self,
    {| gui := gui self; last_save_data := Some (gui self);
       last_save_config_file := save_file;
       written := written self ++ [(save_file, gui self)];
       terminations := terminations self |}).

(** [are_you_sure()], lines 1156-1165, for the button the user presses. *)
Definition are_you_sure (answer : reply) : M state bool :=
  match answer with
  | Cancel => ret false
  | Yes =>
      let! save_file := gets last_save_config_file in
      save_configuration save_file ;;;
      ret true
  | No => ret true
  end.

(** [on_close_event()], lines 1167-1177; [answer] is the button the user
    presses should the question be asked. *)
Definition on_close_event (answer : reply) : M state bool :=
  let! save_data := gets gui in
  let! last := gets last_save_data in
  match last with
  | Some old_data =>
      if decide (save_data ≠ old_data) then
        let! only_geometry :=
          lift (only_window_geometry_is_different save_data old_data) in
        if only_geometry then
          let! save_file := gets last_save_config_file in
          save_configuration save_file ;;;
          terminate_all_workers ;;;
          ret true
        else
          let! sure := are_you_sure answer in
          if negb sure then ret false
          else terminate_all_workers ;;; ret true
      else terminate_all_workers ;;; ret true
  | None => terminate_all_workers ;;; ret true
  end.

(** ** Terms used to state the properties of closing *)

(** The two dictionaries agree on every key of the first that is not a ui
    key. *)
Definition same_but_geometry (current_data old_data : gmap string V) : Prop :=
  ∀ key, key ∉ ui_keys → is_Some (current_data !! key) →
         current_data !! key = old_data !! key.

End SaveData.

Arguments state V : clear implicits.

(** A configuration for the examples: one routine loaded, saved to
    [/lab/lyse.ini]; since then the window was moved, or a routine was
    added. *)
Definition example_saved : gmap string string :=
  {[ "singleshot" := "fit.py"; "window_pos" := "0,0" ]}.

Definition example_state (now : gmap string string) : state string :=
  {| gui := now; last_save_data := Some example_saved;
     last_save_config_file := Some "/lab/lyse.ini";
     written := []; terminations := 0 |}.

(** ** Loading a saved dataframe: lines 1394-1443 *)

Section LoadDataframe.
Context `{!pandas.Helpers}.

(** Lines 1432-1433: the positions of the filepaths whose shot file has
    changed since the dataframe was exported, in descending order. *)
Definition need_updating (changed : string → bool) (filepaths : list string)
  : list nat :=
  reverse (filter (λ entry, changed entry.2 = true)
             (imap (λ index filepath, (index, filepath)) filepaths)).*1.

(** Lines 1436-1438: every such filepath is popped from the list and put
    on the incoming queue of the file box. *)
Fixpoint pop_changed (indices : list nat) (filepaths : list string)
  : FileBox.F (list string) :=
  match indices with
  | [] => FileBox.fret filepaths
  | index :: indices =>
      match filepaths !! index with
      | None => λ s, (FileBox.Fails IndexError, s)
      | Some filepath =>
          FileBox.fbind
            (FileBox.fmodify (λ s,
               FileBox.set_incoming_queue
                 (FileBox.incoming_queue s ++ [filepath]) s))
            (λ _, pop_changed indices (delete index filepaths))
      end
  end.

(** [on_load_dataframe_triggered()] from line 1426 on, for the frame [df]
    read from the file chosen, sorted and with a fresh index.  [filepaths]
    is [df["filepath"].tolist()], and [changed filepath] tells whether the
    shot file exists and was modified after the dataframe file was. *)
Definition on_load_dataframe_triggered (df : pandas.DataFrame)
    (filepaths : list string) (changed : string → bool) : FileBox.F unit :=
  let need_updating := need_updating changed filepaths in
  FileBox.fbind (pop_changed need_updating filepaths) (λ filepaths,
    match pandas.drop need_updating df with
    | Raises e => λ s, (FileBox.Fails e, s)
    | Returns df =>
        FileBox.on_model (DataFrameModel.add_files filepaths (Some df) true)
    end).

End LoadDataframe.

End Lyse.

(** * Plot: the axis limits of a figure, lyse/analysis_subprocess.py,
    lines 52-217 *)

Module Plot.

Section Limits.
(** What [ax.get_xlim()] returns: a pair of numbers. *)
Context {L : Type}.

(** One set of axes of the matplotlib figure, with its limits. *)
Record axes := {
  xlim : L;
  ylim : L;
}.

(** The attributes of a [Plot] object that the analysis worker uses, and
    the axes of its figure. *)
Record plot := {
  identifier : string;
  figure_axes : list axes;
  lock_axes : bool;
  axis_limits : option (gmap nat (L * L));
}.

(** [save_axis_limits()], lines 102-108. *)
Definition save_axis_limits (self : plot) : plot :=
  {| identifier := identifier self; figure_axes := figure_axes self;
     lock_axes := lock_axes self;
     axis_limits :=
       Some (map_seq 0 ((λ ax, (xlim ax, ylim ax)) <$> figure_axes self)) |}.

(** [clear()], lines 110-112: [figure.clear()] removes the axes. *)
Definition clear (self : plot) : plot :=
  {| identifier := identifier self; figure_axes := [];
     lock_axes := lock_axes self; axis_limits := axis_limits self |}.

(** The user's script draws the figure anew. *)
Definition draw_axes (drawn : list axes) (self : plot) : plot :=
  {| identifier := identifier self; figure_axes := drawn;
     lock_axes := lock_axes self; axis_limits := axis_limits self |}.

(** [restore_axis_limits()], lines 114-122.  Subscripting [None] raises
    [TypeError], which the [except KeyError] clause does not catch. *)
Definition restore_axis_limits (self : plot) : outcome plot :=
  match axis_limits self with
  | None =>
      match figure_axes self with
      | [] => Returns self
      | _ :: _ => Raises TypeError
      end
  | Some limits =>
      Returns
        {| identifier := identifier self;
           figure_axes :=
             imap (λ i ax, match limits !! i with
                           | Some (x, y) => {| xlim := x; ylim := y |}
                           | None => ax
                           end) (figure_axes self);
           lock_axes := lock_axes self; axis_limits := axis_limits self |}
  end.

End Limits.

Arguments axes L : clear implicits.
Arguments plot L : clear implicits.

End Plot.

(** * EditColumns: the dialog that shows and hides columns,
    lyse/main_window.py, lines 80-277 *)

Module EditColumns.
Import pandas.
Import DataFrameModel.

Definition COL_VISIBLE : nat := 0.
Definition COL_NAME : nat := 1.

(** [QtCore.Qt.CheckState] *)
Inductive CheckState := Unchecked | PartiallyChecked | Checked.

#[global] Instance CheckState_eq_dec : EqDecision CheckState.
Proof. solve_decision. Defined.

(** A Python dictionary, by its items in insertion order: an assignment to
    a key it holds replaces the value in place, an assignment to a new key
    adds an item at the end. *)
Definition dict (K V : Type) : Type := list (K * V).

Section Dict.
Context {K V : Type} `{!EqDecision K}.

Fixpoint dict_get (d : dict K V) (k : K) : option V :=
  match d with
  | [] => None
  | (k', v) :: d => if decide (k' = k) then Some v else dict_get d k
  end.

Fixpoint dict_set (d : dict K V) (k : K) (v : V) : dict K V :=
  match d with
  | [] => [(k, v)]
  | (k', v') :: d =>
      if decide (k' = k) then (k, v) :: d else (k', v') :: dict_set d k v
  end.

End Dict.

(** [sorted(items, key=key)]: a stable sort, here by insertion; the keys
    are strings, which Python orders by their code points. *)
Fixpoint insert_by {A} (key : A → string) (x : A) (l : list A) : list A :=
  match l with
  | [] => [x]
  | y :: l =>
      if String.ltb (key x) (key y) then x :: y :: l
      else y :: insert_by key x l
  end.

Definition sorted {A} (key : A → string) (l : list A) : list A :=
  foldl (λ acc x, insert_by key x acc) [] l.

(** [s.strip(', ')]: commas (code 44) and spaces (code 32) are removed at
    both ends. *)
Definition stripped (a : Ascii.ascii) : bool :=
  Ascii.eqb a (Ascii.ascii_of_nat 44) || Ascii.eqb a (Ascii.ascii_of_nat 32).

Fixpoint lstrip (s : string) : string :=
  match s with
  | EmptyString => EmptyString
  | String a s' => if stripped a then lstrip s' else s
  end.

Definition strip (s : string) : string :=
  String.rev (lstrip (String.rev (lstrip s))).

(** [', '.join(name).strip(', ')], the text shown for a column. *)
Definition name_as_string (name : colkey) : string :=
  strip (String.concat ", " name).

(** The identity of a dictionary object holding the visibility of the
    columns by index.  The dialog and the [DataFrameModel] can hold the
    same object. *)
Definition ref : Type := nat.

(** The store of the dictionary objects, with the object [r] replaced. *)
Definition store (h : ref → dict nat bool) (r : ref) (x : dict nat bool)
  : ref → dict nat bool :=
  λ r', if decide (r' =@{nat} r) then x else h r'.

(** The attributes of an [EditColumns] object; the rows of its item
    model, each with the check state of the item in column [COL_VISIBLE] and
    the text of the item in column [COL_NAME]; the check box of the header;
    the store of the dictionary objects; and what the dialog reaches through
    [filebox.set_columns_visible]: the attribute [columns_visible] of the
    [DataFrameModel] and the columns hidden in its view. *)
Record state := {
  column_names : dict nat colname;
  columns_visible : ref;
  old_columns_visible : dict nat bool;
  rows : list (CheckState * string);
  column_indices : dict nat nat;
  select_all_checkbox : CheckState;
  shown : bool;
  heap : ref → dict nat bool;
  next_ref : ref;
  shots_model_columns_visible : ref;
  hidden : gmap nat bool;
}.

Definition set_column_names (x : dict nat colname) (s : state) : state :=
  {| column_names := x; columns_visible := columns_visible s;
     old_columns_visible := old_columns_visible s; rows := rows s;
     column_indices := column_indices s;
     select_all_checkbox := select_all_checkbox s; shown := shown s;
     heap := heap s; next_ref := next_ref s;
     shots_model_columns_visible := shots_model_columns_visible s;
     hidden := hidden s |}.

Definition set_columns_visible (x : ref) (s : state) : state :=
  {| column_names := column_names s; columns_visible := x;
     old_columns_visible := old_columns_visible s; rows := rows s;
     column_indices := column_indices s;
     select_all_checkbox := select_all_checkbox s; shown := shown s;
     heap := heap s; next_ref := next_ref s;
     shots_model_columns_visible := shots_model_columns_visible s;
     hidden := hidden s |}.

Definition set_old_columns_visible (x : dict nat bool) (s : state) : state :=
  {| column_names := column_names s; columns_visible := columns_visible s;
     old_columns_visible := x; rows := rows s;
     column_indices := column_indices s;
     select_all_checkbox := select_all_checkbox s; shown := shown s;
     heap := heap s; next_ref := next_ref s;
     shots_model_columns_visible := shots_model_columns_visible s;
     hidden := hidden s |}.

Definition set_rows (x : list (CheckState * string)) (s : state) : state :=
  {| column_names := column_names s; columns_visible := columns_visible s;
     old_columns_visible := old_columns_visible s; rows := x;
     column_indices := column_indices s;
     select_all_checkbox := select_all_checkbox s; shown := shown s;
     heap := heap s; next_ref := next_ref s;
     shots_model_columns_visible := shots_model_columns_visible s;
     hidden := hidden s |}.

Definition set_column_indices (x : dict nat nat) (s : state) : state :=
  {| column_names := column_names s; columns_visible := columns_visible s;
     old_columns_visible := old_columns_visible s; rows := rows s;
     column_indices := x;
     select_all_checkbox := select_all_checkbox s; shown := shown s;
     heap := heap s; next_ref := next_ref s;
     shots_model_columns_visible := shots_model_columns_visible s;
     hidden := hidden s |}.

Definition set_select_all_checkbox (x : CheckState) (s : state) : state :=
  {| column_names := column_names s; columns_visible := columns_visible s;
     old_columns_visible := old_columns_visible s; rows := rows s;
     column_indices := column_indices s;
     select_all_checkbox := x; shown := shown s;
     heap := heap s; next_ref := next_ref s;
     shots_model_columns_visible := shots_model_columns_visible s;
     hidden := hidden s |}.

Definition set_shown (x : bool) (s : state) : state :=
  {| column_names := column_names s; columns_visible := columns_visible s;
     old_columns_visible := old_columns_visible s; rows := rows s;
     column_indices := column_indices s;
     select_all_checkbox := select_all_checkbox s; shown := x;
     heap := heap s; next_ref := next_ref s;
     shots_model_columns_visible := shots_model_columns_visible s;
     hidden := hidden s |}.

(** A dictionary object is changed in place. *)
Definition set_heap (r : ref) (x : dict nat bool) (s : state) : state :=
  {| column_names := column_names s; columns_visible := columns_visible s;
     old_columns_visible := old_columns_visible s; rows := rows s;
     column_indices := column_indices s;
     select_all_checkbox := select_all_checkbox s; shown := shown s;
     heap := store (heap s) r x; next_ref := next_ref s;
     shots_model_columns_visible := shots_model_columns_visible s;
     hidden := hidden s |}.

(** A new dictionary object with the items [x], as [d.copy()] makes. *)
Definition new_dict (x : dict nat bool) (s : state) : ref * state :=
  (next_ref s,
   {| column_names := column_names s; columns_visible := columns_visible s;
      old_columns_visible := old_columns_visible s; rows := rows s;
      column_indices := column_indices s;
      select_all_checkbox := select_all_checkbox s; shown := shown s;
      heap := store (heap s) (next_ref s) x; next_ref := S (next_ref s);
      shots_model_columns_visible := shots_model_columns_visible s;
      hidden := hidden s |}).

(** [filebox.set_columns_visible(columns_visible)], lines 845-846 and
    429-432: the [DataFrameModel] keeps the object it is given and hides the
    columns of its view that the dictionary holds as not visible. *)
Definition filebox_set_columns_visible (r : ref) (s : state) : state :=
  {| column_names := column_names s; columns_visible := columns_visible s;
     old_columns_visible := old_columns_visible s; rows := rows s;
     column_indices := column_indices s;
     select_all_checkbox := select_all_checkbox s; shown := shown s;
     heap := heap s; next_ref := next_ref s;
     shots_model_columns_visible := r;
     hidden := foldl (λ h item, <[item.1 := negb item.2]> h) (hidden s)
                 (heap s r) |}.

(** [model.item(row, column)], [None] when there is no such item. *)
Definition item (row column : nat) (s : state) : option (nat * nat) :=
  if decide (row < length (rows s) ∧ column < 2) then Some (row, column)
  else None.

(** [item.checkState()]; only the items of column [COL_VISIBLE] are
    checkable. *)
Definition checkState (it : nat * nat) (s : state) : CheckState :=
  if decide (it.2 = COL_VISIBLE)
  then default Unchecked (fst <$> rows s !! it.1)
  else Unchecked.

(** [update_visible_state(item, state)], lines 202-211. *)
Definition update_visible_state (it : option (nat * nat)) (state_ : CheckState)
  : M state unit :=
  match it with
  | None => raise AttributeError
  | Some (row, column) =>
      if decide (column ≠ COL_VISIBLE) then raise AssertionError else
      modify (λ self,
        set_rows (alter (λ r, (state_, r.2)) row (rows self)) self) ;;;
      let! column_index := (λ self,
        found KeyError (dict_get (column_indices self) row) self) in
      modify (λ self,
        set_heap (columns_visible self)
          (dict_set (heap self (columns_visible self)) column_index
             (bool_decide (state_ = Checked))) self)
  end.

(** [update_select_all_checkstate()], lines 213-224. *)
Definition update_select_all_checkstate (self : state) : state :=
  let all_states := (rows self).*1 in
  set_select_all_checkbox
    (if decide (Forall (λ st, st = Checked) all_states) then Checked
     else if decide (Forall (λ st, st = Unchecked) all_states) then Unchecked
     else PartiallyChecked) self.

Section Lower.
(** [str.lower], a built-in. *)
Variable lower : string → string.

(** The sort key of line 148. *)
Definition sortkey (entry : nat * colkey) : string :=
  strip (lower (String.concat ", " entry.2)).

(** The body of the loop of [populate_model], lines 150-165. *)
Definition add_row (columns_visible : ref) (entry : nat * colkey)
  : M state unit :=
  let! visible := (λ self,
    found KeyError (dict_get (heap self columns_visible) entry.1) self) in
  modify (λ self,
    set_column_indices
      (dict_set (column_indices self) (length (rows self)) entry.1)
      (set_rows (rows self
                   ++ [(if visible : bool then Checked else Unchecked,
                        name_as_string entry.2)]) self)).

(** The items of [column_names] whose name is a tuple (line 145). *)
Definition tuple_columns (column_names : dict nat colname)
  : list (nat * colkey) :=
  omap (λ entry, match entry.2 with
                 | Tuple t => Some (entry.1, t)
                 | Special _ => None
                 end) column_names.

(** [populate_model(column_names, columns_visible)], lines 137-169. *)
Definition populate_model (column_names : dict nat colname)
    (columns_visible : ref) : M state unit :=
  modify (λ self, set_column_indices [] (set_rows [] self)) ;;;
  for_each (sorted sortkey (tuple_columns column_names))
    (add_row columns_visible) ;;;
  modify update_select_all_checkstate.

(** [__init__(filebox, column_names, columns_visible)], lines 85-117, in
    a store [heap], [next_ref] where the [DataFrameModel] holds the object
    [columns_visible] and its view hides the columns [hidden]. *)
Definition init (column_names : dict nat colname) (columns_visible : ref)
    (heap : ref → dict nat bool) (next_ref : ref) (hidden : gmap nat bool)
  : outcome unit * state :=
  populate_model column_names next_ref
    {| EditColumns.column_names := column_names;
       EditColumns.columns_visible := next_ref;
       old_columns_visible := heap columns_visible;
       rows := []; column_indices := [];
       select_all_checkbox := Unchecked; shown := false;
       EditColumns.heap := store heap next_ref (heap columns_visible);
       EditColumns.next_ref := S next_ref;
       shots_model_columns_visible := columns_visible;
       EditColumns.hidden := hidden |}.

(** [on_set_selected_triggered(visible)], lines 177-185, for the rows
    selected in the view. *)
Definition on_set_selected_triggered (selected_rows : gset nat)
    (visible : CheckState) : M state unit :=
  for_each (elements selected_rows) (λ row,
    let! visible_item := gets (item row COL_VISIBLE) in
    update_visible_state visible_item visible) ;;;
  modify update_select_all_checkstate ;;;
  modify (λ self, filebox_set_columns_visible (columns_visible self) self).

(** [on_select_all_state_changed(state)], lines 190-200: the state is
    read from the check box of the header. *)
Definition on_select_all_state_changed : M state unit :=
  let! state_ := gets select_all_checkbox in
  let! rowCount := gets (λ self, length (rows self)) in
  for_each (seq 0 rowCount) (λ row,
    let! visible_item := gets (item row COL_VISIBLE) in
    update_visible_state visible_item state_) ;;;
  modify (λ self, filebox_set_columns_visible (columns_visible self) self).

(** [on_model_item_changed(item)], lines 226-231. *)
Definition on_model_item_changed (it : nat * nat) : M state unit :=
  let! state_ := gets (checkState it) in
  update_visible_state (Some it) state_ ;;;
  modify update_select_all_checkstate ;;;
  modify (λ self, filebox_set_columns_visible (columns_visible self) self).

(** Lines 245-248 of [update_columns]: the visibility before editing, by
    name. *)
Fixpoint old_by_name (column_names : dict nat colname)
    (items : list (nat * bool)) (by_name : dict colname bool)
  : outcome (dict colname bool) :=
  match items with
  | [] => Returns by_name
  | (old_column_number, visible) :: items =>
      match dict_get column_names old_column_number with
      | None => Raises KeyError
      | Some column_name =>
          old_by_name column_names items (dict_set by_name column_name visible)
      end
  end.

(** [update_columns(column_names, columns_visible)], lines 239-261. *)
Definition update_columns (column_names : dict nat colname)
    (columns_visible : ref) : M state unit :=
  let! old_columns_visible_by_name := (λ self,
    (old_by_name (EditColumns.column_names self) (old_columns_visible self) [],
     self)) in
  let! copy := (λ self,
    let '(r, self) := new_dict (heap self columns_visible) self in
    (Returns r, self)) in
  modify (set_columns_visible copy) ;;;
  modify (set_column_names column_names) ;;;
  modify (set_old_columns_visible
            (foldl (λ old entry,
                      dict_set old entry.1
                        (default true
                           (dict_get old_columns_visible_by_name entry.2)))
               [] column_names)) ;;;
  populate_model column_names copy.

(** [show()], lines 263-265. *)
Definition show (self : state) : state :=
  set_shown true
    (set_old_columns_visible (heap self (columns_visible self)) self).

(** [close()], lines 267-271. *)
Definition close : M state unit :=
  let! copy := (λ self,
    let '(r, self) := new_dict (old_columns_visible self) self in
    (Returns r, self)) in
  modify (set_columns_visible copy) ;;;
  modify (filebox_set_columns_visible copy) ;;;
  let! names := gets EditColumns.column_names in
  populate_model names copy ;;;
  modify (set_shown false).

End Lower.

(** ** Terms used to state the properties of the dialog *)

(** What can happen to the dialog while it is shown: Qt sets the check
    state of an item or of the check box of the header, and the slots that
    [connect_signals] connects (lines 119-135) are called. *)
Inductive event :=
  | ItemSet (row : nat) (state_ : CheckState)
  | CheckBoxSet (state_ : CheckState)
  | ItemChanged (it : nat * nat)
  | SelectAllStateChanged
  | SetSelectedTriggered (selected_rows : gset nat) (visible : CheckState).

Definition handle (e : event) : M state unit :=
  match e with
  | ItemSet row state_ =>
      modify (λ self,
        set_rows (alter (λ r, (state_, r.2)) row (rows self)) self)
  | CheckBoxSet state_ => modify (set_select_all_checkbox state_)
  | ItemChanged it => on_model_item_changed it
  | SelectAllStateChanged => on_select_all_state_changed
  | SetSelectedTriggered selected_rows visible =>
      on_set_selected_triggered selected_rows visible
  end.

(** The events are handled one after the other; when a slot raises, the
    dialog stays as the slot left it and the next event finds it so. *)
Definition handle_all (events : list event) (s : state) : state :=
  foldl (λ s e, (handle e s).2) s events.

(** The row that [populate_model] makes for a column, from the dictionary
    of the visible columns. *)
Definition row_of (d : dict nat bool) (entry : nat * colkey)
  : CheckState * string :=
  (if default false (dict_get d entry.1) then Checked else Unchecked,
   name_as_string entry.2).

(** What checking and unchecking rows leaves alone: everything but the
    check states of the rows and the entries of the dictionary
    [columns_visible] of the dialog. *)
Record same_but_checks (s s' : state) : Prop := {
  sb_column_names : column_names s' = column_names s;
  sb_columns_visible : columns_visible s' = columns_visible s;
  sb_old_columns_visible : old_columns_visible s' = old_columns_visible s;
  sb_column_indices : column_indices s' = column_indices s;
  sb_select_all_checkbox : select_all_checkbox s' = select_all_checkbox s;
  sb_shown : shown s' = shown s;
  sb_next_ref : next_ref s' = next_ref s;
  sb_shots_model : shots_model_columns_visible s'
                   = shots_model_columns_visible s;
  sb_hidden : hidden s' = hidden s;
  sb_heap : ∀ r, r ≠ columns_visible s → heap s' r = heap s r;
}.

(** A dialog made for three columns, of which the last is hidden: the
    [DataFrameModel] holds the dictionary object 0. *)
Definition example_dialog : state :=
  (init (λ name, name)
     [(0, Special "__status"); (1, Tuple ["filepath"; ""]);
      (2, Tuple ["x"; ""])]
     0 (λ _, [(0, true); (1, true); (2, false)]) 1 ∅).2.

(** The rows of the dialog and the columns they stand for: row [row]
    stands for the column [cis !! row], no column has two rows, every
    column with a row has an entry in the dictionary [columns_visible], and
    that dictionary has one item for a key, as a Python dictionary has. *)
Definition rows_stand_for (cis : list nat) (s : state) : Prop :=
  column_indices s = imap (λ row ci, (row, ci)) cis
  ∧ length (rows s) = length cis
  ∧ NoDup cis
  ∧ (∀ ci, ci ∈ cis → is_Some (dict_get (heap s (columns_visible s)) ci))
  ∧ NoDup (heap s (columns_visible s)).*1.

End EditColumns.

(** * Properties of DataFrameModel *)

Module DataFrameModelFacts.
Import pandas DataFrameModel.

(** ** The state and exception monad *)

Lemma bind_Returns {S A B} (m : M S A) (k : A → M S B) s b s' :
  bind m k s = (Returns b, s') ↔
  ∃ a s1, m s = (Returns a, s1) ∧ k a s1 = (Returns b, s').
Proof.
  unfold bind. destruct (m s) as [[a|e] s1]; split.
  - eauto.
  - by intros (? & ? & [= -> ->] & ?).
  - done.
  - by intros (? & ? & [=] & ?).
Qed.

Lemma for_each_Returns {S A} (P : S → Prop) (body : A → M S unit) l :
  (∀ x s s', x ∈ l → P s → body x s = (Returns (), s') → P s') →
  ∀ s s', P s → for_each l body s = (Returns (), s') → P s'.
Proof.
  induction l as [|x l IH]; intros Hbody s s' HP; simpl.
  - by intros [= <-].
  - intros (? & s1 & Hx & Hrest)%bind_Returns.
    eapply IH; [| |exact Hrest].
    + intros y t t' Hy. apply Hbody. by right.
    + destruct x0. eapply Hbody; [by left|exact HP|exact Hx].
Qed.

(** ** Dictionaries built from lists of items *)

Lemma dict_from_lookup `{Countable K} {A} (items : list (K * A)) k v :
  NoDup items.*1 → dict_from items !! k = Some v ↔ (k, v) ∈ items.
Proof.
  intros Hnd. unfold dict_from.
  rewrite <- (list_to_map_proper items (reverse items))
    by (done || by rewrite reverse_Permutation).
  symmetry. by apply elem_of_list_to_map.
Qed.

Lemma dict_from_lookup_None `{Countable K} {A} (items : list (K * A)) k :
  dict_from items !! k = None ↔ k ∉ items.*1.
Proof.
  unfold dict_from. rewrite <- not_elem_of_list_to_map.
  by rewrite fmap_reverse, elem_of_reverse.
Qed.

#[local] Instance key_le_trans {A} : Transitive (@key_le A).
Proof. intros a b c. unfold key_le. lia. Qed.
#[local] Instance key_le_total {A} : Total (@key_le A).
Proof. intros a b. unfold key_le. lia. Qed.

Lemma sorted_items_perm {A} (d : gmap nat A) : sorted_items d ≡ₚ map_to_list d.
Proof. apply merge_sort_Permutation. Qed.

Lemma sorted_items_sorted {A} (d : gmap nat A) :
  StronglySorted key_le (sorted_items d).
Proof. apply StronglySorted_merge_sort; apply _. Qed.

Lemma elem_of_sorted_items {A} (d : gmap nat A) k v :
  (k, v) ∈ sorted_items d ↔ d !! k = Some v.
Proof. by rewrite sorted_items_perm, elem_of_map_to_list. Qed.

Lemma NoDup_fst_sorted_items {A} (d : gmap nat A) : NoDup (sorted_items d).*1.
Proof. rewrite sorted_items_perm. apply NoDup_fst_map_to_list. Qed.

Lemma length_sorted_items {A} (d : gmap nat A) :
  length (sorted_items d) = size d.
Proof. by rewrite sorted_items_perm, length_map_to_list. Qed.

Lemma renumber_lookup {A} (d : gmap nat A) i :
  renumber d !! i = snd <$> sorted_items d !! i.
Proof.
  unfold renumber. generalize (sorted_items d). intros l.
  assert (Hfst : (imap (λ newindex (kv : nat * A), (newindex, kv.2)) l).*1
                 = seq 0 (length l)).
  { apply list_eq. intros j. rewrite list_lookup_fmap, list_lookup_imap.
    destruct (l !! j) eqn:Hj; simpl.
    - symmetry. apply lookup_seq. split; [done|]. by eapply lookup_lt_Some.
    - symmetry. apply lookup_seq_ge. by apply lookup_ge_None. }
  destruct (l !! i) as [kv|] eqn:Hi; simpl.
  - apply dict_from_lookup; [rewrite Hfst; apply NoDup_seq|].
    apply elem_of_lookup_imap. eauto.
  - apply dict_from_lookup_None. rewrite Hfst, elem_of_seq.
    apply lookup_ge_None in Hi. lia.
Qed.

Lemma renumber_is_Some {A} (d : gmap nat A) i :
  is_Some (renumber d !! i) ↔ i < size d.
Proof.
  rewrite renumber_lookup, fmap_is_Some, lookup_lt_is_Some.
  by rewrite length_sorted_items.
Qed.

Lemma renumber_img {A} (d : gmap nat A) x :
  (∃ i, renumber d !! i = Some x) ↔ (∃ k, d !! k = Some x).
Proof.
  split.
  - intros [i Hi]. rewrite renumber_lookup in Hi.
    destruct (sorted_items d !! i) as [[k v]|] eqn:Hl; simplify_eq/=.
    exists k. apply elem_of_sorted_items. by eapply list_elem_of_lookup_2.
  - intros [k Hk]. apply elem_of_sorted_items in Hk.
    apply list_elem_of_lookup_1 in Hk as [i Hi]. exists i.
    by rewrite renumber_lookup, Hi.
Qed.

Lemma StronglySorted_lookup_le {A} (R : relation A) l i j a b :
  StronglySorted R l → i < j → l !! i = Some a → l !! j = Some b → R a b.
Proof.
  intros Hs. revert i j. induction Hs as [|x l Hs IH Hall]; intros i j Hij Ha Hb.
  - done.
  - destruct j as [|j]; [lia|]. destruct i as [|i]; simplify_eq/=.
    + rewrite Forall_forall in Hall. apply Hall.
      by eapply list_elem_of_lookup_2.
    + eapply (IH i j); [lia|done..].
Qed.

(** The keys present without a gap from 0 keep their place when the
    dictionary is renumbered. *)
Lemma renumber_lookup_initial {A} (d : gmap nat A) k :
  (∀ j, j ≤ k → is_Some (d !! j)) → renumber d !! k = d !! k.
Proof.
  intros Hpresent.
  assert (Hpos : ∀ j, j ≤ k → ∃ v, sorted_items d !! j = Some (j, v)).
  { intros j. induction (lt_wf j) as [j _ IH]. intros Hj.
    destruct (Hpresent j Hj) as [v Hv].
    apply elem_of_sorted_items, list_elem_of_lookup_1 in Hv as [p Hp].
    assert (j ≤ p) as Hjp.
    { destruct (decide (j ≤ p)) as [|Hlt]; [done|].
      destruct (IH p) as [v' Hv']; [lia..|]. simplify_eq. lia. }
    destruct (sorted_items d !! j) as [[x vx]|] eqn:Hx.
    2:{ apply lookup_ge_None in Hx. apply lookup_lt_Some in Hp. lia. }
    assert (x ≤ j) as Hxj.
    { destruct (decide (j = p)) as [->|]; [by simplify_eq|].
      apply (StronglySorted_lookup_le key_le _ j p (x, vx) (j, v)
               (sorted_items_sorted d)); [lia|done..]. }
    destruct (decide (x = j)) as [->|Hne]; [eauto|].
    destruct (IH x) as [v' Hv']; [lia..|].
    pose proof (NoDup_fst_sorted_items d) as Hnd.
    assert (x = j); [|lia].
    eapply (NoDup_lookup _ x j x Hnd); rewrite list_lookup_fmap.
    + by rewrite Hv'. + by rewrite Hx. }
  destruct (Hpos k) as [v Hv]; [lia|].
  rewrite renumber_lookup, Hv. simpl. symmetry.
  apply elem_of_sorted_items. by eapply list_elem_of_lookup_2.
Qed.


Lemma inverse_mapping_lookup (d : gmap nat colname) n i :
  injective d → inverse_mapping d !! n = Some i ↔ d !! i = Some n.
Proof.
  intros Hinj. unfold inverse_mapping.
  rewrite dict_from_lookup.
  - rewrite list_elem_of_fmap. split.
    + intros ([k v] & [= -> ->] & Hkv). by apply elem_of_map_to_list.
    + intros Hd. exists (i, n). split; [done|]. by apply elem_of_map_to_list.
  - rewrite <- list_fmap_compose.
    apply (NoDup_fmap_2_strong _).
    + intros [k1 v1] [k2 v2] H1%elem_of_map_to_list H2%elem_of_map_to_list.
      simpl. intros ->. f_equal. eauto.
    + apply NoDup_map_to_list.
Qed.

Lemma renumber_injective {A} (d : gmap nat A) :
  injective d → injective (renumber d).
Proof.
  intros Hinj i j x. rewrite !renumber_lookup. intros Hi Hj.
  destruct (sorted_items d !! i) as [[ki vi]|] eqn:Hli; simplify_eq/=.
  destruct (sorted_items d !! j) as [[kj vj]|] eqn:Hlj; simplify_eq/=.
  assert (ki = kj) as ->.
  { eapply Hinj; apply elem_of_sorted_items;
      by eapply list_elem_of_lookup_2. }
  pose proof (NoDup_fst_sorted_items d) as Hnd.
  eapply (NoDup_lookup _ i j kj Hnd); rewrite list_lookup_fmap.
  + by rewrite Hli. + by rewrite Hlj.
Qed.

Lemma size_keys_below {A} (d : gmap nat A) n :
  (∀ i, is_Some (d !! i) ↔ i < n) → size d = n.
Proof.
  intros Hkeys. rewrite <- size_dom.
  assert (dom d = set_seq 0 n) as ->.
  { apply set_eq. intros i. rewrite elem_of_dom, elem_of_set_seq, Hkeys. lia. }
  apply size_set_seq.
Qed.

(** ** The status and filepath items of the rows of the Qt model *)


Lemma shot_items_ext m m' :
  length (Qt.qrows m') = length (Qt.qrows m) →
  (∀ r c, c < 2 → Qt.item_at r c m' = Qt.item_at r c m) →
  shot_items m' = shot_items m.
Proof.
  intros Hlen Hitems. apply list_eq. intros r. unfold shot_items.
  rewrite !list_lookup_fmap.
  pose proof (Hitems r 0 ltac:(lia)) as H0.
  pose proof (Hitems r 1 ltac:(lia)) as H1.
  unfold Qt.item_at in *.
  destruct (Qt.qrows m' !! r) as [row'|] eqn:Hr',
           (Qt.qrows m !! r) as [row|] eqn:Hr; simpl in *.
  - unfold COL_STATUS, COL_FILEPATH. by rewrite H0, H1.
  - apply lookup_lt_Some in Hr'. apply lookup_ge_None in Hr. lia.
  - apply lookup_lt_Some in Hr. apply lookup_ge_None in Hr'. lia.
  - done.
Qed.

Lemma item_at_insertColumns r c column count m :
  c < column → Qt.item_at r c (Qt.insertColumns column count m)
               = Qt.item_at r c m.
Proof.
  intros Hc. unfold Qt.insertColumns, Qt.item_at.
  case_decide; [|done]. simpl. rewrite list_lookup_fmap.
  destruct (Qt.qrows m !! r) as [row|]; [simpl|done].
  case_decide; [|done].
  rewrite lookup_app_l by (rewrite length_take; lia).
  by rewrite lookup_take_lt.
Qed.

Lemma rowCount_insertColumns column count m :
  Qt.rowCount (Qt.insertColumns column count m) = Qt.rowCount m.
Proof.
  unfold Qt.insertColumns, Qt.rowCount. case_decide; [|done].
  simpl. by rewrite length_fmap.
Qed.

Lemma columnCount_insertColumns count m :
  Qt.columnCount (Qt.insertColumns (Qt.columnCount m) count m)
  = Qt.columnCount m + count.
Proof.
  unfold Qt.insertColumns. case_decide as Hc; [done|].
  assert (count = 0) as -> by lia. lia.
Qed.

Lemma item_at_removeColumn r c column m :
  c < column → Qt.item_at r c (Qt.removeColumn column m) = Qt.item_at r c m.
Proof.
  intros Hc. unfold Qt.removeColumn, Qt.item_at.
  case_decide; [|done]. simpl. rewrite list_lookup_fmap.
  destruct (Qt.qrows m !! r) as [row|]; [simpl|done].
  by rewrite list_lookup_delete_lt.
Qed.

Lemma rowCount_removeColumn column m :
  Qt.rowCount (Qt.removeColumn column m) = Qt.rowCount m.
Proof.
  unfold Qt.removeColumn, Qt.rowCount. case_decide; [|done].
  simpl. by rewrite length_fmap.
Qed.

(** Removing columns from the highest down: every number still names a
    column when its turn comes. *)
Lemma columnCount_remove_columns l : ∀ m,
  StronglySorted (flip le) l → NoDup l →
  Forall (λ c, c < Qt.columnCount m) l →
  Qt.columnCount (foldl (λ m c, Qt.removeColumn c m) m l)
  = Qt.columnCount m - length l.
Proof.
  induction l as [|c l IH]; intros m Hs Hnd Hall; simpl; [lia|].
  apply StronglySorted_cons in Hs as [Hle Hs].
  apply NoDup_cons in Hnd as [Hc Hnd].
  apply Forall_cons in Hall as [Hcm Hall].
  rewrite IH; [| done | done |].
  - unfold Qt.removeColumn. rewrite decide_True by done. simpl. lia.
  - unfold Qt.removeColumn. rewrite decide_True by done. simpl.
    rewrite Forall_forall in *. intros c' Hc'.
    specialize (Hle c' Hc'). unfold flip in Hle.
    assert (c' ≠ c) by (intros ->; done). lia.
Qed.

Lemma item_at_remove_columns l r c : ∀ m,
  Forall (λ column, c < column) l →
  Qt.item_at r c (foldl (λ m c, Qt.removeColumn c m) m l) = Qt.item_at r c m.
Proof.
  induction l as [|column l IH]; intros m Hall; simpl; [done|].
  apply Forall_cons in Hall as [Hc Hall].
  rewrite IH by done. by apply item_at_removeColumn.
Qed.

Lemma rowCount_remove_columns l : ∀ m,
  Qt.rowCount (foldl (λ m c, Qt.removeColumn c m) m l) = Qt.rowCount m.
Proof.
  induction l as [|column l IH]; intros m; simpl; [done|].
  by rewrite IH, rowCount_removeColumn.
Qed.

Lemma shot_items_lookup m r :
  shot_items m !! r
  = if decide (r < Qt.rowCount m)
    then Some (Qt.item_at r COL_STATUS m, Qt.item_at r COL_FILEPATH m)
    else None.
Proof.
  unfold shot_items, Qt.item_at, Qt.rowCount. rewrite list_lookup_fmap.
  case_decide as Hr.
  - apply lookup_lt_is_Some in Hr as [row ->]. done.
  - by rewrite (proj2 (lookup_ge_None _ _)) by lia.
Qed.

Lemma length_shot_items m : length (shot_items m) = Qt.rowCount m.
Proof. unfold shot_items. by rewrite length_fmap. Qed.

Lemma mjoin_lookup_pad {A} (row : list (option A)) k i :
  mjoin ((row ++ replicate k None) !! i) = mjoin (row !! i).
Proof.
  destruct (decide (i < length row)) as [Hi|Hi].
  - by rewrite lookup_app_l.
  - rewrite lookup_app_r by lia.
    rewrite (proj2 (lookup_ge_None row i)) by lia.
    destruct (replicate k None !! (i - length row)) as [x|] eqn:Hx; [|done].
    apply lookup_replicate in Hx as [-> _]. done.
Qed.

Lemma rowCount_set_cell_text r c text m :
  r < Qt.rowCount m → Qt.rowCount (set_cell_text r c text m) = Qt.rowCount m.
Proof.
  intros Hr. unfold set_cell_text, Qt.rowCount in *.
  destruct (Qt.item_at r c m); simpl; rewrite length_alter; [done|].
  rewrite length_app, length_replicate. lia.
Qed.

Lemma columnCount_set_cell_text r c text m :
  c < Qt.columnCount m →
  Qt.columnCount (set_cell_text r c text m) = Qt.columnCount m.
Proof.
  intros Hc. unfold set_cell_text.
  destruct (Qt.item_at r c m); simpl; lia.
Qed.

Lemma item_at_set_cell_text r c text m r' c' :
  r < Qt.rowCount m →
  Qt.item_at r' c' (set_cell_text r c text m)
  = if decide (r' = r ∧ c' = c)
    then Some (match Qt.item_at r c m with
               | Some it => Qt.setText text it
               | None => Qt.new_item text
               end)
    else Qt.item_at r' c' m.
Proof.
  intros Hr. unfold Qt.rowCount in Hr.
  apply lookup_lt_is_Some in Hr as [row Hrow].
  unfold set_cell_text.
  destruct (Qt.item_at r c m) as [it|] eqn:Hit; unfold Qt.item_at in *;
    simpl; rewrite Hrow in Hit; simpl in Hit.
  - rewrite list_lookup_alter. case_decide as Hrr; simplify_eq/=.
    + rewrite Hrow. simpl. rewrite list_lookup_alter.
      destruct (row !! c) as [[it'|]|] eqn:Hc; simplify_eq/=.
      repeat case_decide; simplify_eq/=; try naive_solver.
    + rewrite decide_False by naive_solver. done.
  - replace (S r - length (Qt.qrows m)) with 0
      by (apply lookup_lt_Some in Hrow; lia).
    simpl. rewrite app_nil_r, list_lookup_alter.
    case_decide as Hrr; simplify_eq/=.
    + rewrite Hrow. simpl. case_decide as Hcc.
      * destruct Hcc as [_ ->].
        rewrite list_lookup_insert_eq; [done|].
        rewrite length_app, length_replicate. lia.
      * rewrite list_lookup_insert_ne by naive_solver.
        apply mjoin_lookup_pad.
    + rewrite decide_False by naive_solver. done.
Qed.

Lemma shot_items_set_cell_text_other r c text m :
  r < Qt.rowCount m → 2 ≤ c →
  shot_items (set_cell_text r c text m) = shot_items m.
Proof.
  intros Hr Hc. apply shot_items_ext.
  - by apply rowCount_set_cell_text.
  - intros r' c' Hc'. rewrite item_at_set_cell_text by done.
    rewrite decide_False; [done|lia].
Qed.

Lemma shot_items_set_cell_text_filepath r text m :
  r < Qt.rowCount m →
  shot_items (set_cell_text r COL_FILEPATH text m)
  = alter (retext text) r (shot_items m).
Proof.
  intros Hr. apply list_eq. intros r'.
  rewrite list_lookup_alter, !shot_items_lookup.
  rewrite rowCount_set_cell_text by done.
  rewrite !item_at_set_cell_text by done.
  unfold COL_STATUS, COL_FILEPATH.
  rewrite (decide_False (P := r' = r ∧ 0 = 1)) by lia.
  destruct (decide (r = r')) as [->|Hne].
  - rewrite decide_True by done. case_decide; [|lia].
    by rewrite decide_True by done.
  - rewrite (decide_False (P := r' = r ∧ 1 = 1)) by naive_solver.
    by case_decide.
Qed.

(** ** The column dictionaries *)





Lemma same_table_refl s : same_table s s.
Proof. by split. Qed.

Lemma same_table_trans s1 s2 s3 :
  same_table s1 s2 → same_table s2 s3 → same_table s1 s3.
Proof. intros [] []. split; congruence. Qed.

Lemma cols_inv_status k s :
  cols_inv k s → column_names s !! 0 = Some (Special "__status").
Proof. apply ci_status. Qed.

Lemma cols_inv_filepath k s :
  cols_inv k s →
  column_names s !! 1 = Some (Tuple (filepath_colname (nlevels s))).
Proof. apply ci_filepath. Qed.

Lemma cols_inv_two k s : cols_inv k s → 2 ≤ k.
Proof.
  intros Hinv. pose proof (ci_filepath _ _ Hinv) as H1.
  assert (COL_FILEPATH < k) by (apply (ci_keys _ _ Hinv); eauto).
  unfold COL_FILEPATH in *. lia.
Qed.

Section Methods.
Context `{!Helpers}.

Lemma add_column_inv k n s :
  cols_inv k s → (∀ i, column_names s !! i ≠ Some n) →
  cols_inv (S k) (add_column k n s).
Proof.
  intros Hinv Hnew. pose proof (cols_inv_two _ _ Hinv) as Hk.
  assert (column_names s !! k = None) as Hfree.
  { apply eq_None_not_Some. rewrite (ci_keys _ _ Hinv). lia. }
  assert (column_indices s !! n = None) as Hfree'.
  { apply eq_None_not_Some. intros [i Hi].
    apply (ci_inverse _ _ Hinv) in Hi. by eapply Hnew. }
  unfold add_column. split; simpl.
  - rewrite lookup_insert_ne by (unfold COL_STATUS; lia).
    apply (ci_status _ _ Hinv).
  - rewrite lookup_insert_ne by (unfold COL_FILEPATH; lia).
    apply (ci_filepath _ _ Hinv).
  - intros i. rewrite lookup_insert_is_Some, (ci_keys _ _ Hinv).
    destruct (decide (k = i)); naive_solver lia.
  - intros i m. rewrite !lookup_insert.
    destruct (decide (k = i)) as [->|Hki], (decide (n = m)) as [->|Hnm].
    + done.
    + split; [congruence|]. intros Hm.
      apply (ci_inverse _ _ Hinv) in Hm. congruence.
    + split; [|congruence]. intros Hm. by apply Hnew in Hm.
    + apply (ci_inverse _ _ Hinv).
  - intros i. rewrite !lookup_insert_is_Some.
    rewrite (ci_visible _ _ Hinv). naive_solver.
Qed.

Lemma add_column_same_table k n s : same_table s (add_column k n s).
Proof. by split. Qed.

Lemma add_column_model k n s : model (add_column k n s) = model s.
Proof. done. Qed.

Lemma add_column_img k n s m :
  column_names s !! k = None →
  (∃ i, column_names (add_column k n s) !! i = Some m)
  ↔ (∃ i, column_names s !! i = Some m) ∨ m = n.
Proof.
  intros Hfree. simpl. split.
  - intros [i Hi]. rewrite lookup_insert in Hi.
    destruct (decide (k = i)); naive_solver.
  - intros [[i Hi]| ->].
    + exists i. rewrite lookup_insert_ne; [done|congruence].
    + exists k. by rewrite lookup_insert_eq.
Qed.

Lemma add_columns_inv names : ∀ k s,
  cols_inv k s → NoDup names →
  (∀ n i, n ∈ names → column_names s !! i ≠ Some n) →
  cols_inv (k + length names) (add_columns k names s)
  ∧ same_table s (add_columns k names s)
  ∧ model (add_columns k names s) = model s
  ∧ (∀ m, (∃ i, column_names (add_columns k names s) !! i = Some m)
          ↔ (∃ i, column_names s !! i = Some m) ∨ m ∈ names).
Proof.
  induction names as [|n names IH]; intros k s Hinv Hnd Hnew; simpl.
  - rewrite Nat.add_0_r. split_and!; [done|apply same_table_refl|done|].
    intros m. rewrite elem_of_nil. naive_solver.
  - apply NoDup_cons in Hnd as [Hn Hnd].
    assert (column_names s !! k = None) as Hfree.
    { apply eq_None_not_Some. rewrite (ci_keys _ _ Hinv). lia. }
    destruct (IH (S k) (add_column k n s)) as (Hinv' & Hsame & Hmodel & Himg).
    + apply add_column_inv; [done|]. intros i. apply Hnew. by left.
    + done.
    + intros m i Hm Hi.
      assert ((∃ i, column_names s !! i = Some m) ∨ m = n) as [[j Hj]| ->].
      { apply (add_column_img k n s m Hfree). eauto. }
      * eapply Hnew; [by right|done].
      * done.
    + replace (k + S (length names)) with (S k + length names) by lia.
      split_and!; [done| |done|].
      * eapply same_table_trans; [apply add_column_same_table|done].
      * intros m. rewrite Himg, add_column_img by done.
        rewrite elem_of_cons. naive_solver.
Qed.

Lemma create_new_columns_spec s :
  columns_wf s →
  columns_wf (create_new_columns s)
  ∧ same_table s (create_new_columns s)
  ∧ shot_items (model (create_new_columns s)) = shot_items (model s)
  ∧ (∀ n, (∃ i, column_names (create_new_columns s) !! i = Some n)
          ↔ (∃ i, column_names s !! i = Some n)
            ∨ n ∈ Tuple <$> columns (dataframe s)).
Proof.
  intros [Hinv Hlev]. unfold create_new_columns.
  set (new := merge_sort colname_le (elements (new_column_names s))).
  set (start := Qt.columnCount (model s)).
  set (s0 := set_model (Qt.insertColumns start (length new)) s).
  assert (Hnew : ∀ n, n ∈ new ↔ n ∈ Tuple <$> columns (dataframe s)
                               ∧ ∀ i, column_names s !! i ≠ Some n).
  { intros n. unfold new. rewrite merge_sort_Permutation, elem_of_elements.
    unfold new_column_names.
    rewrite elem_of_difference, elem_of_list_to_set, not_elem_of_map_img.
    done. }
  destruct (add_columns_inv new start s0) as (Hinv' & Hsame & Hmodel & Himg).
  - destruct Hinv. by split.
  - unfold new. rewrite merge_sort_Permutation. apply NoDup_elements.
  - intros n i Hn. by apply Hnew.
  - split_and!.
    + split; [|by rewrite (st_nlevels _ _ Hsame)].
      rewrite Hmodel. unfold s0, start in *. simpl.
      by rewrite columnCount_insertColumns.
    + destruct Hsame. by split.
    + rewrite Hmodel. unfold s0. simpl.
      pose proof (cols_inv_two _ _ Hinv).
      apply shot_items_ext.
      * apply rowCount_insertColumns.
      * intros r c Hc. apply item_at_insertColumns. unfold start. lia.
    + intros n. rewrite Himg. unfold s0. simpl. rewrite Hnew.
      destruct (column_indices s !! n) as [j|] eqn:Hj.
      { apply (ci_inverse _ _ Hinv) in Hj. naive_solver. }
      split; [naive_solver|]. intros [|Hn]; [by left|]. right. split; [done|].
      intros i Hi. apply (ci_inverse _ _ Hinv) in Hi. congruence.
Qed.

Lemma lookup_all_Returns `{Countable K} {A} (d : gmap K A) keys :
  (∀ k, k ∈ keys → is_Some (d !! k)) →
  ∃ l, lookup_all d keys = Returns l ∧ Forall2 (λ k a, d !! k = Some a) keys l.
Proof.
  induction keys as [|k keys IH]; intros Hall; simpl.
  - eauto.
  - destruct (Hall k) as [a Ha]; [by left|].
    destruct IH as (l & Hl & Hf); [intros; apply Hall; by right|].
    rewrite Ha, Hl. eauto.
Qed.

Lemma remove_column_spec c s :
  is_Some (column_names s !! c) → is_Some (columns_visible s !! c) →
  ∃ s', remove_column c s = (Returns (), s')
    ∧ column_names s' = delete c (column_names s)
    ∧ columns_visible s' = delete c (columns_visible s)
    ∧ column_indices s' = column_indices s
    ∧ model s' = Qt.removeColumn c (model s)
    ∧ same_table s s'.
Proof.
  intros [n Hn] [v Hv]. unfold remove_column, bind, modify, found. simpl.
  rewrite Hv. simpl. rewrite Hn. simpl.
  eexists. split; [reflexivity|]. by split_and!.
Qed.

Lemma remove_columns_spec l : ∀ s,
  NoDup l →
  (∀ c, c ∈ l → is_Some (column_names s !! c)
                ∧ is_Some (columns_visible s !! c)) →
  ∃ s', for_each l remove_column s = (Returns (), s')
    ∧ (∀ i, column_names s' !! i
            = if decide (i ∈ l) then None else column_names s !! i)
    ∧ (∀ i, columns_visible s' !! i
            = if decide (i ∈ l) then None else columns_visible s !! i)
    ∧ column_indices s' = column_indices s
    ∧ model s' = foldl (λ m c, Qt.removeColumn c m) (model s) l
    ∧ same_table s s'.
Proof.
  induction l as [|c l IH]; intros s Hnd Hall.
  - exists s. split_and!; first [done | apply same_table_refl].
  - apply NoDup_cons in Hnd as [Hc Hnd].
    destruct (remove_column_spec c s) as (s1 & Hrun & Hn & Hv & Hi & Hm & Ht);
      [apply Hall; by left..|].
    destruct (IH s1 Hnd) as (s' & Hrun' & Hn' & Hv' & Hi' & Hm' & Ht').
    { intros c' Hc'. rewrite Hn, Hv, !lookup_delete_ne by (by intros ->).
      apply Hall. by right. }
    exists s'. split_and!.
    + simpl. unfold bind. by rewrite Hrun.
    + intros i. rewrite Hn', Hn. rewrite lookup_delete.
      repeat case_decide; set_solver.
    + intros i. rewrite Hv', Hv. rewrite lookup_delete.
      repeat case_decide; set_solver.
    + congruence.
    + simpl. by rewrite Hm', Hm.
    + by eapply same_table_trans.
Qed.

#[local] Instance flip_le_trans : Transitive (flip le).
Proof. intros a b c. unfold flip. lia. Qed.
#[local] Instance flip_le_total : Total (flip le).
Proof. intros a b. unfold flip. lia. Qed.

Lemma cols_inv_injective k s : cols_inv k s → injective (column_names s).
Proof.
  intros Hinv i j n Hi Hj.
  apply (ci_inverse _ _ Hinv) in Hi, Hj. congruence.
Qed.

Lemma size_after_delete {A} (d d' : gmap nat A) l :
  NoDup l → (∀ c, c ∈ l → is_Some (d !! c)) →
  (∀ i, d' !! i = if decide (i ∈ l) then None else d !! i) →
  size d' = size d - length l.
Proof.
  intros Hnd Hin Hd'.
  rewrite <- !size_dom, <- (size_list_to_set (C := gset nat) l Hnd).
  rewrite <- size_difference.
  - f_equal. apply set_eq. intros i.
    rewrite elem_of_difference, !elem_of_dom, elem_of_list_to_set, Hd'.
    case_decide; [|naive_solver]. split; [by intros []|naive_solver].
  - intros c Hc%elem_of_list_to_set. by apply elem_of_dom, Hin.
Qed.

Lemma remove_defunct_columns_spec s :
  columns_wf s →
  (∀ t, t ∈ columns (dataframe s) →
        ∃ i, column_names s !! i = Some (Tuple t)) →
  filepath_colname (nlevels s) ∈ columns (dataframe s) →
  ∃ s', remove_defunct_columns s = (Returns (), s')
    ∧ columns_wf s' ∧ columns_synced s' ∧ same_table s s'
    ∧ shot_items (model s') = shot_items (model s).
Proof.
  intros [Hinv Hlev] Hsub Hfp.
  pose proof (cols_inv_two _ _ Hinv) as Htwo.
  pose proof (cols_inv_injective _ _ Hinv) as Hinj.
  set (n0 := Special "__status").
  set (n1 := Tuple (filepath_colname (nlevels s))).
  set (D := map_img (column_names s)
              ∖ list_to_set (Tuple <$> columns (dataframe s))
              ∖ ({[n0; n1]} : gset colname)).
  assert (HD : defunct_column_names s = Returns D).
  { unfold defunct_column_names.
    by rewrite (ci_status _ _ Hinv), (ci_filepath _ _ Hinv). }
  assert (HDin : ∀ n, n ∈ D ↔ (∃ i, column_names s !! i = Some n)
                              ∧ (n ∉ (Tuple <$> columns (dataframe s)))
                              ∧ n ≠ n0 ∧ n ≠ n1).
  { intros n. unfold D.
    rewrite !elem_of_difference, elem_of_map_img, elem_of_list_to_set.
    set_solver. }
  destruct (lookup_all_Returns (column_indices s) (elements D))
    as (L & HL & HF).
  { intros n [[i Hi] _]%elem_of_elements%HDin.
    apply (ci_inverse _ _ Hinv) in Hi. eauto. }
  assert (HLin : ∀ c, c ∈ L ↔ ∃ n, n ∈ D ∧ column_names s !! c = Some n).
  { intros c. split.
    - intros [j Hj]%list_elem_of_lookup_1.
      destruct (Forall2_lookup_r _ _ _ _ _ HF Hj) as (n & Hn & Hnc).
      exists n. split.
      + apply elem_of_elements. by eapply list_elem_of_lookup_2.
      + by apply (ci_inverse _ _ Hinv).
    - intros (n & [j Hj]%elem_of_elements%list_elem_of_lookup_1 & Hc).
      destruct (Forall2_lookup_l _ _ _ _ _ HF Hj) as (c' & Hc' & Hnc').
      apply (ci_inverse _ _ Hinv) in Hc. simplify_eq.
      by eapply list_elem_of_lookup_2. }
  assert (HLnd : NoDup L).
  { apply NoDup_alt. intros i j c Hi Hj.
    destruct (Forall2_lookup_r _ _ _ _ _ HF Hi) as (n & Hn & Hnc).
    destruct (Forall2_lookup_r _ _ _ _ _ HF Hj) as (n' & Hn' & Hnc').
    apply (ci_inverse _ _ Hinv) in Hnc, Hnc'.
    assert (n = n') as -> by congruence.
    eapply (NoDup_lookup _ i j n' (NoDup_elements D)); done. }
  assert (HLtwo : ∀ c, c ∈ L → 2 ≤ c).
  { intros c (n & (_ & _ & Hn0 & Hn1)%HDin & Hc)%HLin.
    destruct c as [|[|c]]; [| |lia].
    - rewrite (cols_inv_status _ _ Hinv) in Hc. by simplify_eq.
    - rewrite (cols_inv_filepath _ _ Hinv) in Hc. by simplify_eq. }
  set (sorted := merge_sort (flip le) L).
  assert (Hperm : sorted ≡ₚ L) by apply merge_sort_Permutation.
  assert (Hsorted : ∀ c, c ∈ sorted ↔ c ∈ L) by (intros c; by rewrite Hperm).
  destruct (remove_columns_spec sorted s)
    as (s1 & Hrun & Hn & Hv & Hi & Hm & Ht).
  { by rewrite Hperm. }
  { intros c (n & _ & Hc)%Hsorted%HLin.
    split; [|apply (ci_visible _ _ Hinv)]; eauto. }
  assert (Hcount : Qt.columnCount (model s1)
                   = Qt.columnCount (model s) - length L).
  { rewrite Hm, columnCount_remove_columns, Hperm; [done|..].
    - apply StronglySorted_merge_sort; apply _.
    - by rewrite Hperm.
    - apply Forall_forall. intros c (n & _ & Hc)%Hsorted%HLin.
      apply (ci_keys _ _ Hinv). eauto. }
  assert (Hitems : shot_items (model s1) = shot_items (model s)).
  { rewrite Hm. apply shot_items_ext.
    - apply rowCount_remove_columns.
    - intros r c Hc. apply item_at_remove_columns.
      apply Forall_forall. intros c' Hc'%Hsorted%HLtwo. lia. }
  assert (Himg1 : ∀ n, (∃ i, column_names s1 !! i = Some n)
                       ↔ (∃ i, column_names s !! i = Some n) ∧ n ∉ D).
  { intros n. split.
    - intros [i Hin]. rewrite Hn in Hin. case_decide as Hmem; [done|].
      split; [eauto|]. intros HnD. apply Hmem, Hsorted, HLin. eauto.
    - intros [[i Hin] HnD]. exists i. rewrite Hn.
      rewrite decide_False; [done|].
      intros (n' & Hn' & Hc)%Hsorted%HLin. congruence. }
  assert (Hsync1 : ∀ t, (∃ i, column_names s1 !! i = Some (Tuple t))
                        ↔ t ∈ columns (dataframe s)).
  { intros t. rewrite Himg1, HDin. split.
    - intros [Hex Hno].
      destruct (decide (t ∈ columns (dataframe s))) as [|Hnt]; [done|].
      destruct (decide (t = filepath_colname (nlevels s))) as [->|Hnf];
        [done|].
      exfalso. apply Hno. split; [done|]. split_and!.
      + intros (t' & [= ->] & ?)%list_elem_of_fmap. done.
      + done.
      + unfold n1. congruence.
    - intros Ht'. split; [by apply Hsub|].
      intros (_ & Hno & _). apply Hno. by apply list_elem_of_fmap_2. }
  unfold remove_defunct_columns, bind. rewrite HD, HL. fold sorted.
  rewrite Hrun.
  destruct (decide (L = [])) as [->|Hne].
  - (* nothing was removed *)
    exists s1. split; [done|].
    assert (∀ i, column_names s1 !! i = column_names s !! i) as Hn'.
    { intros i. rewrite Hn. rewrite decide_False; [done|].
      rewrite Hperm. apply not_elem_of_nil. }
    assert (∀ i, columns_visible s1 !! i = columns_visible s !! i) as Hv'.
    { intros i. rewrite Hv. rewrite decide_False; [done|].
      rewrite Hperm. apply not_elem_of_nil. }
    split_and!;
      [|intros t; rewrite (st_dataframe _ _ Ht); apply Hsync1|done|done].
    split; [|by rewrite (st_nlevels _ _ Ht)].
    rewrite Hcount. simpl. rewrite Nat.sub_0_r.
    destruct Hinv. split; intros; rewrite ?Hn', ?Hv', ?Hi,
      ?(st_nlevels _ _ Ht); done.
  - (* some columns were removed: the dictionaries are renumbered *)
    exists (renumber_columns s1). split; [done|].
    assert (column_names s1 !! 0 = Some n0) as H0.
    { rewrite Hn, decide_False; [apply (cols_inv_status _ _ Hinv)|].
      intros ?%Hsorted%HLtwo. lia. }
    assert (column_names s1 !! 1 = Some n1) as H1.
    { rewrite Hn, decide_False; [apply (cols_inv_filepath _ _ Hinv)|].
      intros ?%Hsorted%HLtwo. lia. }
    assert (injective (column_names s1)) as Hinj1.
    { intros i j n. rewrite !Hn. repeat case_decide; try done. apply Hinj. }
    assert (size (column_names s1) = Qt.columnCount (model s) - length L)
      as Hsize.
    { rewrite (size_after_delete (column_names s) _ sorted), Hperm.
      - f_equal. apply size_keys_below, (ci_keys _ _ Hinv).
      - by rewrite Hperm.
      - intros c (n & _ & Hc)%Hsorted%HLin. eauto.
      - done. }
    assert (size (columns_visible s1) = Qt.columnCount (model s) - length L)
      as Hsizev.
    { rewrite (size_after_delete (columns_visible s) _ sorted), Hperm.
      - f_equal. apply size_keys_below. intros i.
        rewrite (ci_visible _ _ Hinv). apply (ci_keys _ _ Hinv).
      - by rewrite Hperm.
      - intros c (n & _ & Hc)%Hsorted%HLin.
        apply (ci_visible _ _ Hinv). eauto.
      - done. }
    split_and!.
    + split; [|simpl; by rewrite (st_nlevels _ _ Ht)].
      split; simpl.
      * rewrite renumber_lookup_initial; [done|].
        intros j Hj. assert (j = 0) as -> by (unfold COL_STATUS in *; lia).
        eauto.
      * rewrite renumber_lookup_initial;
          [by rewrite (st_nlevels _ _ Ht)|].
        intros j Hj. unfold COL_FILEPATH in *.
        destruct j as [|[|j]]; [eauto..|lia].
      * intros i. rewrite renumber_is_Some. lia.
      * intros i n. symmetry. apply inverse_mapping_lookup.
        by apply renumber_injective.
      * intros i. rewrite !renumber_is_Some. lia.
    + intros t. simpl. rewrite (st_dataframe _ _ Ht), <- Hsync1.
      apply renumber_img.
    + destruct Ht. by split.
    + done.
Qed.

End Methods.

Lemma same_columns_refl s : same_columns s s.
Proof. by split. Qed.

Lemma same_columns_trans s1 s2 s3 :
  same_columns s1 s2 → same_columns s2 s3 → same_columns s1 s3.
Proof. intros [] []. split; congruence. Qed.

Lemma columns_wf_same s s' :
  same_columns s s' → nlevels s' = nlevels s → columns_wf s → columns_wf s'.
Proof.
  intros [Hn Hi Hv Hc] Hl [[] ?]. split; [|lia].
  rewrite Hc. split; rewrite ?Hn, ?Hi, ?Hv, ?Hl; done.
Qed.

Lemma columns_synced_same s s' :
  column_names s' = column_names s → dataframe s' = dataframe s →
  columns_synced s → columns_synced s'.
Proof. intros Hn Hd Hs t. rewrite Hn, Hd. apply Hs. Qed.

Section Methods.
Context `{!Helpers}.

Lemma filter_nonempty_replicate k :
  filter (λ s : string, s ≠ "") (replicate k "") = [].
Proof. induction k as [|k IH]; [done|]. exact IH. Qed.

Lemma reported_filepath d n : reported d (filepath_colname n) = false.
Proof.
  unfold reported, filepath_colname.
  apply bool_decide_eq_false. intros (x & Hx & _)%list_elem_of_fmap.
  change (filter (λ s : string, s ≠ "") ("filepath" :: replicate (n - 1) ""))
    with ("filepath" :: filter (λ s : string, s ≠ "") (replicate (n - 1) ""))
    in Hx.
  by rewrite filter_nonempty_replicate in Hx.
Qed.


Lemma write_cell_spec r upd drow c n s :
  c < Qt.columnCount (model s) →
  (∀ t, n = Tuple t → t ∈ columns (dataframe s)) →
  ∃ s', write_cell r upd drow (c, n) s = (Returns (), s')
    ∧ same_columns s s' ∧ same_table s s'
    ∧ model s'
      = match n with
        | Tuple t =>
            if writes upd t
            then set_cell_text r c (short_value_str (cell drow t)) (model s)
            else model s
        | Special _ => model s
        end.
Proof.
  intros Hc Hcol. unfold write_cell. simpl.
  destruct n as [sp|t]; [exists s; split_and!; done || by split|].
  unfold writes.
  destruct upd as [d|]; [destruct (reported d t)|]; simpl.
  2:{ exists s. split_and!; done || by split. }
  all: unfold bind, modify, to_dict_get;
    rewrite decide_True by (by apply Hcol);
    eexists; split; [reflexivity|]; split_and!; try done.
  all: split; simpl; try done; by apply columnCount_set_cell_text.
Qed.

Lemma write_cells_spec r upd drow entries : ∀ s,
  r < Qt.rowCount (model s) → columns_wf s → columns_synced s →
  NoDup entries.*1 →
  (∀ c n, (c, n) ∈ entries → column_names s !! c = Some n) →
  ∃ s', for_each entries (write_cell r upd drow) s = (Returns (), s')
    ∧ same_columns s s' ∧ same_table s s'
    ∧ shot_items (model s')
      = if decide (1 ∈ entries.*1 ∧ upd = None)
        then alter (retext (short_value_str
                      (cell drow (filepath_colname (nlevels s)))))
               r (shot_items (model s))
        else shot_items (model s).
Proof.
  induction entries as [|[c n] entries IH];
    intros s Hr Hwf Hsync Hnd Hentries.
  - exists s. split_and!; [done|by split|by split|].
    rewrite decide_False; [done|]. intros [[]%elem_of_nil _].
  - rewrite fmap_cons in Hnd. apply NoDup_cons in Hnd as [Hc Hnd].
    assert (column_names s !! c = Some n) as Hcn by (apply Hentries; by left).
    destruct Hwf as [Hinv Hlev].
    destruct (write_cell_spec r upd drow c n s) as (s1 & Hrun & Hsc & Hst & Hm).
    { apply (ci_keys _ _ Hinv). eauto. }
    { intros t ->. apply Hsync. eauto. }
    destruct (IH s1) as (s' & Hrun' & Hsc' & Hst' & Hitems).
    { rewrite Hm. destruct n as [|t]; [done|]. destruct (writes upd t); [|done].
      by rewrite rowCount_set_cell_text. }
    { eapply columns_wf_same; [done|apply Hst|by split]. }
    { eapply columns_synced_same; [apply Hsc|apply Hst|done]. }
    { done. }
    { intros c' n' Hin. rewrite (sc_names _ _ Hsc). apply Hentries. by right. }
    exists s'. split_and!.
    + simpl. unfold bind. by rewrite Hrun.
    + by eapply same_columns_trans.
    + by eapply same_table_trans.
    + rewrite Hitems, (st_nlevels _ _ Hst), Hm. rewrite fmap_cons.
      cbn [fst] in *.
      destruct (decide (c = 1)) as [->|Hc1].
      * (* the filepath column *)
        rewrite (cols_inv_filepath _ _ Hinv) in Hcn. simplify_eq.
        rewrite (decide_False (P := 1 ∈ entries.*1 ∧ _))
          by (intros [? _]; done).
        destruct upd as [d|].
        -- rewrite (decide_False (P := _ ∧ Some d = None))
             by (by intros [_ ?]).
           cbn [writes]. by rewrite reported_filepath.
        -- rewrite decide_True by (split; [by left|done]).
           by apply shot_items_set_cell_text_filepath.
      * assert (shot_items
          match n with
          | Tuple t =>
              if writes upd t
              then set_cell_text r c (short_value_str (cell drow t)) (model s)
              else model s
          | Special _ => model s
          end = shot_items (model s)) as Hsame.
        { destruct n as [sp|t]; [done|]. destruct (writes upd t); [|done].
          apply shot_items_set_cell_text_other; [done|].
          destruct c as [|[|c]]; [|done|lia].
          rewrite (cols_inv_status _ _ Hinv) in Hcn. done. }
        rewrite Hsame.
        destruct (decide (1 ∈ entries.*1 ∧ upd = None)) as [[? ?]|Hno].
        -- rewrite decide_True; [done|]. split; [by right|done].
        -- rewrite decide_False; [done|].
           intros [[?|?]%elem_of_cons ?]; [done|]. by apply Hno.
Qed.

(** The loop over the columns, when it is known to complete. *)
Lemma write_cells_columns r upd drow entries s s' :
  columns_wf s → columns_synced s →
  (∀ c n, (c, n) ∈ entries → column_names s !! c = Some n) →
  for_each entries (write_cell r upd drow) s = (Returns (), s') →
  same_columns s s' ∧ same_table s s'.
Proof.
  intros Hwf Hsync Hentries.
  apply (for_each_Returns (λ x, same_columns s x ∧ same_table s x));
    [|split; [apply same_columns_refl|apply same_table_refl]].
  intros [c n] s1 s2 Hin [Hsc Hst] Hrun.
  destruct (write_cell_spec r upd drow c n s1) as (s2' & Hrun' & Hsc' & Hst' & _).
  - rewrite (sc_count _ _ Hsc). destruct Hwf as [Hinv _].
    apply (ci_keys _ _ Hinv). eauto.
  - intros t ->. rewrite (st_dataframe _ _ Hst). apply Hsync. eauto.
  - assert (s2' = s2) as -> by congruence.
    split; [by eapply same_columns_trans|by eapply same_table_trans].
Qed.

Lemma replicate_pad n k :
  1 ≤ n → filepath_colname n ++ replicate k "" = filepath_colname (n + k).
Proof.
  intros Hn. unfold filepath_colname. simpl. f_equal.
  rewrite <- replicate_add. f_equal. lia.
Qed.

Lemma pad_name_inj k : Inj (=) (=) (pad_name k).
Proof.
  intros [s1|t1] [s2|t2]; simpl; intros Heq; simplify_eq; try done.
  f_equal. by eapply app_inv_tail.
Qed.

Lemma update_column_levels_spec s :
  columns_wf s →
  columns_wf (update_column_levels s)
  ∧ model (update_column_levels s) = model s
  ∧ dataframe (update_column_levels s) = dataframe s
  ∧ row_number_by_filepath (update_column_levels s) = row_number_by_filepath s
  ∧ previous_n_digits (update_column_levels s) = previous_n_digits s
  ∧ nlevels (update_column_levels s)
    = nlevels s `max` pandas.nlevels (dataframe s).
Proof.
  intros [Hinv Hlev]. unfold update_column_levels.
  set (extra := pandas.nlevels (dataframe s) - nlevels s).
  case_decide as Hextra.
  2:{ split_and!; try done. lia. }
  simpl. split_and!; try done; [|lia].
  split; [|simpl; lia]. simpl.
  set (items := map_to_list (column_indices s)).
  assert (Hnames : ∀ i m,
    dict_from ((λ kv, (kv.2, pad_name extra kv.1)) <$> items) !! i = Some m
    ↔ ∃ n, column_names s !! i = Some n ∧ m = pad_name extra n).
  { intros i m. rewrite dict_from_lookup, list_elem_of_fmap.
    - split.
      + intros ([n j] & [= -> ->] & Hin%elem_of_map_to_list).
        exists n. split; [|done]. by apply (ci_inverse _ _ Hinv).
      + intros (n & Hn%(ci_inverse _ _ Hinv) & ->).
        exists (n, i). split; [done|]. by apply elem_of_map_to_list.
    - rewrite <- list_fmap_compose. apply (NoDup_fmap_2_strong _).
      + intros [n1 i1] [n2 i2] H1%elem_of_map_to_list H2%elem_of_map_to_list.
        simpl. intros ->. f_equal.
        apply (ci_inverse _ _ Hinv) in H1, H2. congruence.
      + apply NoDup_map_to_list. }
  assert (Hindices : ∀ m i,
    dict_from ((λ kv, (pad_name extra kv.1, kv.2)) <$> items) !! m = Some i
    ↔ ∃ n, column_names s !! i = Some n ∧ m = pad_name extra n).
  { intros m i. rewrite dict_from_lookup, list_elem_of_fmap.
    - split.
      + intros ([n j] & [= -> ->] & Hin%elem_of_map_to_list).
        exists n. split; [|done]. by apply (ci_inverse _ _ Hinv).
      + intros (n & Hn%(ci_inverse _ _ Hinv) & ->).
        exists (n, i). split; [done|]. by apply elem_of_map_to_list.
    - rewrite <- list_fmap_compose. apply (NoDup_fmap_2_strong _).
      + intros [n1 i1] [n2 i2] H1%elem_of_map_to_list H2%elem_of_map_to_list.
        simpl. intros Heq%pad_name_inj. subst. f_equal. congruence.
      + apply NoDup_map_to_list. }
  split; simpl.
  - apply Hnames. exists (Special "__status").
    split; [apply (ci_status _ _ Hinv)|done].
  - apply Hnames. exists (Tuple (filepath_colname (nlevels s))).
    split; [apply (ci_filepath _ _ Hinv)|]. cbn [pad_name]. f_equal.
    rewrite replicate_pad by done. f_equal. lia.
  - intros i. rewrite <- (ci_keys _ _ Hinv). split.
    + intros [m (n & Hn & _)%Hnames]. eauto.
    + intros [n Hn]. exists (pad_name extra n). apply Hnames. eauto.
  - intros i m. by rewrite Hnames, Hindices.
  - intros i. rewrite (ci_visible _ _ Hinv). split.
    + intros [n Hn]. exists (pad_name extra n). apply Hnames. eauto.
    + intros [m (n & Hn & _)%Hnames]. eauto.
Qed.

End Methods.

Lemma modify_Returns {S} (f : S → S) s a s' :
  modify f s = (Returns a, s') ↔ s' = f s.
Proof. unfold modify. destruct a. naive_solver. Qed.

Lemma gets_Returns {S A} (f : S → A) s a s' :
  gets f s = (Returns a, s') ↔ a = f s ∧ s' = s.
Proof. unfold gets. naive_solver. Qed.

Lemma ret_Returns {S A} (x : A) (s : S) a s' :
  ret x s = (Returns a, s') ↔ a = x ∧ s' = s.
Proof. unfold ret. naive_solver. Qed.

Lemma columns_at_set label c v df t :
  t ∈ columns df → t ∈ columns (at_set label c v df).
Proof.
  intros Ht. unfold at_set. simpl. case_decide; [done|].
  apply elem_of_app. by left.
Qed.

Section Methods.
Context `{!Helpers}.

(** Storing the reported values changes the dataframe only and removes
    none of its columns. *)
Lemma set_updated_cells_spec r d : ∀ s,
  same_columns s (set_updated_cells r d s)
  ∧ model (set_updated_cells r d s) = model s
  ∧ nlevels (set_updated_cells r d s) = nlevels s
  ∧ row_number_by_filepath (set_updated_cells r d s) = row_number_by_filepath s
  ∧ previous_n_digits (set_updated_cells r d s) = previous_n_digits s
  ∧ (∀ t, t ∈ columns (dataframe s)
          → t ∈ columns (dataframe (set_updated_cells r d s))).
Proof.
  unfold set_updated_cells.
  induction d as [|item d IH]; intros s; simpl.
  - split_and!; done || by split.
  - destruct (IH (set_dataframe
        (at_set r ([item.1.1; item.1.2] ++ replicate (nlevels s - 2) "")
           item.2 (dataframe s)) s)) as (Hsc & Hm & Hl & Hr & Hp & Hcols).
    split_and!; try done.
    + destruct Hsc. by split.
    + intros t Ht. apply Hcols. cbn [dataframe set_dataframe].
      by apply columns_at_set.
Qed.


Lemma at_get_Returns label c df v :
  at_get label c df = Returns v → c ∈ columns df.
Proof. unfold at_get. by case_decide. Qed.

Lemma columns_wf_blockSignals b s : columns_wf s ↔ columns_wf (blockSignals b s).
Proof.
  split; intros Hwf.
  - by apply (columns_wf_same s (blockSignals b s)).
  - by apply (columns_wf_same (blockSignals b s) s).
Qed.

Lemma update_row_columns filepath already new upd s s' r :
  columns_wf s →
  row_number_by_filepath s !! filepath = Some r →
  (∀ row, new = Some row → replace_keeps_filepath_column s row r) →
  update_row filepath already new upd s = (Returns (), s') →
  columns_synced s' ∧ columns_wf s'.
Proof.
  intros Hwf Hknown Hrep. unfold update_row.
  intros (_ & s0 & ->%modify_Returns & Hrun)%bind_Returns.
  destruct (_ && _); [done|].
  apply bind_Returns in Hrun as (known & ? & [-> ->]%gets_Returns & Hrun).
  cbn [row_number_by_filepath blockSignals] in Hrun. rewrite Hknown in Hrun.
  apply bind_Returns in Hrun as (stored & s0 & Hget & Hrun).
  injection Hget as Hget <-. cbn [nlevels dataframe blockSignals] in Hget.
  apply at_get_Returns in Hget.
  case_decide; [done|].
  apply bind_Returns in Hrun as ([] & s1 & Hstage & Hrun).
  assert (columns_wf s1
          ∧ filepath_colname (nlevels s1) ∈ columns (dataframe s1))
    as [Hwf1 Hfp1].
  { apply columns_wf_blockSignals with (b := true) in Hwf.
    destruct upd as [d|]; [|destruct new as [row|]];
      destruct already;
      try apply ret_Returns in Hstage as [_ ->];
      try apply modify_Returns in Hstage as ->; try done.
    - destruct (set_updated_cells_spec r d (blockSignals true s))
        as (Hsc & Hm & Hl & _ & _ & Hcols).
      split.
      + eapply columns_wf_same; [done|done|done].
      + rewrite Hl. by apply Hcols.
    - destruct (Hrep row eq_refl) as [Hle Hin].
      set (s2 := set_dataframe (replace_with_padding
                   (dataframe (blockSignals true s)) row r)
                   (blockSignals true s)).
      destruct (update_column_levels_spec s2) as (Hwf2 & _ & Hd & _ & _ & Hl).
      { by apply (columns_wf_same (blockSignals true s) s2). }
      split; [done|]. rewrite Hl, Hd. cbn. cbn in Hle.
      by rewrite Nat.max_r by done. }
  apply bind_Returns in Hrun as ([] & s2 & ->%modify_Returns & Hrun).
  destruct (create_new_columns_spec s1 Hwf1) as (Hwf2 & Hst2 & _ & Himg).
  destruct (remove_defunct_columns_spec (create_new_columns s1))
    as (s3 & Hrun3 & Hwf3 & Hsync3 & Hst3 & _).
  { done. }
  { intros t Ht. apply Himg. right. rewrite (st_dataframe _ _ Hst2) in Ht.
    by apply list_elem_of_fmap_2. }
  { by rewrite (st_nlevels _ _ Hst2), (st_dataframe _ _ Hst2). }
  apply bind_Returns in Hrun as ([] & s3' & Hrun3' & Hrun).
  assert (s3' = s3) as -> by congruence.
  apply bind_Returns in Hrun as (drow & ? & Hiloc & Hrun).
  injection Hiloc as _ <-.
  apply bind_Returns in Hrun as (entries & ? & [-> ->]%gets_Returns & Hrun).
  apply bind_Returns in Hrun as ([] & s4 & Hcells & ->%modify_Returns).
  apply write_cells_columns in Hcells as [Hsc4 Hst4]; [|done..|].
  2:{ intros c n. apply elem_of_map_to_list. }
  split.
  - eapply columns_synced_same; [| |exact Hsync3].
    + apply Hsc4. + apply Hst4.
  - apply -> columns_wf_blockSignals.
    eapply columns_wf_same; [exact Hsc4|apply Hst4|done].
Qed.

End Methods.

(** ** The dataframe of a consistent table *)

Lemma table_of_length s fps :
  table_of s fps →
  len (dataframe s) = length fps ∧ Qt.rowCount (model s) = length fps.
Proof.
  intros Ht. split.
  - pose proof (t_stored _ _ Ht) as Hs. apply (f_equal length) in Hs.
    unfold stored_filepaths in Hs. by rewrite !length_fmap in Hs.
  - pose proof (t_shown _ _ Ht) as Hs. apply (f_equal length) in Hs.
    unfold shown in Hs. by rewrite !length_fmap, length_shot_items in Hs.
Qed.

Lemma table_of_row s fps r fp :
  table_of s fps → fps !! r = Some fp →
  ∃ row, rows (dataframe s) !! r = Some (r, row)
         ∧ cell row (filepath_colname (nlevels s)) = VStr fp.
Proof.
  intros Ht Hr.
  pose proof (t_stored _ _ Ht) as Hs. apply (f_equal (λ l, l !! r)) in Hs.
  pose proof (t_index _ _ Ht) as Hi. apply (f_equal (λ l, l !! r)) in Hi.
  unfold stored_filepaths, index in *.
  rewrite !list_lookup_fmap, ?Hr in *. simpl in *.
  rewrite lookup_seq_lt in Hi by (by eapply lookup_lt_Some).
  destruct (rows (dataframe s) !! r) as [[label row]|]; simplify_eq/=.
  eauto.
Qed.

Lemma table_of_find s fps r row :
  table_of s fps → rows (dataframe s) !! r = Some (r, row) →
  list_find (λ x, x.1 = r) (rows (dataframe s)) = Some (r, (r, row)).
Proof.
  intros Ht Hr. apply list_find_Some. split_and!; [done..|].
  intros j [label row'] Hj Hlt Heq. simpl in Heq. subst.
  pose proof (t_index _ _ Ht) as Hi. apply (f_equal (λ l, l !! j)) in Hi.
  unfold index in Hi. rewrite list_lookup_fmap, Hj in Hi. simpl in Hi.
  symmetry in Hi. apply lookup_seq in Hi. lia.
Qed.

Lemma table_of_at_get s fps r fp :
  table_of s fps → fps !! r = Some fp →
  at_get r (filepath_colname (nlevels s)) (dataframe s) = Returns (VStr fp).
Proof.
  intros Ht Hr. destruct (table_of_row _ _ _ _ Ht Hr) as (row & Hrow & Hcell).
  unfold at_get. rewrite decide_True by apply (t_column _ _ Ht).
  rewrite (table_of_find _ _ _ _ Ht Hrow). simpl. by rewrite Hcell.
Qed.

Lemma table_of_NoDup s fps : table_of s fps → NoDup fps.
Proof.
  intros Ht. apply NoDup_alt. intros i j fp Hi Hj.
  apply (t_rows _ _ Ht) in Hi, Hj. congruence.
Qed.

(** [at_set] on a label of the index, for a column other than [c0]. *)
Lemma at_set_index label c v df :
  label ∈ index df → index (at_set label c v df) = index df.
Proof.
  intros Hl. unfold at_set, index. simpl. rewrite decide_True by done.
  rewrite <- list_fmap_compose. apply list_fmap_ext.
  intros _ [l r] _. simpl. by case_decide.
Qed.

Lemma at_set_cells label c v df c0 :
  label ∈ index df → c ≠ c0 →
  (λ r, cell r.2 c0) <$> rows (at_set label c v df)
  = (λ r, cell r.2 c0) <$> rows df.
Proof.
  intros Hl Hc. unfold at_set, index in *. simpl. rewrite decide_True by done.
  rewrite <- list_fmap_compose. apply list_fmap_ext.
  intros _ [l r] _. simpl. case_decide; [|done]. simpl.
  unfold cell. by rewrite lookup_insert_ne.
Qed.

Section Methods.
Context `{!Helpers}.




Lemma reported_key_ne (g n : string) k :
  ¬ (g = "filepath" ∧ n = "") →
  [g; n] ++ replicate (k - 2) "" ≠ filepath_colname k.
Proof.
  intros Hne Heq. unfold filepath_colname in Heq. simpl in Heq.
  injection Heq as -> Heq. destruct (k - 1) as [|k']; [done|].
  simpl in Heq. injection Heq as -> _. by apply Hne.
Qed.

Lemma set_updated_cells_table r d fps : ∀ s,
  table_of s fps → r < length fps → leaves_filepath_column d →
  table_of (set_updated_cells r d s) fps.
Proof.
  unfold set_updated_cells.
  induction d as [|item d IH]; intros s Ht Hr Hd; [done|]. simpl.
  apply IH; [|done|intros x Hx; apply Hd; by right].
  assert (r ∈ index (dataframe s)) as Hin.
  { rewrite (t_index _ _ Ht). apply elem_of_seq. lia. }
  destruct Ht. split; cbn [dataframe nlevels model row_number_by_filepath
                           set_dataframe]; try done.
  - by rewrite at_set_index.
  - by apply columns_at_set.
  - unfold stored_filepaths. rewrite at_set_cells; [done..|].
    apply reported_key_ne, Hd. by left.
Qed.

Lemma setText_same it : Qt.setText (Qt.text it) it = it.
Proof. by destruct it. Qed.

Lemma table_of_shot s fps r fp :
  table_of s fps → fps !! r = Some fp →
  ∃ st it, shot_items (model s) !! r = Some (Some st, Some it)
           ∧ Qt.text it = fp.
Proof.
  intros Ht Hr.
  pose proof (t_shown _ _ Ht) as Hs. apply (f_equal (λ l, l !! r)) in Hs.
  unfold shown in Hs. rewrite !list_lookup_fmap, Hr in Hs. simpl in Hs.
  destruct (shot_items (model s) !! r) as [[st it]|] eqn:Hx; simplify_eq/=.
  pose proof (t_status _ _ Ht) as Hst. rewrite Forall_lookup in Hst.
  destruct (Hst _ _ Hx) as [st' Hst']. simpl in Hst'. subst st.
  destruct it as [it|]; simplify_eq/=. eauto.
Qed.

(** Writing to the filepath item the text it has changes nothing. *)
Lemma retext_same s fps r fp :
  table_of s fps → fps !! r = Some fp →
  alter (retext fp) r (shot_items (model s)) = shot_items (model s).
Proof.
  intros Ht Hr. destruct (table_of_shot _ _ _ _ Ht Hr) as (st & it & Hx & <-).
  apply list_eq. intros j. rewrite list_lookup_alter.
  case_decide; [subst|done]. rewrite Hx. simpl. unfold retext. simpl.
  by rewrite setText_same.
Qed.

Lemma table_of_same s s' fps :
  same_table s s' → shot_items (model s') = shot_items (model s) →
  table_of s fps → table_of s' fps.
Proof.
  intros [Hd Hl Hr _] Hitems []. unfold shown in *.
  split; unfold shown; by rewrite ?Hd, ?Hl, ?Hr, ?Hitems.
Qed.

(** [update_row] for a shot of a consistent table: the call returns, the
    columns are synchronised and the rows are as they were. *)
Lemma update_row_spec filepath already new upd s fps r :
  columns_wf s → table_of s fps → fps !! r = Some filepath →
  Bool.eqb (is_none new) (is_none upd) && negb already = false →
  (∀ d, upd = Some d → already = false → leaves_filepath_column d) →
  (upd = None → shown_in_full filepath) →
  (∀ row, new = Some row → replace_keeps_table s row r) →
  ∃ s', update_row filepath already new upd s = (Returns (), s')
    ∧ columns_wf s' ∧ columns_synced s' ∧ table_of s' fps
    ∧ shot_items (model s') = shot_items (model s)
    ∧ row_number_by_filepath s' = row_number_by_filepath s
    ∧ previous_n_digits s' = previous_n_digits s.
Proof.
  intros Hwf Ht Hr Hargs Hupd Hfull Hrep.
  assert (row_number_by_filepath s !! filepath = Some r) as Hknown
    by (by apply (t_rows _ _ Ht)).
  pose proof (table_of_length _ _ Ht) as [Hlen Hcount].
  assert (r < length fps) as Hrlt by (by eapply lookup_lt_Some).
  (* the dataframe stage *)
  set (s0 := blockSignals true s).
  assert (Ht0 : table_of s0 fps) by (by destruct Ht).
  assert (Hwf0 : columns_wf s0) by (by apply columns_wf_blockSignals).
  set (stage := match upd with
      | Some d => if already then ret ()
                  else modify (set_updated_cells r d)
      | None => if already then ret () else
          match new with
          | None => raise ValueError
          | Some row => modify (λ self, update_column_levels
                (set_dataframe
                   (replace_with_padding (dataframe self) row r) self))
          end
      end : M state unit).
  assert (∃ s1, stage s0 = (Returns (), s1) ∧ columns_wf s1 ∧ table_of s1 fps
                ∧ model s1 = model s
                ∧ row_number_by_filepath s1 = row_number_by_filepath s
                ∧ previous_n_digits s1 = previous_n_digits s)
    as (s1 & Hstage & Hwf1 & Ht1 & Hm1 & Hr1 & Hp1).
  { unfold stage. destruct upd as [d|]; [|destruct new as [row|]];
      destruct already; simplify_eq/=;
      try (exists s0; split_and!; done).
    - exists (set_updated_cells r d s0).
      destruct (set_updated_cells_spec r d s0) as (Hsc & Hm & Hl & Hrn & Hp & _).
      split_and!; try done.
      + by apply (columns_wf_same s0).
      + apply set_updated_cells_table; [done..|]. by apply Hupd.
    - destruct (Hrep row eq_refl) as ([Hle Hin] & Hidx & Hsto).
      set (s2 := set_dataframe (replace_with_padding (dataframe s0) row r) s0).
      destruct (update_column_levels_spec s2)
        as (Hwf2 & Hm & Hd & Hrn & Hp & Hl).
      { by apply (columns_wf_same s0 s2). }
      exists (update_column_levels s2).
      assert (nlevels (update_column_levels s2)
              = pandas.nlevels (replace_with_padding (dataframe s) row r))
        as Hl'.
      { rewrite Hl. cbn. cbn in Hle. lia. }
      split_and!; try done.
      destruct Ht. split; rewrite ?Hl', ?Hd, ?Hm, ?Hrn; cbn; try done.
      + by rewrite Hidx.
      + by rewrite Hsto. }
  (* the columns *)
  destruct (create_new_columns_spec s1 Hwf1) as (Hwf2 & Hst2 & Hit2 & Himg).
  destruct (remove_defunct_columns_spec (create_new_columns s1))
    as (s3 & Hrun3 & Hwf3 & Hsync3 & Hst3 & Hit3).
  { done. }
  { intros t Hin. apply Himg. right. rewrite (st_dataframe _ _ Hst2) in Hin.
    by apply list_elem_of_fmap_2. }
  { rewrite (st_nlevels _ _ Hst2), (st_dataframe _ _ Hst2).
    apply (t_column _ _ Ht1). }
  assert (Ht3 : table_of s3 fps).
  { apply (table_of_same (create_new_columns s1)); [done..|].
    by apply (table_of_same s1). }
  (* the cells *)
  destruct (table_of_row _ _ _ _ Ht3 Hr) as (drow & Hdrow & Hcell).
  destruct (write_cells_spec r upd drow (map_to_list (column_names s3)) s3)
    as (s4 & Hrun4 & Hsc4 & Hst4 & Hit4).
  { by rewrite (proj2 (table_of_length _ _ Ht3)). }
  { done. }
  { done. }
  { apply NoDup_fst_map_to_list. }
  { intros c n. apply elem_of_map_to_list. }
  assert (Hit4' : shot_items (model s4) = shot_items (model s3)).
  { rewrite Hit4. case_decide as Hw; [|done]. destruct Hw as [_ ->].
    rewrite Hcell. rewrite (Hfull eq_refl). by eapply retext_same. }
  exists (blockSignals false s4). split.
  { unfold update_row, bind at 1. cbn [modify]. fold s0.
    rewrite Hargs. unfold bind at 1. cbn [gets].
    cbn [row_number_by_filepath blockSignals s0]. rewrite Hknown.
    unfold bind at 1.
    rewrite (table_of_at_get _ _ _ _ Ht0 Hr).
    rewrite decide_False by (by intros []).
    fold stage. unfold bind at 1. fold s0. rewrite Hstage.
    unfold bind at 1. cbn [modify].
    unfold bind at 1. rewrite Hrun3.
    unfold bind at 1. unfold iloc. rewrite Hdrow. cbn [snd].
    unfold bind at 1. cbn [gets].
    unfold bind at 1. rewrite Hrun4. done. }
  split_and!.
  - apply -> columns_wf_blockSignals.
    by apply (columns_wf_same s3 s4 Hsc4 (st_nlevels _ _ Hst4)).
  - apply (columns_synced_same s3); [apply Hsc4|apply Hst4|done].
  - apply (table_of_same s4); [by split|done|].
    by apply (table_of_same s3).
  - cbn. by rewrite Hit4', Hit3, Hit2, Hm1.
  - cbn. by rewrite (st_rows _ _ Hst4), (st_rows _ _ Hst3), (st_rows _ _ Hst2).
  - cbn. by rewrite (st_digits _ _ Hst4), (st_digits _ _ Hst3),
      (st_digits _ _ Hst2).
Qed.

(** [update_row] for a file that is not in the table returns at once. *)
Lemma update_row_unknown filepath already new upd s :
  row_number_by_filepath s !! filepath = None →
  Bool.eqb (is_none new) (is_none upd) && negb already = false →
  update_row filepath already new upd s = (Returns (), blockSignals true s).
Proof.
  intros Hnone Hargs. unfold update_row, bind at 1. cbn [modify].
  rewrite Hargs. unfold bind at 1. cbn [gets].
  cbn [row_number_by_filepath blockSignals]. by rewrite Hnone.
Qed.

End Methods.

(** ** The example table *)

Lemma one_shot_wf : columns_wf one_shot.
Proof.
  split; [|cbn; lia]. split; cbn.
  - done.
  - done.
  - intros [|[|[|i]]];
      rewrite ?lookup_insert_ne, ?lookup_singleton_ne by lia;
      rewrite ?lookup_insert_eq, ?lookup_singleton_eq;
      split; intros Hi; (lia || eauto || by apply is_Some_None in Hi).
  - intros i n. split.
    + destruct i as [|[|[|i]]]; intros Hn.
      1-3: by (vm_compute in Hn; injection Hn as <-; vm_compute).
      by rewrite !lookup_insert_ne, lookup_singleton_ne in Hn by lia.
    + destruct n as [s|t]; intros Hn.
      * destruct (decide (s = "__status")) as [->|];
          [vm_compute in Hn; by simplify_eq|].
        rewrite !lookup_insert_ne, lookup_singleton_ne in Hn by congruence.
        done.
      * destruct (decide (t = ["filepath"; ""])) as [->|];
          [vm_compute in Hn; by simplify_eq|].
        destruct (decide (t = ["run number"; ""])) as [->|];
          [vm_compute in Hn; by simplify_eq|].
        rewrite !lookup_insert_ne, lookup_singleton_ne in Hn by congruence.
        done.
  - intros [|[|[|i]]];
      rewrite ?lookup_insert_ne, ?lookup_singleton_ne by lia;
      rewrite ?lookup_insert_eq, ?lookup_singleton_eq; split; intros Hi;
      eauto; by apply is_Some_None in Hi.
Qed.

Lemma one_shot_table : table_of one_shot ["/lab/shots/0.h5"].
Proof.
  split.
  - vm_compute. reflexivity.
  - apply elem_of_cons. by left.
  - vm_compute. reflexivity.
  - vm_compute. reflexivity.
  - apply Forall_cons. split; [eexists; vm_compute; reflexivity|].
    apply Forall_nil_2.
  - intros fp i. cbn [row_number_by_filepath one_shot].
    destruct (decide (fp = "/lab/shots/0.h5")) as [->|Hne].
    + rewrite lookup_singleton_eq. destruct i; [done|].
      split; [done|]. intros Hi%lookup_lt_Some. cbn in Hi. lia.
    + rewrite lookup_singleton_ne by done. split; [done|].
      intros Hi. apply list_elem_of_lookup_2, list_elem_of_singleton in Hi.
      done.
Qed.

Section Methods.
Context `{!Helpers}.

(** C2.  Every call of [update_row] for a shot of the table that runs to
    its end leaves the tuple-named columns of the model exactly the
    columns of the dataframe (a column is made for a new field, the column
    of a field that is gone is removed), keeps the status column at 0 and
    the filepath column at 1, keeps the keys of [column_names] the numbers
    of the columns of the Qt model, and keeps [column_indices] the exact
    inverse of [column_names].  The dictionaries are taken coherent before
    the call, as [__init__] makes them; when a whole new row is given, the
    frame made by [replace_with_padding] is taken to keep the filepath
    column and not to lose levels. *)
Theorem update_row_keeps_columns_synchronised
    filepath already new upd s s' row_number :
  columns_wf s →
  row_number_by_filepath s !! filepath = Some row_number →
  (∀ row, new = Some row → replace_keeps_filepath_column s row row_number) →
  update_row filepath already new upd s = (Returns (), s') →
  (∀ t, (∃ i, column_names s' !! i = Some (Tuple t))
        ↔ t ∈ columns (dataframe s'))
  ∧ column_names s' !! COL_STATUS = Some (Special "__status")
  ∧ column_names s' !! COL_FILEPATH
    = Some (Tuple (filepath_colname (nlevels s')))
  ∧ (∀ i, is_Some (column_names s' !! i) ↔ i < Qt.columnCount (model s'))
  ∧ (∀ i n, column_names s' !! i = Some n ↔ column_indices s' !! n = Some i).
Proof.
  intros Hwf Hknown Hrep Hrun.
  destruct (update_row_columns _ _ _ _ _ _ _ Hwf Hknown Hrep Hrun)
    as [Hsync [[] _]].
  by split_and!.
Qed.

End Methods.

(** C2 at the example table: the script reports a fitted width for the
    shot, and the column [('fit', 'width')] is made for it. *)
Lemma update_row_keeps_columns_synchronised_witness :
  column_names
    (@update_row example_helpers "/lab/shots/0.h5" false None
       (Some example_report) one_shot).2 !! 3
  = Some (Tuple ["fit"; "width"])
  ∧ ∀ i n,
      column_names
        (@update_row example_helpers "/lab/shots/0.h5" false None
           (Some example_report) one_shot).2 !! i = Some n
      ↔ column_indices
          (@update_row example_helpers "/lab/shots/0.h5" false None
             (Some example_report) one_shot).2 !! n = Some i.
Proof.
  split; [vm_compute; reflexivity|].
  apply (@update_row_keeps_columns_synchronised example_helpers
           "/lab/shots/0.h5" false None (Some example_report) one_shot _ 0).
  - exact one_shot_wf.
  - vm_compute. reflexivity.
  - intros row Hrow. discriminate Hrow.
  - assert ((@update_row example_helpers "/lab/shots/0.h5" false None
               (Some example_report) one_shot).1 = Returns ()) as Hrun
      by (vm_compute; reflexivity).
    destruct (@update_row example_helpers "/lab/shots/0.h5" false None
                (Some example_report) one_shot) as [o s'].
    simpl in Hrun. rewrite Hrun. reflexivity.
Defined.

(** ** Numbering the rows *)



Lemma same_but_row_numbers_refl s : same_but_row_numbers s s.
Proof. split; done || apply same_columns_refl. Qed.

Lemma same_but_row_numbers_trans s1 s2 s3 :
  same_but_row_numbers s1 s2 → same_but_row_numbers s2 s3 →
  same_but_row_numbers s1 s3.
Proof.
  intros [] []. split; try congruence. by eapply same_columns_trans.
Qed.

Lemma for_each_total {S A} (P : S → Prop) (body : A → M S unit) l :
  (∀ x s, x ∈ l → P s → ∃ s', body x s = (Returns (), s') ∧ P s') →
  ∀ s, P s → ∃ s', for_each l body s = (Returns (), s') ∧ P s'.
Proof.
  induction l as [|x l IH]; intros Hbody s HP; simpl.
  - eauto.
  - destruct (Hbody x s) as (s1 & Hx & HP1); [by left|done|].
    destruct (IH (λ y t Hy, Hbody y t (list_elem_of_further _ _ _ Hy)) s1 HP1)
      as (s' & Hrun & HP').
    exists s'. split; [|done]. unfold bind. by rewrite Hx.
Qed.

Lemma shown_item m texts k fp :
  shown m = Some <$> texts → texts !! k = Some fp →
  ∃ it, Qt.item_at k COL_FILEPATH m = Some it ∧ Qt.text it = fp.
Proof.
  intros Hshown Hk. apply (f_equal (λ l, l !! k)) in Hshown.
  unfold shown in Hshown.
  rewrite !list_lookup_fmap, Hk, shot_items_lookup in Hshown.
  case_decide; [|done]. simpl in Hshown.
  destruct (Qt.item_at k COL_FILEPATH m) as [it|]; simplify_eq/=. eauto.
Qed.

Section Methods.
Context `{!Helpers}.


Lemma number_rows_spec texts n : ∀ k s,
  integer_indexing s = false →
  shown (model s) = Some <$> texts → NoDup texts → k + n = length texts →
  (∀ fp i, row_number_by_filepath s !! fp = Some i
           ↔ take k texts !! i = Some fp) →
  ∃ s', for_each (seq k n) number_row s = (Returns (), s')
    ∧ (∀ fp i, row_number_by_filepath s' !! fp = Some i ↔ texts !! i = Some fp)
    ∧ same_but_row_numbers s s'
    ∧ previous_n_digits s' = previous_n_digits s.
Proof.
  induction n as [|n IH]; intros k s Hflag Hshown Hnd Hlen Hmap.
  - exists s. split_and!; [done| |apply same_but_row_numbers_refl|done].
    intros fp i. rewrite Hmap, firstn_all2 by lia. done.
  - destruct (lookup_lt_is_Some_2 texts k) as [fpk Hk]; [lia|].
    destruct (shown_item _ _ _ _ Hshown Hk) as (it & Hit & Htext).
    set (s1 := set_row_number_by_filepath
                 (<[fpk := k]> (row_number_by_filepath s)) s).
    destruct (IH (S k) s1) as (s' & Hrun & Hmap' & Hsame & Hdig);
      [done|done|done|lia| |].
    + intros fp i. cbn [row_number_by_filepath s1 set_row_number_by_filepath].
      rewrite (take_S_r _ _ _ Hk).
      destruct (decide (fp = fpk)) as [->|Hne].
      * rewrite lookup_insert_eq. split.
        -- intros [= <-]. rewrite lookup_app_r; rewrite length_take; [|lia].
           replace (k - k `min` length texts) with 0 by lia. done.
        -- intros Hi. f_equal.
           destruct (decide (i < k)) as [Hlt|].
           ++ rewrite lookup_app_l in Hi by (rewrite length_take; lia).
              rewrite lookup_take_lt in Hi by done.
              pose proof (NoDup_lookup _ _ _ _ Hnd Hi Hk). lia.
           ++ apply lookup_lt_Some in Hi.
              rewrite length_app, length_take in Hi. simpl in Hi. lia.
      * rewrite lookup_insert_ne by done. rewrite Hmap. split.
        -- intros Hi. rewrite lookup_app_l; [done|]. by eapply lookup_lt_Some.
        -- intros Hi. destruct (decide (i < k)) as [Hlt|].
           ++ by rewrite lookup_app_l in Hi by (rewrite length_take; lia).
           ++ rewrite lookup_app_r in Hi by (rewrite length_take; lia).
              rewrite length_take in Hi.
              destruct (i - k `min` length texts) as [|?] eqn:?;
                simplify_eq/=.
    + exists s'. split_and!; try done.
      * cbn [seq for_each]. unfold bind at 1, number_row, bind at 1.
        rewrite Hit. cbn. rewrite Hflag. cbn. subst fpk. exact Hrun.
      * eapply same_but_row_numbers_trans; [|exact Hsame].
        split; done || apply same_columns_refl.
Qed.

Lemma renumber_rows_spec add_from s texts :
  integer_indexing s = false →
  shown (model s) = Some <$> texts → NoDup texts →
  add_from ≤ length texts →
  (add_from ≠ 0 →
   ∀ fp i, row_number_by_filepath s !! fp = Some i
           ↔ take add_from texts !! i = Some fp) →
  ∃ s', renumber_rows add_from s = (Returns (), s')
    ∧ (∀ fp i, row_number_by_filepath s' !! fp = Some i ↔ texts !! i = Some fp)
    ∧ same_but_row_numbers s s'.
Proof.
  intros Hflag Hshown Hnd Hle Hmap.
  assert (Qt.rowCount (model s) = length texts) as Hcount.
  { apply (f_equal length) in Hshown. unfold shown in Hshown.
    by rewrite !length_fmap, length_shot_items in Hshown. }
  unfold renumber_rows, bind at 1. cbn [gets]. unfold bind at 1. cbn [gets].
  rewrite Hcount.
  set (from := if decide (n_digits (length texts) ≠ previous_n_digits s)
               then 0 else add_from).
  set (s1 := set_previous_n_digits (n_digits (length texts)) s).
  set (s2 := if decide (from = 0) then set_row_number_by_filepath ∅ s1
             else s1).
  destruct (number_rows_spec texts (length texts - from) from s2)
    as (s' & Hrun & Hmap' & Hsame & _).
  - unfold s2. by case_decide.
  - unfold s2. by case_decide.
  - done.
  - unfold from. case_decide; lia.
  - intros fp i. unfold s2. case_decide as Hfrom.
    + rewrite Hfrom. cbn. rewrite lookup_empty, take_0, lookup_nil. done.
    + unfold from in *. case_decide; [done|]. by apply Hmap.
  - exists s'. split_and!; [|done|].
    + unfold bind at 1. cbn [modify]. fold s1. unfold bind at 1.
      replace ((if decide (from = 0)
                then modify (set_row_number_by_filepath ∅) else ret ()) s1)
        with (Returns (), s2); [exact Hrun|].
      unfold s2. by case_decide.
    + eapply same_but_row_numbers_trans; [|exact Hsame].
      unfold s2. case_decide; split; try done; by split.
Qed.

End Methods.

(** ** Dropping the rows of duplicate filepaths *)

Lemma elem_of_where_equal v vals l :
  l ∈ where_equal v vals ↔ ∃ cells, vals !! l = Some cells ∧ v ∈ cells.
Proof.
  unfold where_equal. rewrite list_elem_of_join. split.
  - intros (sub & Hl & (i & cells & -> & Hi)%elem_of_lookup_imap).
    apply list_elem_of_fmap in Hl as (x & -> & Hx%list_elem_of_filter).
    destruct Hx as [-> Hx]. eauto.
  - intros (cells & Hl & Hv).
    exists (const l <$> filter (λ x, x = v) cells). split.
    + apply list_elem_of_fmap. exists v. split; [done|].
      by apply list_elem_of_filter.
    + apply elem_of_lookup_imap. exists l, cells. split; [reflexivity|done].
Qed.

Lemma filter_ext_in {A} (P Q : A → Prop) `{!∀ x, Decision (P x)}
    `{!∀ x, Decision (Q x)} (l : list A) :
  (∀ x, x ∈ l → P x ↔ Q x) → filter P l = filter Q l.
Proof.
  induction l as [|x l IH]; intros Hext; [done|].
  rewrite !filter_cons. rewrite IH by (intros; apply Hext; by right).
  pose proof (Hext x (list_elem_of_here _ _)) as Hx.
  destruct (decide (P x)) as [HP|HP], (decide (Q x)) as [HQ|HQ];
    done || (exfalso; tauto).
Qed.

Lemma fmap_filter {A B} (f : A → B) (P : B → Prop) `{!∀ y, Decision (P y)}
    (l : list A) :
  f <$> filter (λ x, P (f x)) l = filter P (f <$> l).
Proof.
  induction l as [|x l IH]; [done|]. rewrite fmap_cons, !filter_cons.
  case_decide; by rewrite ?fmap_cons, IH.
Qed.

Lemma filter_all {A} (P : A → Prop) `{!∀ x, Decision (P x)} (l : list A) :
  Forall P l → filter P l = l.
Proof.
  induction 1 as [|x l HP _ IH]; [done|].
  by rewrite filter_cons_True, IH.
Qed.

Lemma index_set_range_index df :
  index (set_range_index df) = seq 0 (len df).
Proof.
  unfold index, set_range_index, len. simpl. apply list_eq. intros i.
  rewrite list_lookup_fmap, list_lookup_imap.
  destruct (rows df !! i) as [r|] eqn:Hi; simpl.
  - symmetry. apply lookup_seq. split; [done|]. by eapply lookup_lt_Some.
  - symmetry. apply lookup_seq_ge. by apply lookup_ge_None.
Qed.

Lemma stored_set_range_index n df :
  stored_filepaths n (set_range_index df) = stored_filepaths n df.
Proof.
  unfold stored_filepaths, set_range_index. simpl. apply list_eq. intros i.
  rewrite !list_lookup_fmap, list_lookup_imap.
  by destruct (rows df !! i).
Qed.

Lemma rows_for_row df filepaths j r :
  rows_for df filepaths → rows df !! j = Some r →
  r.1 = j ∧ ∃ fp, filepaths !! j = Some fp
                  ∧ cell r.2 (filepath_colname (pandas.nlevels df)) = VStr fp.
Proof.
  intros [Hi Hs _] Hj.
  apply (f_equal (λ l, l !! j)) in Hi, Hs. unfold index, stored_filepaths in *.
  rewrite !list_lookup_fmap, Hj in *. simpl in *.
  symmetry in Hi. apply lookup_seq in Hi as [-> _]. split; [done|].
  destruct (filepaths !! j); simplify_eq/=. eauto.
Qed.

Lemma drop_rows_of_spec fp df filepaths :
  rows_for df filepaths →
  ∃ df', drop_rows_of fp df = Returns df'
    ∧ rows_for df' (filter (λ x, x ≠ fp) filepaths)
    ∧ pandas.nlevels df' = pandas.nlevels df ∧ columns df' = columns df.
Proof.
  intros Hrows. unfold drop_rows_of, getitem_values.
  rewrite (rf_column _ _ Hrows).
  set (c := filepath_colname (pandas.nlevels df)).
  set (vals := (λ r : nat * gmap colkey value, cell r.2 <$> [c]) <$> rows df).
  set (W := where_equal (VStr fp) vals).
  assert (HW : ∀ r, r ∈ rows df → r.1 ∈ W ↔ cell r.2 c = VStr fp).
  { intros r [j Hj]%list_elem_of_lookup_1.
    destruct (rows_for_row _ _ _ _ Hrows Hj) as [-> _].
    unfold W. rewrite elem_of_where_equal. unfold vals.
    rewrite list_lookup_fmap, Hj. simpl. split.
    - intros (cells & [= <-] & Hin).
      apply list_elem_of_singleton in Hin. done.
    - intros ->. eexists. split; [done|]. by apply list_elem_of_singleton. }
  unfold drop. rewrite decide_True.
  2:{ apply Forall_forall. intros l (cells & Hl & _)%elem_of_where_equal.
      unfold vals in Hl. rewrite list_lookup_fmap in Hl.
      rewrite (rf_index _ _ Hrows). apply elem_of_seq.
      destruct (rows df !! l) eqn:Hr; [|done]. apply lookup_lt_Some in Hr.
      pose proof (f_equal length (rf_index _ _ Hrows)) as Hlen.
      unfold index in Hlen. rewrite length_fmap, length_seq in Hlen. lia. }
  eexists. split; [reflexivity|].
  assert (Hstored : stored_filepaths (pandas.nlevels df)
            {| columns := columns df; pandas.nlevels := pandas.nlevels df;
               rows := filter (λ r, r.1 ∉ W) (rows df) |}
          = VStr <$> filter (λ x, x ≠ fp) filepaths).
  { unfold stored_filepaths. simpl.
    rewrite (filter_ext_in _ (λ r, cell r.2 c ≠ VStr fp))
      by (intros r Hr; by rewrite HW).
    etrans; [exact (fmap_filter (λ r : nat * gmap colkey value, cell r.2 c)
                      (λ v, v ≠ VStr fp) (rows df))|].
    pose proof (rf_stored _ _ Hrows) as Hs. unfold stored_filepaths in Hs.
    fold c in Hs. rewrite Hs.
    rewrite <- (fmap_filter VStr (λ v, v ≠ VStr fp)).
    f_equal. apply list_filter_iff. intros x. naive_solver. }
  split_and!; [|done..]. split.
  - rewrite index_set_range_index. f_equal.
    apply (f_equal length) in Hstored. unfold stored_filepaths in Hstored.
    by rewrite !length_fmap in Hstored.
  - by rewrite stored_set_range_index.
  - apply (rf_column _ _ Hrows).
Qed.

Lemma filter_drop_one (D : list string) fp l1 l2 :
  filter (λ x, x ≠ fp) (filter (λ x, x ∉ D) (l1 ++ fp :: l2))
  = filter (λ x, x ∉ fp :: D) (l1 ++ l2).
Proof.
  rewrite list_filter_filter, !filter_app, filter_cons_False by naive_solver.
  f_equal; apply list_filter_iff; intros x; rewrite not_elem_of_cons;
    naive_solver.
Qed.

(** The loop of lines 689-698 from any point on: [to_add] holds the
    filepaths met that are not in the model, each once; the frame has lost
    the rows of the filepaths [D'] that were met when already in the model
    or in [to_add]. *)
Lemma check_duplicates_general known (fps : list string) :
  ∀ rest acc cur (D : list string),
  (∀ fp, is_Some (known !! fp) ↔ fp ∈ fps) →
  NoDup acc → (∀ x, x ∈ acc → x ∉ fps) →
  rows_for cur (filter (λ x, x ∉ D) (acc ++ rest)) →
  ∃ to_add (D' : list string) new',
    check_duplicates known rest acc (Some cur) = Returns (to_add, Some new')
    ∧ rows_for new' (filter (λ x, x ∉ D') to_add)
    ∧ pandas.nlevels new' = pandas.nlevels cur ∧ columns new' = columns cur
    ∧ (∀ x, x ∈ acc → x ∈ to_add)
    ∧ (∀ x, x ∈ D → x ∈ D')
    ∧ (∀ x, x ∈ acc → x ∈ rest → x ∈ D')
    ∧ (¬ NoDup (filter (λ x, x ∉ fps) rest) → ∃ x, x ∈ to_add ∧ x ∈ D')
    ∧ ((∀ x, x ∈ D → x ∈ fps) →
       NoDup (acc ++ filter (λ x, x ∉ fps) rest) →
       to_add = acc ++ filter (λ x, x ∉ fps) rest
       ∧ ∀ x, x ∈ D' → x ∈ fps).
Proof.
  induction rest as [|fp rest IH]; intros acc cur D Hknown Hnd Hacc Hrows.
  { exists acc, D, cur. rewrite app_nil_r in Hrows.
    split_and!; try done.
    - intros x _ Hx. by apply elem_of_nil in Hx.
    - intros Hdup. destruct Hdup. apply NoDup_nil_2.
    - intros HD _. by rewrite filter_nil, app_nil_r. }
  cbn [check_duplicates].
  destruct (decide (is_Some (known !! fp) ∨ fp ∈ acc)) as [Hdup|Hnew].
  - destruct (drop_rows_of_spec fp cur _ Hrows)
      as (cur' & -> & Hrows' & Hl & Hc).
    rewrite filter_drop_one in Hrows'.
    destruct (IH acc cur' (fp :: D) Hknown Hnd Hacc Hrows')
      as (to_add & D' & new' & -> & Hr' & Hl' & Hc' & Hpre & HD & Hseen
          & Hrep & Hok).
    exists to_add, D', new'.
    split_and!; try done; try congruence.
    + intros x Hx. apply HD. by right.
    + intros x Hx [->|Hin]%elem_of_cons; [|by apply Hseen].
      apply HD. by left.
    + intros Hdups. destruct (decide (fp ∈ fps)) as [Hfp|Hfp].
      * rewrite filter_cons_False in Hdups by naive_solver. by apply Hrep.
      * exists fp. destruct Hdup as [?%Hknown|Hin]; [done|].
        split; [by apply Hpre|]. apply HD. by left.
    + intros HDfps Hnd'. destruct (decide (fp ∈ fps)) as [Hfp|Hfp].
      * rewrite filter_cons_False in * by naive_solver.
        apply Hok; [|done]. intros x [->|Hx]%elem_of_cons; [done|].
        by apply HDfps.
      * destruct Hdup as [?%Hknown|Hin]; [done|].
        rewrite filter_cons_True in Hnd' by done.
        apply NoDup_app in Hnd' as (_ & Hdisj & _).
        destruct (Hdisj fp Hin). by left.
  - assert ((fp ∉ fps) ∧ (fp ∉ acc)) as [Hfp Hin].
    { split; intros ?; apply Hnew; [left; by apply Hknown|by right]. }
    destruct (IH (acc ++ [fp]) cur D Hknown)
      as (to_add & D' & new' & -> & Hr' & Hl' & Hc' & Hpre & HD & Hseen
          & Hrep & Hok).
    { apply NoDup_app. split_and!; [done| |apply NoDup_singleton].
      intros x Hx ->%list_elem_of_singleton. done. }
    { intros x [Hx| ->%list_elem_of_singleton]%elem_of_app; [by apply Hacc|done]. }
    { by rewrite <- app_assoc. }
    exists to_add, D', new'.
    split_and!; try done.
    + intros x Hx. apply Hpre, elem_of_app. by left.
    + intros x Hx [->|Hxr]%elem_of_cons; [done|].
      apply Hseen; [|done]. apply elem_of_app. by left.
    + rewrite filter_cons_True by done. intros Hdups.
      destruct (decide (fp ∈ rest)) as [Hrest|Hrest].
      * exists fp. split.
        -- apply Hpre, elem_of_app. right. by apply list_elem_of_singleton.
        -- apply Hseen; [|done]. apply elem_of_app. right.
           by apply list_elem_of_singleton.
      * apply Hrep. intros Hnd'. apply Hdups, NoDup_cons. split; [|done].
        intros [_ ?]%list_elem_of_filter. done.
    + rewrite filter_cons_True by done. intros HDfps Hnd'.
      rewrite (cons_middle fp), (assoc_L (++)) in Hnd'.
      destruct (Hok HDfps Hnd') as [-> HD'].
      by rewrite <- app_assoc.
Qed.

Lemma rows_for_len df filepaths : rows_for df filepaths → len df = length filepaths.
Proof.
  intros Hrows. pose proof (f_equal length (rf_index _ _ Hrows)) as Hl.
  unfold index in Hl. by rewrite length_fmap, length_seq in Hl.
Qed.

(** The whole loop: when no filepath that is not in the model comes
    twice, [to_add] holds those that are not in the model and the frame
    one row for each; otherwise the frame has fewer rows than [to_add] has
    filepaths. *)
Lemma check_duplicates_spec known (fps : list string) filepaths new :
  (∀ fp, is_Some (known !! fp) ↔ fp ∈ fps) →
  rows_for new filepaths →
  ∃ to_add new',
    check_duplicates known filepaths [] (Some new) = Returns (to_add, Some new')
    ∧ pandas.nlevels new' = pandas.nlevels new ∧ columns new' = columns new
    ∧ (NoDup (filter (λ fp, fp ∉ fps) filepaths) →
       to_add = filter (λ fp, fp ∉ fps) filepaths ∧ rows_for new' to_add)
    ∧ (¬ NoDup (filter (λ fp, fp ∉ fps) filepaths) →
       len new' < length to_add).
Proof.
  intros Hknown Hrows.
  destruct (check_duplicates_general known fps filepaths [] new [] Hknown)
    as (to_add & D' & new' & Hrun & Hr' & Hl' & Hc' & _ & _ & _ & Hrep & Hok).
  { apply NoDup_nil_2. }
  { intros x Hx. by apply elem_of_nil in Hx. }
  { rewrite filter_all; [done|]. apply Forall_forall. intros x _.
    apply not_elem_of_nil. }
  exists to_add, new'. split_and!; try done.
  - intros Hnd. destruct Hok as [-> HD']; [|done|].
    { intros x Hx. by apply elem_of_nil in Hx. }
    split; [done|]. simpl in Hr'. rewrite filter_all in Hr'; [done|].
    apply Forall_forall. intros x [Hx _]%list_elem_of_filter Hin.
    by apply Hx, HD'.
  - intros Hdup. destruct (Hrep Hdup) as (x & Hx & HxD).
    rewrite (rows_for_len _ _ Hr').
    apply (length_filter_lt _ _ x); [done|]. by intros Hn.
Qed.

Section Methods.
Context `{!Helpers}.

(** ** Appending the rows of new shots *)

Lemma update_column_levels_flag s :
  integer_indexing (update_column_levels s) = integer_indexing s.
Proof. unfold update_column_levels. by case_decide. Qed.

Lemma for_each_flag {A} (body : A → M state unit) l :
  (∀ x s, integer_indexing (body x s).2 = integer_indexing s) →
  ∀ s, integer_indexing (for_each l body s).2 = integer_indexing s.
Proof.
  intros Hbody. induction l as [|x l IH]; intros s; simpl; [done|].
  unfold bind. pose proof (Hbody x s) as Hx.
  destruct (body x s) as [[[]|e] s1]; simpl in *; [|done].
  by rewrite IH.
Qed.

Lemma append_rows_spec done : ∀ l s,
  2 ≤ Qt.columnCount (model s) →
  ∃ s', for_each l (λ fp, modify (set_model (Qt.appendRow (new_row fp done)))) s
        = (Returns (), s')
    ∧ same_table s s' ∧ same_columns s s'
    ∧ signals_blocked s' = signals_blocked s
    ∧ shot_items (model s') = shot_items (model s) ++ (appended done <$> l).
Proof.
  induction l as [|fp l IH]; intros s Hcount.
  - exists s. simpl. rewrite app_nil_r.
    split_and!; done || apply same_columns_refl.
  - set (s1 := set_model (Qt.appendRow (new_row fp done)) s).
    destruct (IH s1) as (s' & Hrun & [Hd Hl Hr Hp] & [Hn Hi Hv Hc] & Hsig & Hit).
    { cbn. lia. }
    exists s'. split_and!.
    + cbn [for_each]. unfold bind, modify. exact Hrun.
    + split; [by rewrite Hd|by rewrite Hl|by rewrite Hr|by rewrite Hp].
    + split; [by rewrite Hn|by rewrite Hi|by rewrite Hv|].
      rewrite Hc. cbn. lia.
    + by rewrite Hsig.
    + rewrite Hit. unfold shot_items. cbn. by rewrite fmap_app, <- app_assoc.
Qed.

(** ** [add_files] *)

Lemma table_of_known s fps fp :
  table_of s fps → is_Some (row_number_by_filepath s !! fp) ↔ fp ∈ fps.
Proof.
  intros Ht. split.
  - intros [i Hi]. apply (t_rows _ _ Ht) in Hi.
    by eapply list_elem_of_lookup_2.
  - intros [i Hi]%list_elem_of_lookup_1. exists i. by apply (t_rows _ _ Ht).
Qed.


Lemma add_files_spec filepaths new done s fps :
  integer_indexing s = false →
  columns_wf s → table_of s fps →
  NoDup (filter (λ fp, fp ∉ fps) filepaths) → rows_for new filepaths →
  (∀ to_add new',
     check_duplicates (row_number_by_filepath s) filepaths [] (Some new)
     = Returns (to_add, Some new') → to_add ≠ [] → concat_ok s new') →
  (∀ fp, fp ∈ filepaths → shown_in_full fp) →
  ∃ s', add_files filepaths (Some new) done s = (Returns (), s')
    ∧ columns_wf s'
    ∧ table_of s' (fps ++ filter (λ fp, fp ∉ fps) filepaths)
    ∧ shot_items (model s')
      = shot_items (model s)
          ++ (appended done <$> filter (λ fp, fp ∉ fps) filepaths).
Proof.
  intros Hflag Hwf Ht Hnd Hrows Hconcat Hfull.
  set (to_add := filter (λ fp, fp ∉ fps) filepaths).
  destruct (check_duplicates_spec _ fps filepaths new
              (λ fp, table_of_known s fps fp Ht) Hrows)
    as (to_add' & new' & Hcheck & Hlev' & Hcols' & Hok & _).
  destruct (Hok Hnd) as [-> Hrows']. fold to_add in Hcheck, Hrows'.
  pose proof (rows_for_len _ _ Hrows') as Hlen'.
  pose proof (table_of_length _ _ Ht) as [Hlen Hcount].
  pose proof (table_of_NoDup _ _ Ht) as Hndf.
  assert (NoDup (fps ++ to_add)) as Hndt.
  { apply NoDup_app. split_and!; [done| |done].
    intros x Hx [Hx' _]%list_elem_of_filter. done. }
  assert (2 ≤ Qt.columnCount (model s)) as Hcc.
  { destruct Hwf as [Hinv _].
    apply (ci_keys _ _ Hinv). rewrite (cols_inv_filepath _ _ Hinv). done. }
  (* the dataframe *)
  set (stageA := (if decide (to_add = []) then ret ()
         else modify (λ self, update_column_levels
                (set_dataframe
                   (concat_with_padding [dataframe self; new']) self)))
        : M state unit).
  assert (∃ sA, stageA s = (Returns (), sA) ∧ columns_wf sA
            ∧ model sA = model s
            ∧ row_number_by_filepath sA = row_number_by_filepath s
            ∧ index (dataframe sA) = seq 0 (length (fps ++ to_add))
            ∧ filepath_colname (nlevels sA) ∈ columns (dataframe sA)
            ∧ stored_filepaths (nlevels sA) (dataframe sA)
              = VStr <$> (fps ++ to_add))
    as (sA & HrunA & HwfA & HmA & HrA & HiA & HcA & HsA).
  { unfold stageA. case_decide as Hempty.
    - exists s. rewrite Hempty, app_nil_r. destruct Ht. done.
    - destruct (Hconcat to_add new' Hcheck Hempty) as [Hci Hcl Hcc' Hcs].
      set (s2 := set_dataframe (concat_with_padding [dataframe s; new']) s).
      destruct (update_column_levels_spec s2)
        as (Hwf2 & Hm & Hd & Hrn & Hp & Hl).
      { by apply (columns_wf_same s s2). }
      exists (update_column_levels s2).
      assert (nlevels (update_column_levels s2)
              = pandas.nlevels (concat_with_padding [dataframe s; new']))
        as Hl'.
      { rewrite Hl. cbn. lia. }
      split_and!; try done; rewrite ?Hl', ?Hd; cbn.
      + rewrite Hci, Hlen, Hlen'. by rewrite length_app.
      + done.
      + rewrite Hcs, (t_stored _ _ Ht), (rf_stored _ _ Hrows').
        by rewrite fmap_app. }
  assert (integer_indexing sA = false) as HflagA.
  { revert HrunA. unfold stageA. case_decide; intros [= <-]; [done|].
    by rewrite update_column_levels_flag. }
  (* the rows of the Qt model *)
  destruct (append_rows_spec done to_add sA)
    as (sB & HrunB & HstB & HscB & HsigB & HitB).
  { by rewrite HmA. }
  assert (integer_indexing sB = false) as HflagB.
  { replace sB with
      (for_each to_add
         (λ fp, modify (set_model (Qt.appendRow (new_row fp done)))) sA).2
      by (by rewrite HrunB).
    by rewrite for_each_flag. }
  assert (shown (model sB) = Some <$> (fps ++ to_add)) as HshownB.
  { unfold shown. rewrite HitB, HmA, !fmap_app. f_equal.
    - apply (t_shown _ _ Ht).
    - rewrite <- !list_fmap_compose. done. }
  assert (Qt.rowCount (model sB) - length to_add = length fps) as HfromB.
  { rewrite <- length_shot_items, HitB, HmA, length_app, length_fmap.
    rewrite length_shot_items, Hcount. lia. }
  destruct (renumber_rows_spec (length fps) sB (fps ++ to_add))
    as (sC & HrunC & HrC & HsrC).
  { done. }
  { done. }
  { done. }
  { rewrite length_app. lia. }
  { intros _ fp i. rewrite take_app_length.
    rewrite (st_rows _ _ HstB), HrA. apply (t_rows _ _ Ht). }
  assert (table_of sC (fps ++ to_add)) as HtC.
  { destruct HsrC as [Hd Hl Hm _]. destruct HstB as [Hd' Hl' _ _].
    split; rewrite ?Hd, ?Hl, ?Hm, ?Hd', ?Hl'; try done.
    rewrite HitB, HmA. apply Forall_app. split; [apply (t_status _ _ Ht)|].
    apply Forall_fmap, Forall_forall. intros fp _. simpl. eauto. }
  assert (columns_wf sC) as HwfC.
  { apply (columns_wf_same sB); [apply (sr_columns _ _ HsrC)| |].
    - apply (sr_nlevels _ _ HsrC).
    - apply (columns_wf_same sA); [done| |done]. apply (st_nlevels _ _ HstB). }
  (* the cells of the new rows *)
  destruct (for_each_total
      (λ t, columns_wf t ∧ table_of t (fps ++ to_add)
            ∧ shot_items (model t) = shot_items (model sC))
      (λ filepath, update_row filepath true None None) to_add)
    with (s := sC) as (sD & HrunD & HwfD & HtD & HitD).
  { intros fp t Hin (Hwft & Htt & Hitt).
    destruct (list_elem_of_lookup_1 _ _ Hin) as [k Hk].
    destruct (update_row_spec fp true None None t (fps ++ to_add)
                (length fps + k))
      as (t' & Hrun & Hwf' & _ & Ht' & Hit' & _); try done.
    - rewrite lookup_app_r by lia.
      by replace (length fps + k - length fps) with k by lia.
    - intros _. apply Hfull.
      by apply list_elem_of_filter in Hin as [_ ?].
    - exists t'. split_and!; try done. by rewrite Hit'. }
  { done. }
  exists sD. split_and!; try done.
  2:{ by rewrite HitD, (sr_model _ _ HsrC), HitB, HmA. }
  unfold add_files. unfold bind at 1. rewrite Hcheck. cbn [fst snd].
  rewrite decide_False by (intros Hne; by apply Hne).
  fold to_add. fold stageA.
  unfold bind at 1. rewrite HrunA.
  unfold bind at 1. rewrite HrunB.
  unfold bind at 1. cbn [gets]. rewrite HfromB.
  unfold bind at 1. rewrite HrunC. exact HrunD.
Qed.

End Methods.

(** ** Removing the selected rows *)

Lemma remaining_from_ext {A} (R R' : list nat) : ∀ (l : list A) i,
  (∀ j, i ≤ j → j ∈ R ↔ j ∈ R') →
  remaining_from i R l = remaining_from i R' l.
Proof.
  induction l as [|x l IH]; intros i Hext; [done|]. cbn [remaining_from].
  rewrite (IH (S i)) by (intros; apply Hext; lia).
  pose proof (Hext i (le_n _)).
  destruct (decide (i ∈ R)), (decide (i ∈ R')); done || (exfalso; tauto).
Qed.

Lemma remaining_from_nil {A} (l : list A) i : remaining_from i [] l = l.
Proof.
  revert i. induction l as [|x l IH]; intros i; [done|]. cbn [remaining_from].
  rewrite decide_False by apply not_elem_of_nil. by rewrite IH.
Qed.

Lemma length_filter_range (R : list nat) a b :
  NoDup R → length (filter (λ r, a ≤ r < b) R) ≤ b - a.
Proof.
  intros Hnd. trans (length (seq a (b - a))); [|by rewrite length_seq].
  apply submseteq_length, NoDup_submseteq; [by apply NoDup_filter|].
  intros x [Hx _]%list_elem_of_filter. apply elem_of_seq. lia.
Qed.

Lemma length_filter_range_S (R : list nat) i b :
  NoDup R → i < b →
  length (filter (λ r, i ≤ r < b) R)
  = (if decide (i ∈ R) then 1 else 0)
      + length (filter (λ r, S i ≤ r < b) R).
Proof.
  intros Hnd Hlt. induction Hnd as [|x R Hx Hnd IH]; [done|].
  rewrite !filter_cons.
  destruct (decide (i = x)) as [->|Hne].
  - rewrite decide_True by lia. rewrite (decide_False (P := S x ≤ x < b)) by lia.
    rewrite (decide_True (P := x ∈ x :: R)) by left.
    rewrite (decide_False (P := x ∈ R)) in IH by done.
    simpl. rewrite IH. done.
  - assert ((i ∈ x :: R) ↔ i ∈ R) as Hiff.
    { rewrite elem_of_cons. naive_solver. }
    destruct (decide (i ≤ x < b)), (decide (S i ≤ x < b)); try lia;
      destruct (decide (i ∈ x :: R)), (decide (i ∈ R));
      try (exfalso; tauto); simpl; rewrite IH; lia.
Qed.

Lemma delete_remaining_from {A} (R : list nat) row : ∀ (l : list A) i,
  NoDup R → row ∉ R → i ≤ row →
  delete (row - i - length (filter (λ r, i ≤ r < row) R)) (remaining_from i R l)
  = remaining_from i (row :: R) l.
Proof.
  intros l i Hnd Hrow. revert i.
  induction l as [|x l IH]; intros i Hle; [done|]. cbn [remaining_from].
  destruct (decide (i = row)) as [->|Hne].
  - rewrite decide_False by done.
    rewrite (decide_True (P := row ∈ row :: R)) by left.
    replace (row - row - _) with 0 by lia. simpl.
    apply remaining_from_ext. intros j Hj. rewrite elem_of_cons.
    split; [by right|]. intros [->|?]; [lia|done].
  - assert ((i ∈ row :: R) ↔ i ∈ R) as Hiff.
    { rewrite elem_of_cons. naive_solver. }
    rewrite length_filter_range_S by (done || lia).
    pose proof (length_filter_range R (S i) row Hnd).
    destruct (decide (i ∈ R)), (decide (i ∈ row :: R));
      try (exfalso; tauto).
    + rewrite <- (IH (S i)) by lia. f_equal. lia.
    + replace (row - i - (0 + length (filter (λ r, S i ≤ r < row) R)))
        with (S (row - S i - length (filter (λ r, S i ≤ r < row) R))) by lia.
      simpl. by rewrite IH by lia.
Qed.

Lemma shot_items_removeRow r m :
  shot_items (Qt.removeRow r m) = delete r (shot_items m).
Proof.
  unfold shot_items, Qt.removeRow. simpl. by rewrite list_fmap_delete.
Qed.

Lemma remove_selected_rows_spec : ∀ selected removed m items,
  NoDup (removed ++ selected) →
  shot_items m = remaining_from 0 removed items →
  shot_items (remove_selected_rows selected removed m)
  = remaining_from 0 (removed ++ selected) items
  ∧ Qt.columnCount (remove_selected_rows selected removed m)
    = Qt.columnCount m.
Proof.
  induction selected as [|row selected IH]; intros removed m items Hnd Hm.
  - by rewrite app_nil_r.
  - cbn [remove_selected_rows].
    assert (row ∉ removed) as Hrow.
    { apply NoDup_app in Hnd as (_ & Hd & _). intros Hin.
      apply (Hd row Hin). by left. }
    rewrite decide_False by done.
    assert (NoDup removed) as Hndr by (by apply NoDup_app in Hnd as (? & _)).
    destruct (IH (row :: removed)
                (Qt.removeRow (row - length (filter (λ r, r < row) removed)) m)
                items) as [Hitems Hcount].
    + apply NoDup_cons. apply NoDup_app in Hnd as (? & Hd & [? ?]%NoDup_cons).
      split.
      * rewrite elem_of_app. naive_solver.
      * apply NoDup_app. split_and!; [done| |done].
        intros x Hx Hx'. apply (Hd x Hx). by right.
    + rewrite shot_items_removeRow, Hm.
      rewrite <- (delete_remaining_from removed row items 0) by (done || lia).
      f_equal. rewrite Nat.sub_0_r. f_equal. f_equal.
      apply list_filter_iff. intros; lia.
    + split; [|by rewrite Hcount].
      rewrite Hitems. apply remaining_from_ext. intros j _.
      rewrite ?elem_of_cons, ?elem_of_app, ?elem_of_cons. tauto.
Qed.

Lemma remaining_from_fmap {A B} (f : A → B) R : ∀ (l : list A) i,
  f <$> remaining_from i R l = remaining_from i R (f <$> l).
Proof.
  induction l as [|x l IH]; intros i; [done|].
  rewrite fmap_cons. cbn [remaining_from].
  case_decide; by rewrite ?fmap_cons, IH.
Qed.

Lemma remaining_from_lookup {A} R : ∀ (l : list A) i k x,
  remaining_from i R l !! k = Some x → ∃ j, l !! j = Some x.
Proof.
  induction l as [|y l IH]; intros i k x; [done|]. cbn [remaining_from].
  case_decide.
  - intros (j & Hj)%IH. by exists (S j).
  - destruct k; simpl.
    + intros [= ->]. by exists 0.
    + intros (j & Hj)%IH. by exists (S j).
Qed.

Lemma remaining_from_sublist {A} R : ∀ (l : list A) i,
  remaining_from i R l `sublist_of` l.
Proof.
  induction l as [|y l IH]; intros i; [done|]. cbn [remaining_from].
  case_decide; [by apply sublist_cons|by apply sublist_skip].
Qed.

Lemma drop_rows_remaining {A} (f : gmap colkey value → A) R :
  ∀ (rs : list (nat * gmap colkey value)) i,
  rs.*1 = seq i (length rs) →
  (λ r, f r.2) <$> filter (λ r, r.1 ∉ R) rs
  = remaining_from i R ((λ r, f r.2) <$> rs).
Proof.
  induction rs as [|[j r] rs IH]; intros i Hidx; [done|].
  simpl in Hidx. injection Hidx as -> Hidx.
  rewrite filter_cons, fmap_cons. cbn [remaining_from fst snd].
  destruct (decide (i ∉ R)) as [Hi|Hi].
  - rewrite decide_False by done. rewrite fmap_cons. f_equal. by apply IH.
  - rewrite decide_True by (by apply dec_stable). by apply IH.
Qed.

Section Methods.
Context `{!Helpers}.

(** ** [remove_selection] *)

Lemma remove_selection_spec selected confirm answer s fps :
  integer_indexing s = false →
  columns_wf s → table_of s fps →
  NoDup selected → Forall (λ r, r < length fps) selected →
  ∃ s', remove_selection selected confirm answer s = (Returns (), s')
    ∧ columns_wf s'
    ∧ table_of s' (if confirm && negb answer then fps
                   else remaining_from 0 selected fps)
    ∧ shot_items (model s')
      = (if confirm && negb answer then shot_items (model s)
         else remaining_from 0 selected (shot_items (model s))).
Proof.
  intros Hflag Hwf Ht Hnd Hsel. unfold remove_selection.
  case_decide as Hempty.
  { exists s. rewrite Hempty, !remaining_from_nil.
    split_and!; try done; by destruct (confirm && negb answer). }
  destruct (confirm && negb answer) eqn:Hconfirm.
  { exists s. done. }
  pose proof (table_of_length _ _ Ht) as [Hlen Hcount].
  set (texts := remaining_from 0 selected fps).
  set (df1 := {| columns := columns (dataframe s);
                 pandas.nlevels := pandas.nlevels (dataframe s);
                 rows := filter (λ r, r.1 ∉ selected) (rows (dataframe s)) |}).
  assert (drop selected (dataframe s) = Returns df1) as Hdrop.
  { unfold drop. rewrite decide_True; [done|].
    rewrite (t_index _ _ Ht). eapply Forall_impl; [exact Hsel|].
    intros r Hr. simpl in Hr. apply elem_of_seq. lia. }
  assert (stored_filepaths (nlevels s) df1 = VStr <$> texts) as Hstored.
  { unfold stored_filepaths, df1. cbn [rows].
    rewrite (drop_rows_remaining
               (λ r, cell r (filepath_colname (nlevels s))) selected _ 0).
    - pose proof (t_stored _ _ Ht) as Hs. unfold stored_filepaths in Hs.
      rewrite Hs. unfold texts. by rewrite remaining_from_fmap.
    - pose proof (t_index _ _ Ht) as Hi. unfold index in Hi.
      unfold len in Hlen. by rewrite Hlen. }
  set (s1 := set_dataframe (set_range_index df1) s).
  set (s2 := set_model (remove_selected_rows selected []) s1).
  destruct (remove_selected_rows_spec selected [] (model s)
              (shot_items (model s))) as [Hitems Hcols].
  { done. }
  { by rewrite remaining_from_nil. }
  simpl in Hitems.
  assert (shown (model s2) = Some <$> texts) as Hshown.
  { unfold shown. cbn. rewrite Hitems, remaining_from_fmap.
    pose proof (t_shown _ _ Ht) as Hs. unfold shown in Hs. rewrite Hs.
    unfold texts. by rewrite remaining_from_fmap. }
  destruct (renumber_rows_spec 0 s2 texts) as (s' & Hrun & Hmap & Hsame).
  { done. }
  { done. }
  { apply (sublist_NoDup _ fps); [by apply (table_of_NoDup s)|].
    apply remaining_from_sublist. }
  { lia. }
  { done. }
  exists s'. destruct Hsame as [Hd Hl Hm Hsc].
  split_and!.
  - unfold bind at 1. rewrite Hdrop. unfold bind at 1. cbn [modify].
    fold s1. unfold bind at 1. cbn [modify]. exact Hrun.
  - apply (columns_wf_same s2); [done|done|].
    apply (columns_wf_same s); [|done|done].
    by split.
  - assert (dataframe s2 = set_range_index df1) as Hd2 by done.
    assert (nlevels s2 = nlevels s) as Hl2 by done.
    assert (shot_items (model s2)
            = remaining_from 0 selected (shot_items (model s))) as Hm2 by done.
    split; rewrite ?Hd, ?Hl, ?Hm, ?Hd2, ?Hl2, ?Hm2; try done.
    + rewrite index_set_range_index. f_equal.
      apply (f_equal length) in Hstored. unfold stored_filepaths in Hstored.
      by rewrite !length_fmap in Hstored.
    + apply (t_column _ _ Ht).
    + by rewrite stored_set_range_index.
    + apply Forall_forall. intros x Hx.
      pose proof (t_status _ _ Ht) as Hst.
      rewrite Forall_forall in Hst. apply Hst.
      eapply elem_of_sublist; [exact Hx|apply remaining_from_sublist].
  - by rewrite Hm.
Qed.



End Methods.



(** C9 at the failing input: the table holds [/lab/shots/0.h5], and
    [add_files] is given [/lab/shots/1.h5] twice with a frame of one row
    for each.  The second one is found in [to_add]; line 694 looks up the
    rows of the frame that store the filepath, which are both rows, and
    line 695 drops them; the frame is then empty while [to_add] holds one
    filepath, and the [assert] of line 700 fails.  Nothing is added. *)
Theorem add_files_repeated_filepath_raises :
  @add_files example_helpers ["/lab/shots/1.h5"; "/lab/shots/1.h5"]
    (Some (example_concat [example_shot "/lab/shots/1.h5";
                           example_shot "/lab/shots/1.h5"]))
    false one_shot
  = (Raises AssertionError, one_shot).
Proof. vm_compute. reflexivity. Qed.

(** ** The status items *)

Lemma item_at_update_item r c f r' c' m :
  Qt.item_at r' c' (Qt.update_item r c f m)
  = if decide (r' = r ∧ c' = c) then f <$> Qt.item_at r' c' m
    else Qt.item_at r' c' m.
Proof.
  unfold Qt.item_at, Qt.update_item. cbn [Qt.qrows].
  destruct (decide (r' = r)) as [->|Hr].
  - rewrite list_lookup_alter_eq.
    destruct (Qt.qrows m !! r) as [row|]; simpl.
    2:{ by case_decide. }
    destruct (decide (c' = c)) as [->|Hc].
    + rewrite decide_True by (by split). rewrite list_lookup_alter_eq.
      by destruct (row !! c) as [[it|]|].
    + rewrite decide_False by naive_solver.
      by rewrite list_lookup_alter_ne.
  - rewrite list_lookup_alter_ne by done.
    rewrite decide_False by naive_solver. done.
Qed.

Lemma rowCount_update_item r c f m :
  Qt.rowCount (Qt.update_item r c f m) = Qt.rowCount m.
Proof. unfold Qt.rowCount, Qt.update_item. cbn. apply length_alter. Qed.

Lemma shot_items_update_status r f m :
  shot_items (Qt.update_item r COL_STATUS f m)
  = alter (restatus f) r (shot_items m).
Proof.
  apply list_eq. intros i. rewrite shot_items_lookup.
  rewrite rowCount_update_item, !item_at_update_item.
  rewrite (decide_False (P := i = r ∧ COL_FILEPATH = COL_STATUS))
    by (intros [_ Hc]; discriminate Hc).
  destruct (decide (i = r)) as [->|Hne].
  - rewrite list_lookup_alter_eq, shot_items_lookup.
    rewrite (decide_True (P := r = r ∧ COL_STATUS = COL_STATUS)) by done.
    by case_decide.
  - rewrite list_lookup_alter_ne by done. rewrite shot_items_lookup.
    rewrite (decide_False (P := i = r ∧ COL_STATUS = COL_STATUS))
      by naive_solver.
    done.
Qed.

Lemma shown_update_status r f m :
  shown (Qt.update_item r COL_STATUS f m) = shown m.
Proof.
  unfold shown. rewrite shot_items_update_status.
  apply list_eq. intros i. rewrite !list_lookup_fmap.
  destruct (decide (i = r)) as [->|Hne].
  - rewrite list_lookup_alter_eq. by destruct (shot_items m !! r).
  - by rewrite list_lookup_alter_ne.
Qed.

(** A method called on a status item leaves the table as it is. *)
Lemma update_status_table r f s fps :
  table_of s fps →
  table_of (set_model (Qt.update_item r COL_STATUS f) s) fps.
Proof.
  intros Ht. split.
  - apply (t_index _ _ Ht).
  - apply (t_column _ _ Ht).
  - apply (t_stored _ _ Ht).
  - change (shown (Qt.update_item r COL_STATUS f (model s)) = Some <$> fps).
    rewrite shown_update_status. apply (t_shown _ _ Ht).
  - change (Forall (λ x, is_Some x.1)
              (shot_items (Qt.update_item r COL_STATUS f (model s)))).
    rewrite shot_items_update_status.
    apply Forall_alter; [apply (t_status _ _ Ht)|].
    intros x _ [st Hst]. unfold restatus. simpl. rewrite Hst. by eexists.
  - apply (t_rows _ _ Ht).
Qed.

Lemma update_status_wf r f s :
  columns_wf s →
  columns_wf (set_model (Qt.update_item r COL_STATUS f) s).
Proof. intros Hwf. by apply (columns_wf_same s). Qed.

Lemma row_status_update r f s r' :
  row_status (set_model (Qt.update_item r COL_STATUS f) s) r'
  = if decide (r' = r)
    then (f <$> Qt.item_at r' COL_STATUS (model s)) ≫= Qt.status_percent
    else row_status s r'.
Proof.
  unfold row_status. cbn. rewrite item_at_update_item.
  destruct (decide (r' = r)) as [->|Hne].
  - by rewrite decide_True by (by split).
  - by rewrite decide_False by naive_solver.
Qed.

Lemma row_deleted_update r f s r' :
  row_deleted_off_disk
    (set_model (Qt.update_item r COL_STATUS f) s) r'
  = if decide (r' = r)
    then default false (Qt.deleted_off_disk
                          <$> (f <$> Qt.item_at r' COL_STATUS (model s)))
    else row_deleted_off_disk s r'.
Proof.
  unfold row_deleted_off_disk. cbn. rewrite item_at_update_item.
  destruct (decide (r' = r)) as [->|Hne].
  - by rewrite decide_True by (by split).
  - by rewrite decide_False by naive_solver.
Qed.

Lemma table_of_status_item s fps r :
  table_of s fps → r < length fps →
  ∃ st, Qt.item_at r COL_STATUS (model s) = Some st.
Proof.
  intros Ht Hr. destruct (lookup_lt_is_Some_2 fps r Hr) as [fp Hfp].
  destruct (table_of_shot _ _ _ _ Ht Hfp) as (st & it & Hx & _).
  rewrite shot_items_lookup in Hx. case_decide; [|done].
  injection Hx as Hst _. eauto.
Qed.

Lemma table_of_filepath_item s fps r fp :
  table_of s fps → fps !! r = Some fp →
  ∃ it, Qt.item_at r COL_FILEPATH (model s) = Some it ∧ Qt.text it = fp.
Proof.
  intros Ht Hr. apply (shown_item _ fps); [apply (t_shown _ _ Ht)|done].
Qed.

(** ** [get_first_incomplete] *)

Lemma first_incomplete_spec s fps :
  table_of s fps →
  (∀ i fp, fps !! i = Some fp → row_status s i ≠ Some 100%Z →
           (∀ j, j < i → row_status s j = Some 100%Z) →
           get_first_incomplete s = Returns (Some fp))
  ∧ ((∀ i, i < length fps → row_status s i = Some 100%Z) →
     get_first_incomplete s = Returns None).
Proof.
  intros Ht.
  assert (Hitems : ∀ i fp, fps !! i = Some fp →
            ∃ row st it, Qt.qrows (model s) !! i = Some row
              ∧ mjoin (row !! COL_STATUS) = Some st
              ∧ mjoin (row !! COL_FILEPATH) = Some it ∧ Qt.text it = fp
              ∧ row_status s i = Qt.status_percent st).
  { intros i fp Hi.
    destruct (table_of_shot _ _ _ _ Ht Hi) as (st & it & Hx & Htext).
    unfold shot_items in Hx. rewrite list_lookup_fmap in Hx.
    unfold row_status, Qt.item_at.
    destruct (Qt.qrows (model s) !! i) as [row|]; [|done].
    injection Hx as Hst Hit. exists row, st, it. simpl. rewrite Hst. done. }
  pose proof (table_of_length _ _ Ht) as [_ Hcount]. unfold Qt.rowCount in Hcount.
  unfold get_first_incomplete, row_status, Qt.item_at in *.
  clear Ht. revert fps Hitems Hcount.
  induction (Qt.qrows (model s)) as [|row qrows IH]; intros fps Hitems Hcount.
  - split; [|done]. intros i fp Hi. apply lookup_lt_Some in Hi.
    simpl in Hcount. lia.
  - destruct fps as [|fp0 fps]; [done|].
    destruct (Hitems 0 fp0 eq_refl)
      as (? & st & it & [= <-] & Hst & Hit & Htext & Hrow).
    cbn [first_incomplete]. rewrite Hst, Hit.
    destruct (IH fps) as [IH1 IH2].
    { intros i fp Hi. apply (Hitems (S i) fp Hi). }
    { simpl in Hcount. lia. }
    split.
    + intros [|i] fp Hi Hne Hbefore.
      * injection Hi as <-. simpl in Hne. rewrite Hst in Hne. simpl in Hne.
        rewrite decide_True by done. by rewrite Htext.
      * pose proof (Hbefore 0 ltac:(lia)) as H0. simpl in H0.
        rewrite Hst in H0. simpl in H0.
        rewrite decide_False by (intros Hn; by apply Hn).
        apply (IH1 i fp Hi Hne). intros j Hj. apply (Hbefore (S j)). lia.
    + intros Hall. pose proof (Hall 0 ltac:(simpl; lia)) as H0. simpl in H0.
      rewrite Hst in H0. simpl in H0.
      rewrite decide_False by (intros Hn; by apply Hn).
      apply IH2. intros i Hi. apply (Hall (S i)). simpl. lia.
Qed.

(** Conversely, the shot returned is the first one that is not at 100. *)
Lemma first_incomplete_Some s fps fp :
  table_of s fps → get_first_incomplete s = Returns (Some fp) →
  ∃ i, fps !! i = Some fp ∧ row_status s i ≠ Some 100%Z
       ∧ ∀ j, j < i → row_status s j = Some 100%Z.
Proof.
  intros Ht Hrun. destruct (first_incomplete_spec s fps Ht) as [Hsome Hnone].
  assert (Hdec : ∀ n, n ≤ length fps →
            (∀ j, j < n → row_status s j = Some 100%Z)
            ∨ ∃ i, i < n ∧ row_status s i ≠ Some 100%Z
                   ∧ ∀ j, j < i → row_status s j = Some 100%Z).
  { induction n as [|n IH]; intros Hn; [left; intros; lia|].
    destruct IH as [Hall|(i & Hi & Hne & Hbefore)]; [lia| |].
    - destruct (decide (row_status s n = Some 100%Z)) as [Heq|Hne].
      + left. intros j Hj. destruct (decide (j = n)) as [->|]; [done|].
        apply Hall. lia.
      + right. exists n. split_and!; [lia|done|done].
    - right. exists i. split_and!; [lia|done|done]. }
  destruct (Hdec (length fps) (le_n _)) as [Hall|(i & Hi & Hne & Hbefore)].
  - rewrite (Hnone Hall) in Hrun. discriminate Hrun.
  - destruct (lookup_lt_is_Some_2 fps i Hi) as [fp' Hfp'].
    rewrite (Hsome i fp' Hfp' Hne Hbefore) in Hrun.
    injection Hrun as ->. eauto.
Qed.

(** ** [set_status_percent] and [mark_as_deleted_off_disk] *)

Lemma set_status_percent_spec filepath p s fps r :
  table_of s fps → fps !! r = Some filepath →
  set_status_percent filepath p s
  = (Returns (),
     set_model (Qt.update_item r COL_STATUS (Qt.setStatusPercent p)) s).
Proof.
  intros Ht Hr. unfold set_status_percent, bind at 1. cbn [gets].
  rewrite (proj2 (t_rows _ _ Ht filepath r) Hr).
  destruct (table_of_status_item s fps r Ht) as [st Hst];
    [by eapply lookup_lt_Some|].
  unfold bind. rewrite Hst. done.
Qed.

Lemma set_status_percent_unknown filepath p s :
  row_number_by_filepath s !! filepath = None →
  set_status_percent filepath p s = (Returns (), s).
Proof.
  intros Hnone. unfold set_status_percent, bind. cbn [gets].
  by rewrite Hnone.
Qed.

Lemma head_filepath_colname n : head (filepath_colname n) = Some "filepath".
Proof. done. Qed.

Lemma table_of_values_contain s fps r filepath :
  table_of s fps → fps !! r = Some filepath →
  ∃ vals, getitem_values "filepath" (dataframe s) = Returns vals
          ∧ values_contain (VStr filepath) vals = true.
Proof.
  intros Ht Hr. unfold getitem_values.
  assert (filepath_colname (nlevels s)
            ∈ top_level_columns "filepath" (dataframe s)) as Hin.
  { apply list_elem_of_filter. split; [done|apply (t_column _ _ Ht)]. }
  destruct (top_level_columns "filepath" (dataframe s)) as [|c cs] eqn:Hcs.
  { by apply elem_of_nil in Hin. }
  eexists. split; [done|].
  apply bool_decide_eq_true, Exists_exists.
  destruct (table_of_row _ _ _ _ Ht Hr) as (row & Hrow & Hcell).
  exists (cell row <$> c :: cs). split.
  - apply list_elem_of_fmap. exists (r, row). split; [done|].
    by eapply list_elem_of_lookup_2.
  - rewrite <- Hcell. by apply list_elem_of_fmap_2.
Qed.

Lemma mark_as_deleted_off_disk_spec filepath s fps r :
  table_of s fps → fps !! r = Some filepath →
  mark_as_deleted_off_disk filepath s
  = (Returns (),
     if row_deleted_off_disk s r then s
     else set_model (Qt.update_item r COL_STATUS
            (λ it, Qt.setStatusPercent 100 (Qt.setDeletedOffDisk true it))) s).
Proof.
  intros Ht Hr. unfold mark_as_deleted_off_disk, bind at 1.
  destruct (table_of_values_contain _ _ _ _ Ht Hr) as (vals & -> & ->).
  cbn [negb]. unfold bind at 1.
  rewrite (proj2 (t_rows _ _ Ht filepath r) Hr). cbn [found ret].
  destruct (table_of_status_item s fps r Ht) as [st Hst];
    [by eapply lookup_lt_Some|].
  unfold bind, row_deleted_off_disk. rewrite Hst. cbn [found ret fmap
    option_fmap option_map default].
  by destruct (Qt.deleted_off_disk st).
Qed.

(** ** [mark_selection_not_done] *)

Section NotDone.
Variable exists_ : string → bool.

Lemma mark_row_not_done_spec row s fps fp st :
  table_of s fps → fps !! row = Some fp →
  Qt.item_at row COL_STATUS (model s) = Some st →
  ∃ s', mark_row_not_done exists_ row s = (Returns (), s')
    ∧ table_of s' fps ∧ (columns_wf s → columns_wf s')
    ∧ (∀ r, r ≠ row → Qt.item_at r COL_STATUS (model s')
                      = Qt.item_at r COL_STATUS (model s))
    ∧ Qt.item_at row COL_STATUS (model s')
      = Some (if Qt.deleted_off_disk st && negb (exists_ fp) then st
              else {| Qt.text := Qt.text st; Qt.status_percent := Some 0%Z;
                      Qt.deleted_off_disk := false |}).
Proof.
  intros Ht Hfp Hst.
  destruct (table_of_filepath_item _ _ _ _ Ht Hfp) as (it & Hit & Htext).
  assert (Hupd : ∀ f,
    let s' := set_model (Qt.update_item row COL_STATUS f) s in
    table_of s' fps ∧ (columns_wf s → columns_wf s')
    ∧ (∀ r, r ≠ row → Qt.item_at r COL_STATUS (model s')
                      = Qt.item_at r COL_STATUS (model s))
    ∧ Qt.item_at row COL_STATUS (model s') = Some (f st)).
  { intros f s'. split_and!.
    - by apply update_status_table.
    - apply update_status_wf.
    - intros r Hne. unfold s'. cbn. rewrite item_at_update_item.
      by rewrite decide_False by naive_solver.
    - unfold s'. cbn. rewrite item_at_update_item.
      rewrite decide_True by done. by rewrite Hst. }
  unfold mark_row_not_done, bind at 1. rewrite Hst. cbn [found ret].
  destruct (Qt.deleted_off_disk st) eqn:Hdel.
  - unfold bind at 1. rewrite Hit. cbn [found ret]. rewrite Htext.
    destruct (exists_ fp); cbn [negb andb].
    + eexists. split; [done|]. apply Hupd.
    + exists s. split_and!; done.
  - cbn [andb]. eexists. split; [done|].
    destruct (Hupd (Qt.setStatusPercent 0)) as (? & ? & ? & Hrow).
    split_and!; try done. rewrite Hrow. unfold Qt.setStatusPercent.
    by rewrite Hdel.
Qed.

Lemma mark_rows_not_done_spec fps : ∀ l s,
  table_of s fps → NoDup l → Forall (λ r, r < length fps) l →
  ∃ s', for_each l (mark_row_not_done exists_) s = (Returns (), s')
    ∧ table_of s' fps ∧ (columns_wf s → columns_wf s')
    ∧ (∀ r, r ∉ l → Qt.item_at r COL_STATUS (model s')
                    = Qt.item_at r COL_STATUS (model s))
    ∧ (∀ r st fp, r ∈ l → Qt.item_at r COL_STATUS (model s) = Some st →
         fps !! r = Some fp →
         Qt.item_at r COL_STATUS (model s')
         = Some (if Qt.deleted_off_disk st && negb (exists_ fp) then st
                 else {| Qt.text := Qt.text st; Qt.status_percent := Some 0%Z;
                         Qt.deleted_off_disk := false |})).
Proof.
  induction l as [|row l IH]; intros s Ht Hnd Hl.
  - exists s. split_and!; try done. intros r st fp Hr. by apply elem_of_nil in Hr.
  - apply NoDup_cons in Hnd as [Hrow Hnd]. apply Forall_cons in Hl as [Hlt Hl].
    destruct (lookup_lt_is_Some_2 fps row Hlt) as [fp Hfp].
    destruct (table_of_status_item s fps row Ht Hlt) as [st Hst].
    destruct (mark_row_not_done_spec row s fps fp st Ht Hfp Hst)
      as (s1 & Hrun1 & Ht1 & Hwf1 & Hother1 & Hrow1).
    destruct (IH s1 Ht1 Hnd Hl) as (s' & Hrun & Ht' & Hwf' & Hother & Hsel).
    exists s'. split_and!.
    + cbn [for_each]. unfold bind. by rewrite Hrun1.
    + done.
    + auto.
    + intros r Hr. apply not_elem_of_cons in Hr as [Hne Hr].
      rewrite Hother by done. by apply Hother1.
    + intros r st' fp' Hr Hst' Hfp'.
      destruct (decide (r = row)) as [->|Hne].
      * rewrite Hother by done. rewrite Hrow1. by simplify_eq.
      * apply elem_of_cons in Hr as [?|Hr]; [done|].
        apply (Hsel r st' fp' Hr); [|done]. by rewrite Hother1.
Qed.

End NotDone.

Lemma item_at_status_shot_items m r :
  Qt.item_at r COL_STATUS m = shot_items m !! r ≫= fst.
Proof.
  unfold Qt.item_at, shot_items. rewrite list_lookup_fmap.
  by destruct (Qt.qrows m !! r).
Qed.

Lemma row_status_shot_items s s' r :
  shot_items (model s') = shot_items (model s) →
  row_status s' r = row_status s r
  ∧ row_deleted_off_disk s' r = row_deleted_off_disk s r.
Proof.
  intros Hitems. unfold row_status, row_deleted_off_disk.
  by rewrite !item_at_status_shot_items, Hitems.
Qed.

Section Methods.
Context `{!Helpers}.

(** The rows reported by a worker are written: the table holds the same
    shots and the status items are as they were. *)
Lemma update_rows_model (data : list (string * updated_row)) s fps :
  columns_wf s → table_of s fps →
  (∀ entry, entry ∈ data → leaves_filepath_column entry.2) →
  ∃ s', for_each data (λ entry, update_row entry.1 false None (Some entry.2)) s
        = (Returns (), s')
    ∧ columns_wf s' ∧ table_of s' fps
    ∧ shot_items (model s') = shot_items (model s).
Proof.
  intros Hwf Ht Hdata.
  destruct (for_each_total
      (λ t, columns_wf t ∧ table_of t fps
            ∧ shot_items (model t) = shot_items (model s))
      (λ entry : string * updated_row,
         update_row entry.1 false None (Some entry.2)) data)
    with (s := s) as (s' & Hrun & HP); [|done|eauto].
  intros entry t Hin (Hwft & Htt & Hitt).
  destruct (row_number_by_filepath t !! entry.1) as [r|] eqn:Hknown.
  - apply (t_rows _ _ Htt) in Hknown.
    destruct (update_row_spec entry.1 false None (Some entry.2) t fps r)
      as (t' & Hrun & Hwf' & _ & Ht' & Hit' & _); try done.
    + intros d [= <-] _. by apply Hdata.
    + exists t'. split_and!; try done. by rewrite Hit'.
  - rewrite update_row_unknown by done. eexists. split; [done|].
    split_and!.
    + by apply columns_wf_blockSignals.
    + by destruct Htt.
    + done.
Qed.

End Methods.

(** ** The example table with a shot waiting for analysis *)

Lemma two_shots_table :
  columns_wf two_shots
  ∧ table_of two_shots ["/lab/shots/0.h5"; "/lab/shots/1.h5"].
Proof.
  destruct (@add_files_spec example_helpers ["/lab/shots/1.h5"]
              (example_shot "/lab/shots/1.h5") false one_shot
              ["/lab/shots/0.h5"] eq_refl one_shot_wf one_shot_table)
    as (s' & Hrun & Hwf & Ht & _).
  - apply NoDup_filter, NoDup_singleton.
  - split; vm_compute; reflexivity.
  - intros to_add new' Hcheck _. vm_compute in Hcheck.
    injection Hcheck as <- <-. split.
    + vm_compute. reflexivity.
    + vm_compute. lia.
    + vm_compute. apply list_elem_of_here.
    + vm_compute. reflexivity.
  - intros fp [->|[]%elem_of_nil]%elem_of_cons. vm_compute. reflexivity.
  - unfold two_shots. rewrite Hrun. done.
Qed.

Lemma example_report_leaves_filepath_column :
  leaves_filepath_column example_report.
Proof.
  intros item [->|[]%elem_of_nil]%elem_of_cons. simpl.
  intros [Hname _]. discriminate Hname.
Qed.

Lemma first_incomplete_shot_items m m' :
  shot_items m' = shot_items m →
  first_incomplete (Qt.qrows m') = first_incomplete (Qt.qrows m).
Proof.
  unfold shot_items. generalize (Qt.qrows m') (Qt.qrows m).
  induction l as [|row' l' IH]; intros [|row l] Heq; try done.
  injection Heq as Hst Hfp Heq. cbn [first_incomplete].
  rewrite Hst, Hfp, (IH l Heq). done.
Qed.

(** [get_first_incomplete] on a consistent table returns: [None] when
    every shot is at 100, and otherwise the first shot that is not. *)
Lemma first_incomplete_cases s fps :
  table_of s fps →
  (get_first_incomplete s = Returns None
   ∧ ∀ i, i < length fps → row_status s i = Some 100%Z)
  ∨ (∃ i fp, get_first_incomplete s = Returns (Some fp)
       ∧ fps !! i = Some fp ∧ row_status s i ≠ Some 100%Z
       ∧ ∀ j, j < i → row_status s j = Some 100%Z).
Proof.
  intros Ht. destruct (first_incomplete_spec s fps Ht) as [Hsome Hnone].
  assert (Hdec : ∀ n, n ≤ length fps →
            (∀ j, j < n → row_status s j = Some 100%Z)
            ∨ ∃ i, i < n ∧ row_status s i ≠ Some 100%Z
                   ∧ ∀ j, j < i → row_status s j = Some 100%Z).
  { induction n as [|n IH]; intros Hn; [left; intros; lia|].
    destruct IH as [Hall|(i & Hi & Hne & Hbefore)]; [lia| |].
    - destruct (decide (row_status s n = Some 100%Z)) as [Heq|Hne].
      + left. intros j Hj. destruct (decide (j = n)) as [->|]; [done|].
        apply Hall. lia.
      + right. exists n. split_and!; [lia|done|done].
    - right. exists i. split_and!; [lia|done|done]. }
  destruct (Hdec (length fps) (le_n _)) as [Hall|(i & Hi & Hne & Hbefore)].
  - left. split; [by apply Hnone|done].
  - right. destruct (lookup_lt_is_Some_2 fps i Hi) as [fp Hfp].
    exists i, fp. split_and!; try done. by apply (Hsome i).
Qed.

(** [mark_selection_not_done] returns; it sets to 0 the status percent of
    every selected row but those marked as deleted whose file is still
    missing, and leaves the other rows alone. *)
Lemma mark_selection_not_done_spec exists_ (selected : gset nat) s fps :
  table_of s fps → (∀ r, r ∈ selected → r < length fps) →
  ∃ s', mark_selection_not_done exists_ selected s = (Returns (), s')
    ∧ table_of s' fps ∧ (columns_wf s → columns_wf s')
    ∧ ∀ r fp, fps !! r = Some fp →
        row_status s' r
        = (if decide (r ∈ selected)
           then if row_deleted_off_disk s r && negb (exists_ fp)
                then row_status s r else Some 0%Z
           else row_status s r)
        ∧ row_deleted_off_disk s' r
          = (if decide (r ∈ selected)
             then row_deleted_off_disk s r && negb (exists_ fp)
             else row_deleted_off_disk s r).
Proof.
  intros Ht Hsel.
  destruct (mark_rows_not_done_spec exists_ fps (elements selected) s Ht)
    as (s' & Hrun & Ht' & Hwf' & Hother & Hrows).
  { apply NoDup_elements. }
  { apply Forall_forall. intros r Hr. by apply Hsel, elem_of_elements. }
  exists s'. split_and!; try done.
  intros r fp Hfp. unfold row_status, row_deleted_off_disk.
  destruct (table_of_status_item s fps r Ht) as [st Hst];
    [by eapply lookup_lt_Some|].
  case_decide as Hr.
  - rewrite (Hrows r st fp (proj2 (elem_of_elements _ _) Hr) Hst Hfp).
    rewrite Hst. simpl.
    destruct (Qt.deleted_off_disk st && negb (exists_ fp)) eqn:Hkept;
      simpl; split; try done.
    by apply andb_true_iff in Hkept as [-> _].
  - rewrite Hother by (by rewrite elem_of_elements). done.
Qed.

(** * Further properties of DataFrameModel *)

(** ** The status of a shot *)

Lemma table_of_lookup_inj s fps r r' fp :
  table_of s fps → fps !! r = Some fp → fps !! r' = Some fp → r' = r.
Proof.
  intros Ht Hr Hr'. by apply (NoDup_lookup fps r' r fp (table_of_NoDup _ _ Ht)).
Qed.

Lemma table_of_unknown s fps fp :
  table_of s fps → fp ∉ fps → row_number_by_filepath s !! fp = None.
Proof.
  intros Ht Hfp. apply eq_None_not_Some. intros Hsome.
  by apply Hfp, (table_of_known _ _ _ Ht).
Qed.

(** X1. [set_status_percent(filepath, p)] on a consistent table returns;
    the shot of [filepath] shows [p] and no other status changes, no shot
    gains or loses the deleted mark, the table stays consistent, and for a
    filepath that is not in the table nothing changes at all. *)
Theorem set_status_percent_changes_one_status filepath p s fps :
  columns_wf s → table_of s fps →
  ∃ s', set_status_percent filepath p s = (Returns (), s')
    ∧ columns_wf s' ∧ table_of s' fps
    ∧ (∀ r, row_status s' r
            = if decide (fps !! r = Some filepath) then Some p
              else row_status s r)
    ∧ (∀ r, row_deleted_off_disk s' r = row_deleted_off_disk s r)
    ∧ (filepath ∉ fps → s' = s).
Proof.
  intros Hwf Ht. destruct (decide (filepath ∈ fps)) as [Hin|Hout].
  - apply list_elem_of_lookup in Hin as [r Hr].
    rewrite (set_status_percent_spec _ p _ _ _ Ht Hr). eexists. split; [done|].
    destruct (table_of_status_item s fps r Ht) as [st Hst];
      [by eapply lookup_lt_Some|].
    split_and!.
    + by apply update_status_wf.
    + by apply update_status_table.
    + intros r'. rewrite row_status_update.
      destruct (decide (r' = r)) as [->|Hne].
      * rewrite decide_True by done. by rewrite Hst.
      * rewrite decide_False; [done|]. intros Hr'.
        by apply Hne, (table_of_lookup_inj s fps r r' filepath).
    + intros r'. rewrite row_deleted_update.
      destruct (decide (r' = r)) as [->|Hne]; [|done].
      unfold row_deleted_off_disk. by rewrite Hst.
    + intros Hout. exfalso. by eapply Hout, list_elem_of_lookup_2.
  - rewrite (set_status_percent_unknown _ p _ (table_of_unknown _ _ _ Ht Hout)).
    exists s. split_and!; try done.
    intros r. rewrite decide_False; [done|].
    intros Hr. by eapply Hout, list_elem_of_lookup_2.
Qed.

Lemma set_status_percent_changes_one_status_witness :
  ∃ s', set_status_percent "/lab/shots/0.h5" 50 one_shot = (Returns (), s')
    ∧ row_status s' 0 = Some 50%Z.
Proof.
  destruct (set_status_percent_changes_one_status "/lab/shots/0.h5" 50
              one_shot ["/lab/shots/0.h5"] one_shot_wf one_shot_table)
    as (s' & Hrun & _ & _ & Hstatus & _).
  exists s'. split; [exact Hrun|]. exact (Hstatus 0).
Defined.

(** ** [mark_as_deleted_off_disk] *)

Lemma table_of_values_lack s fps filepath :
  table_of s fps →
  top_level_columns "filepath" (dataframe s) = [filepath_colname (nlevels s)] →
  filepath ∉ fps →
  ∃ vals, getitem_values "filepath" (dataframe s) = Returns vals
          ∧ values_contain (VStr filepath) vals = false.
Proof.
  intros Ht Hcols Hout. unfold getitem_values. rewrite Hcols.
  eexists. split; [done|].
  apply bool_decide_eq_false. intros (cells & Hcells & Hin)%Exists_exists.
  apply list_elem_of_fmap in Hcells as (row & -> & Hrow).
  apply list_elem_of_singleton in Hin.
  apply Hout.
  assert (VStr filepath ∈ VStr <$> fps) as (fp & [= ->] & Hfp)%list_elem_of_fmap;
    [|done].
  rewrite <- (t_stored _ _ Ht), Hin. unfold stored_filepaths.
  apply list_elem_of_fmap. by exists row.
Qed.

(** X2. [mark_as_deleted_off_disk(filepath)] for a shot of a consistent
    table returns and leaves the shot marked as deleted; its status becomes
    100 unless it was marked already, in which case nothing changes; no
    other shot changes, and a second call changes nothing.  For a filepath
    that is no longer in the table, nothing changes. *)
Theorem mark_as_deleted_off_disk_marks_once filepath s fps :
  columns_wf s → table_of s fps →
  (∀ r, fps !! r = Some filepath →
     ∃ s', mark_as_deleted_off_disk filepath s = (Returns (), s')
       ∧ columns_wf s' ∧ table_of s' fps
       ∧ row_deleted_off_disk s' r = true
       ∧ row_status s' r
         = (if row_deleted_off_disk s r then row_status s r else Some 100%Z)
       ∧ (∀ r', r' ≠ r →
            row_status s' r' = row_status s r'
            ∧ row_deleted_off_disk s' r' = row_deleted_off_disk s r')
       ∧ mark_as_deleted_off_disk filepath s' = (Returns (), s'))
  ∧ (top_level_columns "filepath" (dataframe s)
       = [filepath_colname (nlevels s)] →
     filepath ∉ fps →
     mark_as_deleted_off_disk filepath s = (Returns (), s)).
Proof.
  intros Hwf Ht. split.
  - intros r Hr. rewrite (mark_as_deleted_off_disk_spec _ _ _ _ Ht Hr).
    destruct (table_of_status_item s fps r Ht) as [st Hst];
      [by eapply lookup_lt_Some|].
    destruct (row_deleted_off_disk s r) eqn:Hdel.
    + exists s. split_and!; try done.
      rewrite (mark_as_deleted_off_disk_spec _ _ _ _ Ht Hr). by rewrite Hdel.
    + eexists. split; [done|].
      assert (row_deleted_off_disk
                (set_model (Qt.update_item r COL_STATUS
                   (λ it, Qt.setStatusPercent 100 (Qt.setDeletedOffDisk true it)))
                   s) r = true) as Hmarked.
      { rewrite row_deleted_update, decide_True by done. by rewrite Hst. }
      split_and!.
      * by apply update_status_wf.
      * by apply update_status_table.
      * done.
      * rewrite row_status_update, decide_True by done. by rewrite Hst.
      * intros r' Hne.
        by rewrite row_status_update, row_deleted_update, !decide_False.
      * rewrite (mark_as_deleted_off_disk_spec _ _ fps r);
          [by rewrite Hmarked| by apply update_status_table | done].
  - intros Hcols Hout. unfold mark_as_deleted_off_disk, bind at 1.
    by destruct (table_of_values_lack _ _ _ Ht Hcols Hout) as (vals & -> & ->).
Qed.

Lemma mark_as_deleted_off_disk_marks_once_witness :
  (∃ s', mark_as_deleted_off_disk "/lab/shots/0.h5" one_shot = (Returns (), s')
     ∧ row_deleted_off_disk s' 0 = true
     ∧ mark_as_deleted_off_disk "/lab/shots/0.h5" s' = (Returns (), s'))
  ∧ mark_as_deleted_off_disk "/lab/shots/9.h5" one_shot = (Returns (), one_shot).
Proof.
  destruct (mark_as_deleted_off_disk_marks_once "/lab/shots/0.h5" one_shot
              ["/lab/shots/0.h5"] one_shot_wf one_shot_table) as [Hknown _].
  destruct (mark_as_deleted_off_disk_marks_once "/lab/shots/9.h5" one_shot
              ["/lab/shots/0.h5"] one_shot_wf one_shot_table) as [_ Hunknown].
  split.
  - destruct (Hknown 0 eq_refl) as (s' & Hrun & _ & _ & Hdel & _ & _ & Hagain).
    exists s'. by split_and!.
  - apply Hunknown; [reflexivity|].
    intros Hin%list_elem_of_singleton. discriminate Hin.
Defined.

(** ** The statuses of the shots that [add_files] adds *)

Lemma row_status_items s r :
  row_status s r = (shot_items (model s) !! r ≫= fst) ≫= Qt.status_percent.
Proof. unfold row_status. by rewrite item_at_status_shot_items. Qed.

Lemma row_deleted_items s r :
  row_deleted_off_disk s r
  = default false (Qt.deleted_off_disk <$> (shot_items (model s) !! r ≫= fst)).
Proof. unfold row_deleted_off_disk. by rewrite item_at_status_shot_items. Qed.

Section Methods.
Context `{!Helpers}.


End Methods.


(** ** What [remove_selection] leaves *)

Lemma elem_of_remaining_from {A} (R : list nat) : ∀ (l : list A) i x,
  x ∈ remaining_from i R l ↔ ∃ j, l !! j = Some x ∧ (i + j) ∉ R.
Proof.
  induction l as [|y l IH]; intros i x; cbn [remaining_from].
  { split; [by intros ?%elem_of_nil|by intros (j & Hj & _)]. }
  case_decide as Hi.
  - rewrite IH. split.
    + intros (j & Hj & Hout). exists (S j). split; [done|].
      by replace (i + S j) with (S i + j) by lia.
    + intros ([|j] & Hj & Hout).
      * by rewrite Nat.add_0_r in Hout.
      * exists j. split; [done|]. by replace (S i + j) with (i + S j) by lia.
  - rewrite elem_of_cons, IH. split.
    + intros [->|(j & Hj & Hout)].
      * exists 0. split; [done|]. by rewrite Nat.add_0_r.
      * exists (S j). split; [done|].
        by replace (i + S j) with (S i + j) by lia.
    + intros ([|j] & Hj & Hout).
      * left. by injection Hj.
      * right. exists j. split; [done|].
        by replace (S i + j) with (i + S j) by lia.
Qed.

Lemma remaining_from_lookup_kept {A} (R : list nat) : ∀ (l : list A) i j x,
  NoDup R → l !! j = Some x → (i + j) ∉ R →
  remaining_from i R l !! (j - length (filter (λ r, i ≤ r < i + j) R)) = Some x.
Proof.
  induction l as [|y l IH]; intros i j x Hnd Hj Hout; [done|].
  cbn [remaining_from]. destruct j as [|j].
  - injection Hj as ->. rewrite Nat.add_0_r in Hout.
    by rewrite decide_False by done.
  - simpl in Hj. rewrite (length_filter_range_S R i (i + S j)) by (done || lia).
    replace (i + S j) with (S i + j) in * by lia.
    pose proof (length_filter_range R (S i) (S i + j) Hnd) as Hle.
    case_decide as Hi.
    + replace (S j - (1 + length (filter (λ r, S i ≤ r < S i + j) R)))
        with (j - length (filter (λ r, S i ≤ r < S i + j) R)) by lia.
      by apply IH.
    + replace (S j - (0 + length (filter (λ r, S i ≤ r < S i + j) R)))
        with (S (j - length (filter (λ r, S i ≤ r < S i + j) R))) by lia.
      simpl. by apply IH.
Qed.

Section Methods.
Context `{!Helpers}.

(** X4. [remove_selection] with nothing selected, or with the question
    declined, changes nothing.  Otherwise, with [integer_indexing] off, it
    returns and the table stays consistent; a removed shot is forgotten,
    and a shot that stays moves up by the number of removed rows above it
    and keeps its status and its deleted mark. *)
Theorem remove_selection_keeps_the_rest selected confirm answer s fps :
  columns_wf s → table_of s fps →
  NoDup selected → Forall (λ r, r < length fps) selected →
  (selected = [] ∨ (confirm = true ∧ answer = false) →
   remove_selection selected confirm answer s = (Returns (), s))
  ∧ (selected ≠ [] → confirm = false ∨ answer = true →
     integer_indexing s = false →
     ∃ s', remove_selection selected confirm answer s = (Returns (), s')
       ∧ columns_wf s'
       ∧ table_of s' (remaining_from 0 selected fps)
       ∧ (∀ r fp, fps !! r = Some fp → r ∈ selected →
            row_number_by_filepath s' !! fp = None)
       ∧ (∀ r fp, fps !! r = Some fp → r ∉ selected →
            row_number_by_filepath s' !! fp
            = Some (r - length (filter (λ x, x < r) selected))
            ∧ row_status s' (r - length (filter (λ x, x < r) selected))
              = row_status s r
            ∧ row_deleted_off_disk s'
                (r - length (filter (λ x, x < r) selected))
              = row_deleted_off_disk s r)).
Proof.
  intros Hwf Ht Hnd Hsel. split.
  - unfold remove_selection. intros [->|[-> ->]]; [done|].
    by case_decide.
  - intros Hne Hgo Hflag.
    destruct (remove_selection_spec selected confirm answer s fps Hflag Hwf
                Ht Hnd Hsel) as (s' & Hrun & Hwf' & Ht' & Hitems).
    assert (confirm && negb answer = false) as Hno.
    { destruct Hgo as [->| ->]; [done|]. by destruct confirm. }
    rewrite Hno in Ht', Hitems.
    exists s'. split_and!; try done.
    + intros r fp Hr Hin. apply (table_of_unknown _ _ _ Ht').
      intros (j & Hj & Hout)%elem_of_remaining_from.
      rewrite (table_of_lookup_inj s fps r j fp Ht Hr Hj) in Hout. done.
    + intros r fp Hr Hout.
      assert (Hfilter : filter (λ x, 0 ≤ x < 0 + r) selected
                        = filter (λ x, x < r) selected).
      { apply filter_ext_in. intros x _. lia. }
      pose proof (remaining_from_lookup_kept selected fps 0 r fp Hnd Hr Hout)
        as Hfp.
      rewrite Hfilter in Hfp. split.
      { by apply (t_rows _ _ Ht'). }
      pose proof (lookup_lt_Some _ _ _ Hr) as Hlt.
      pose proof (table_of_length _ _ Ht) as [_ Hcount].
      destruct (lookup_lt_is_Some_2 (shot_items (model s)) r) as [x Hx].
      { rewrite length_shot_items. lia. }
      pose proof (remaining_from_lookup_kept selected _ 0 r x Hnd Hx Hout)
        as Hx'.
      rewrite Hfilter in Hx'.
      by rewrite !row_status_items, !row_deleted_items, Hitems, Hx', Hx.
Qed.

End Methods.

Lemma remove_selection_keeps_the_rest_witness :
  ∃ s', @remove_selection example_helpers [0] true true two_shots
        = (Returns (), s')
    ∧ row_number_by_filepath s' !! "/lab/shots/0.h5" = None
    ∧ row_number_by_filepath s' !! "/lab/shots/1.h5" = Some 0
    ∧ row_status s' 0 = Some 0%Z.
Proof.
  destruct two_shots_table as [Hwf Ht].
  destruct (@remove_selection_keeps_the_rest example_helpers [0] true true
              two_shots ["/lab/shots/0.h5"; "/lab/shots/1.h5"] Hwf Ht)
    as [_ Hremove].
  - apply NoDup_singleton.
  - apply Forall_singleton. simpl. lia.
  - destruct Hremove as (s' & Hrun & _ & _ & Hgone & Hkept);
      [done|by right|vm_compute; reflexivity|].
    exists s'. split_and!.
    + exact Hrun.
    + apply (Hgone 0); [reflexivity|apply list_elem_of_here].
    + destruct (Hkept 1 "/lab/shots/1.h5") as (Hrow & _); [reflexivity| |].
      * intros Hin%list_elem_of_singleton. discriminate Hin.
      * exact Hrow.
    + destruct (Hkept 1 "/lab/shots/1.h5") as (_ & Hstatus & _); [reflexivity| |].
      * intros Hin%list_elem_of_singleton. discriminate Hin.
      * etrans; [exact Hstatus|]. vm_compute. reflexivity.
Defined.

(** ** The shortcut of [renumber_rows] *)

Section Methods.
Context `{!Helpers}.

Lemma number_row_shape row t t' :
  integer_indexing t = false →
  number_row row t = (Returns (), t') →
  ∃ it, Qt.item_at row COL_FILEPATH (model t) = Some it
    ∧ t' = set_row_number_by_filepath
             (<[Qt.text it := row]> (row_number_by_filepath t)) t.
Proof.
  intros Hflag. unfold number_row, bind.
  destruct (Qt.item_at row COL_FILEPATH (model t)) as [it|]; [|done].
  cbn [found ret modify gets integer_indexing set_row_number_by_filepath].
  rewrite Hflag. cbn [ret]. intros [= <-]. eauto.
Qed.

Lemma renumber_rows_shape add_from s s' :
  integer_indexing s = false →
  renumber_rows add_from s = (Returns (), s') →
  s' = set_row_number_by_filepath (row_number_by_filepath s')
         (set_previous_n_digits (n_digits (Qt.rowCount (model s))) s).
Proof.
  intros Hflag.
  unfold renumber_rows, bind at 1. cbn [gets]. unfold bind at 1. cbn [gets].
  unfold bind at 1. cbn [modify].
  set (base := set_previous_n_digits (n_digits (Qt.rowCount (model s))) s).
  intros Hrun. apply bind_Returns in Hrun as ([] & s2 & Hclear & Hloop).
  assert (∃ m, s' = set_row_number_by_filepath m base) as [m ->]; [|done].
  refine (for_each_Returns
            (λ t, ∃ m, t = set_row_number_by_filepath m base) _ _ _ s2 s' _
            Hloop).
  - intros row t t' _ [m ->] (it & _ & ->)%number_row_shape; [|done].
    by eexists.
  - destruct (decide (_ = 0)) in Hclear.
    + apply modify_Returns in Hclear as ->. by eexists.
    + apply ret_Returns in Hclear as [_ ->].
      by exists (row_number_by_filepath base).
Qed.

(** X5. With [integer_indexing] off: when the rows below [add_from] are
    numbered as they stand, [renumber_rows(add_from)] ends in the same state
    as [renumber_rows(0)], with every shown filepath mapped to its row.
    When rows were deleted and the number of digits of the row count did
    not change, a call with [add_from] other than 0 keeps the stale row
    number of a filepath that is no longer shown. *)
Theorem renumber_rows_add_from add_from s texts :
  integer_indexing s = false →
  shown (model s) = Some <$> texts → NoDup texts → add_from ≤ length texts →
  ((∀ fp i, row_number_by_filepath s !! fp = Some i
            ↔ take add_from texts !! i = Some fp) →
   ∃ s', renumber_rows add_from s = (Returns (), s')
     ∧ renumber_rows 0 s = (Returns (), s')
     ∧ ∀ fp i, row_number_by_filepath s' !! fp = Some i ↔ texts !! i = Some fp)
  ∧ (∀ stale i,
       add_from ≠ 0 → n_digits (length texts) = previous_n_digits s →
       stale ∉ texts → row_number_by_filepath s !! stale = Some i →
       ∃ s', renumber_rows add_from s = (Returns (), s')
         ∧ row_number_by_filepath s' !! stale = Some i).
Proof.
  intros Hflag Hshown Hnd Hle.
  assert (Qt.rowCount (model s) = length texts) as Hcount.
  { apply (f_equal length) in Hshown. unfold shown in Hshown.
    by rewrite !length_fmap, length_shot_items in Hshown. }
  split.
  - intros Hmap.
    destruct (renumber_rows_spec add_from s texts Hflag Hshown Hnd Hle)
      as (s1 & Hrun1 & Hmap1 & _); [done|].
    destruct (renumber_rows_spec 0 s texts Hflag Hshown Hnd)
      as (s0 & Hrun0 & Hmap0 & _); [lia|done|].
    exists s1. split_and!; [done| |done].
    rewrite Hrun0. f_equal.
    rewrite (renumber_rows_shape _ _ _ Hflag Hrun0),
      (renumber_rows_shape _ _ _ Hflag Hrun1).
    f_equal. apply map_eq. intros fp. apply option_eq. intros i.
    by rewrite Hmap0, Hmap1.
  - intros stale i Hfrom Hdigits Hstale Hi.
    unfold renumber_rows, bind at 1. cbn [gets]. unfold bind at 1. cbn [gets].
    rewrite Hcount.
    rewrite (decide_False (P := n_digits (length texts) ≠ previous_n_digits s))
      by (intros Hn; by apply Hn).
    unfold bind at 1. cbn [modify]. rewrite decide_False by done.
    unfold bind at 1. cbn [ret].
    destruct (for_each_total
                (λ t, model t = model s
                      ∧ integer_indexing t = false
                      ∧ row_number_by_filepath t !! stale = Some i)
                number_row (seq add_from (length texts - add_from)))
      with (s := set_previous_n_digits (n_digits (length texts)) s)
      as (s' & Hrun & _ & _ & Hkept); [|done|by eauto].
    intros row t [Hrow_ge Hrow_lt]%elem_of_seq (Hmodel & Hflagt & Hkept).
    destruct (lookup_lt_is_Some_2 texts row) as [fp Hfp]; [lia|].
    destruct (shown_item _ _ _ _ Hshown Hfp) as (it & Hit & Htext).
    unfold number_row, bind. rewrite Hmodel, Hit.
    cbn [found ret modify gets integer_indexing set_row_number_by_filepath].
    rewrite Hflagt. cbn [ret].
    eexists. split; [done|]. split; [done|]. split; [done|].
    cbn [row_number_by_filepath set_row_number_by_filepath].
    rewrite lookup_insert_ne; [done|].
    rewrite Htext. intros ->. by eapply Hstale, list_elem_of_lookup_2.
Qed.

End Methods.

(** The table [two_shots] before its second row is numbered, and with the
    row number of a shot that was removed left in the map. *)
Lemma renumber_rows_add_from_witness :
  (∃ s', @renumber_rows example_helpers 1
           (set_row_number_by_filepath {[ "/lab/shots/0.h5" := 0 ]} two_shots)
         = (Returns (), s')
     ∧ @renumber_rows example_helpers 0
         (set_row_number_by_filepath {[ "/lab/shots/0.h5" := 0 ]} two_shots)
       = (Returns (), s')
     ∧ row_number_by_filepath s' !! "/lab/shots/1.h5" = Some 1)
  ∧ (∃ s', @renumber_rows example_helpers 1
             (set_row_number_by_filepath
                (<["/lab/shots/9.h5" := 2]> (row_number_by_filepath two_shots))
                two_shots) = (Returns (), s')
       ∧ row_number_by_filepath s' !! "/lab/shots/9.h5" = Some 2).
Proof.
  split.
  - destruct (@renumber_rows_add_from example_helpers 1
                (set_row_number_by_filepath {[ "/lab/shots/0.h5" := 0 ]}
                   two_shots)
                ["/lab/shots/0.h5"; "/lab/shots/1.h5"]) as [Hsame _].
    + vm_compute. reflexivity.
    + vm_compute. reflexivity.
    + apply NoDup_cons. split; [|apply NoDup_singleton].
      intros Hin%list_elem_of_singleton. discriminate Hin.
    + simpl. lia.
    + destruct Hsame as (s' & Hrun1 & Hrun0 & Hmap).
      * intros fp i.
        cbn [row_number_by_filepath set_row_number_by_filepath].
        rewrite lookup_singleton_Some. simpl. split.
        -- intros [<- <-]. reflexivity.
        -- intros Hi. destruct i as [|i]; [|discriminate Hi].
           injection Hi as <-. by split.
      * exists s'. split_and!; [exact Hrun1|exact Hrun0|].
        apply Hmap. reflexivity.
  - destruct (@renumber_rows_add_from example_helpers 1
                (set_row_number_by_filepath
                   (<["/lab/shots/9.h5" := 2]>
                      (row_number_by_filepath two_shots)) two_shots)
                ["/lab/shots/0.h5"; "/lab/shots/1.h5"]) as [_ Hstale].
    + vm_compute. reflexivity.
    + vm_compute. reflexivity.
    + apply NoDup_cons. split; [|apply NoDup_singleton].
      intros Hin%list_elem_of_singleton. discriminate Hin.
    + simpl. lia.
    + apply (Hstale "/lab/shots/9.h5" 2).
      * done.
      * vm_compute. reflexivity.
      * intros [Hin|[Hin|[]%elem_of_nil]%elem_of_cons]%elem_of_cons;
          discriminate Hin.
      * vm_compute. reflexivity.
Defined.

(** ** [update_column_levels] *)

Lemma pad_name_0 n : pad_name 0 n = n.
Proof. destruct n as [?|t]; [done|]. simpl. by rewrite app_nil_r. Qed.

Section Methods.
Context `{!Helpers}.

(** X6. [update_column_levels()] pads every tuple name of [column_names]
    and of [column_indices] with empty strings up to the number of levels
    of the dataframe, keeps the special names, the column numbers and
    [columns_visible], never lowers [nlevels], and changes nothing when
    called a second time. *)
Theorem update_column_levels_pads s :
  columns_wf s →
  (∀ i, column_names (update_column_levels s) !! i
        = pad_name (pandas.nlevels (dataframe s) - nlevels s)
            <$> column_names s !! i)
  ∧ (∀ n i, column_indices s !! n = Some i →
       column_indices (update_column_levels s)
         !! pad_name (pandas.nlevels (dataframe s) - nlevels s) n = Some i)
  ∧ columns_visible (update_column_levels s) = columns_visible s
  ∧ nlevels (update_column_levels s)
    = nlevels s `max` pandas.nlevels (dataframe s)
  ∧ update_column_levels (update_column_levels s) = update_column_levels s.
Proof.
  intros Hwf.
  destruct (update_column_levels_spec s Hwf)
    as (Hwf' & _ & Hdf & _ & _ & Hlev).
  assert (Hagain : update_column_levels (update_column_levels s)
                   = update_column_levels s).
  { unfold update_column_levels at 1. rewrite decide_False; [done|].
    rewrite Hdf, Hlev. lia. }
  destruct Hwf as [Hinv Hone].
  cut ((∀ i, column_names (update_column_levels s) !! i
             = pad_name (pandas.nlevels (dataframe s) - nlevels s)
                 <$> column_names s !! i)
       ∧ (∀ n i, column_indices s !! n = Some i →
            column_indices (update_column_levels s)
              !! pad_name (pandas.nlevels (dataframe s) - nlevels s) n = Some i)
       ∧ columns_visible (update_column_levels s) = columns_visible s).
  { intros (? & ? & ?). by split_and!. }
  clear Hagain Hlev Hwf' Hdf.
  unfold update_column_levels.
  set (extra := pandas.nlevels (dataframe s) - nlevels s).
  case_decide as Hextra.
  2:{ assert (extra = 0) as -> by lia. split_and!; try done.
      - intros i. destruct (column_names s !! i) as [n|]; [|done].
        simpl. by rewrite pad_name_0.
      - intros n i. by rewrite pad_name_0. }
  cbn [column_names column_indices columns_visible set_column_names
       set_column_indices set_nlevels].
  set (items := map_to_list (column_indices s)).
  split_and!; [| |done].
  - intros i. apply option_eq. intros m.
    rewrite fmap_Some, dict_from_lookup, list_elem_of_fmap.
    + split.
      * intros ([n j] & [= -> ->] & Hin%elem_of_map_to_list).
        exists n. split; [|done]. by apply (ci_inverse _ _ Hinv).
      * intros (n & Hn%(ci_inverse _ _ Hinv) & ->).
        exists (n, i). split; [done|]. by apply elem_of_map_to_list.
    + rewrite <- list_fmap_compose. apply (NoDup_fmap_2_strong _).
      * intros [n1 i1] [n2 i2] H1%elem_of_map_to_list H2%elem_of_map_to_list.
        simpl. intros ->. f_equal.
        apply (ci_inverse _ _ Hinv) in H1, H2. congruence.
      * apply NoDup_map_to_list.
  - intros n i Hn. rewrite dict_from_lookup, list_elem_of_fmap.
    + exists (n, i). split; [done|]. by apply elem_of_map_to_list.
    + rewrite <- list_fmap_compose. apply (NoDup_fmap_2_strong _).
      * intros [n1 i1] [n2 i2] H1%elem_of_map_to_list H2%elem_of_map_to_list.
        simpl. intros Heq%pad_name_inj. subst. f_equal. congruence.
      * apply NoDup_map_to_list.
Qed.

End Methods.

(** The example table once its dataframe has three levels of column
    labels. *)
Lemma update_column_levels_pads_witness :
  column_names
    (update_column_levels
       (set_dataframe
          {| columns := [["filepath"; ""; ""]; ["fit"; "width"; "error"]];
             pandas.nlevels := 3; rows := [] |} one_shot)) !! 1
  = Some (Tuple ["filepath"; ""; ""])
  ∧ column_names
      (update_column_levels
         (set_dataframe
            {| columns := [["filepath"; ""; ""]; ["fit"; "width"; "error"]];
               pandas.nlevels := 3; rows := [] |} one_shot)) !! 0
    = Some (Special "__status").
Proof.
  destruct (update_column_levels_pads
              (set_dataframe
                 {| columns := [["filepath"; ""; ""]; ["fit"; "width"; "error"]];
                    pandas.nlevels := 3; rows := [] |} one_shot))
    as (Hnames & _).
  - apply (columns_wf_same one_shot); [by split|done|apply one_shot_wf].
  - split; [apply (Hnames 1)|apply (Hnames 0)].
Defined.

(** ** [renumber_rows] with [integer_indexing] *)

Section Methods.
Context `{!Helpers}.

(** X16. With [integer_indexing] set, [renumber_rows(0)] on a table with
    no row returns and forgets every row number.  On a table with rows
    whose dataframe has no column [sequence_index] it raises [KeyError]
    when it comes to the text of the first row: by then
    [row_number_by_filepath] holds the first row alone, so every other
    shot shown has lost its row number. *)
Theorem renumber_rows_missing_header_column s :
  integer_indexing s = true →
  (shown (model s) = [] →
   renumber_rows 0 s
   = (Returns (),
      set_row_number_by_filepath ∅
        (set_previous_n_digits (n_digits 0) s)))
  ∧ (∀ fp texts,
       shown (model s) = Some <$> (fp :: texts) →
       top_level_columns "sequence_index" (dataframe s) = [] →
       renumber_rows 0 s
       = (Raises KeyError,
          set_row_number_by_filepath {[ fp := 0 ]}
            (set_previous_n_digits (n_digits (S (length texts))) s))).
Proof.
  intros Hflag. split.
  - intros Hshown.
    assert (Qt.rowCount (model s) = 0) as Hcount.
    { apply (f_equal length) in Hshown. unfold shown in Hshown.
      by rewrite !length_fmap, length_shot_items in Hshown. }
    unfold renumber_rows, bind at 1. cbn [gets]. unfold bind at 1.
    cbn [gets]. rewrite Hcount. unfold bind at 1. cbn [modify].
    assert ((if decide (n_digits 0 ≠ previous_n_digits s) then 0 else 0) = 0)
      as -> by (by case_decide).
    rewrite decide_True by done. done.
  - intros fp texts Hshown Hcols.
    assert (Qt.rowCount (model s) = S (length texts)) as Hcount.
    { apply (f_equal length) in Hshown. unfold shown in Hshown.
      by rewrite !length_fmap, length_shot_items in Hshown. }
    destruct (shown_item (model s) (fp :: texts) 0 fp Hshown eq_refl)
      as (it & Hit & Htext).
    unfold renumber_rows, bind at 1. cbn [gets]. unfold bind at 1.
    cbn [gets]. rewrite Hcount. unfold bind at 1. cbn [modify].
    assert ((if decide (n_digits (S (length texts)) ≠ previous_n_digits s)
             then 0 else 0) = 0) as -> by (by case_decide).
    rewrite decide_True by done.
    unfold bind at 1. cbn [modify]. rewrite Nat.sub_0_r.
    cbn [seq for_each]. unfold bind at 1.
    unfold number_row, bind at 1.
    cbn [model set_row_number_by_filepath set_previous_n_digits].
    rewrite Hit. cbn [found ret]. unfold bind at 1. cbn [modify].
    unfold bind at 1.
    cbn [gets integer_indexing set_row_number_by_filepath
         set_previous_n_digits].
    rewrite Hflag. unfold header_cols. cbn [for_each].
    unfold bind at 1. unfold bind at 1.
    cbn [gets dataframe set_row_number_by_filepath set_previous_n_digits].
    unfold bind at 1, lift, header_string, getitem_values.
    rewrite Hcols. cbn [row_number_by_filepath]. rewrite Htext.
    reflexivity.
Qed.

End Methods.

(** The example table in a lyse with [integer_indexing]: its shots have no
    column [sequence_index]. *)
Lemma renumber_rows_missing_header_column_witness :
  @renumber_rows example_helpers 0 one_shot_integer_indexing
  = (Raises KeyError, one_shot_integer_indexing).
Proof.
  destruct (@renumber_rows_missing_header_column example_helpers
              one_shot_integer_indexing eq_refl) as [_ Hraise].
  rewrite (Hraise "/lab/shots/0.h5" []); [|reflexivity|reflexivity].
  f_equal.
Defined.

End DataFrameModelFacts.

(** * Properties of the analysis worker *)

Module AnalysisSubprocessFacts.
Import AnalysisSubprocess.

Section Facts.
Variable dirname : string → string.






End Facts.




End AnalysisSubprocessFacts.

(** * Properties of the two loops of FileBox *)

Module FileBoxFacts.
Import pandas FileBox.
Import DataFrameModelFacts.

(** ** Batches of the incoming buffer loop *)

Lemma drain_length queue : ∀ filepaths batch_size,
  length filepaths ≤ length (drain queue filepaths batch_size).1
  ∧ length (drain queue filepaths batch_size).1
      ≤ batch_size `max` S (length filepaths).
Proof.
  induction queue as [|x queue IH]; intros filepaths batch_size;
    cbn [drain].
  - cbn [fst]. lia.
  - case_decide as Hfull.
    + cbn [fst]. rewrite length_app in *. cbn [length] in *. lia.
    + specialize (IH (filepaths ++ [x]) batch_size).
      rewrite length_app in *. cbn [length] in *. lia.
Qed.

(** A batch holds at least one filepath, and at most [batch_size] of them
    unless [batch_size] is 1, when it can hold two. *)
Lemma next_batch_length arrived s batch queue :
  next_batch arrived s = Some (batch, queue) →
  1 ≤ length batch
  ∧ length batch
      ≤ (len (DataFrameModel.dataframe (shots_model s)) / 3 + 1) `max` 2.
Proof.
  unfold next_batch. destruct (incoming_queue s) as [|x q]; [done|].
  intros Hd.
  pose proof (drain_length (q ++ arrived) [x]
    (len (DataFrameModel.dataframe (shots_model s)) / 3 + 1)) as Hlen.
  destruct (drain _ _ _) as [b q']. replace b with batch in * by congruence.
  cbn [fst length] in Hlen. lia.
Qed.

(** C5 at the failing input: with an empty table [batch_size] is 1, yet
    when two filepaths are queued the batch made holds both. *)
Theorem next_batch_exceeds_batch_size :
  len (DataFrameModel.dataframe (shots_model two_queued)) / 3 + 1 = 1
  ∧ next_batch [] two_queued
      = Some (["/lab/shots/0.h5"; "/lab/shots/1.h5"], []).
Proof. split; reflexivity. Qed.

Import DataFrameModelFacts.

(** ** Duplicates within a batch *)

#[local] Instance index_le_trans l : Transitive (index_le l).
Proof. intros a b c. unfold index_le. lia. Qed.

#[local] Instance index_le_total l : Total (index_le l).
Proof. intros a b. unfold index_le. lia. Qed.

(** Line 904 keeps every filepath of the batch once, in the order in which
    the filepaths first occur. *)
Lemma remove_duplicates_spec filepaths :
  NoDup (remove_duplicates filepaths)
  ∧ (∀ x, x ∈ remove_duplicates filepaths ↔ x ∈ filepaths)
  ∧ StronglySorted (index_le filepaths) (remove_duplicates filepaths).
Proof.
  unfold remove_duplicates. split_and!.
  - rewrite merge_sort_Permutation. apply NoDup_elements.
  - intros x. rewrite merge_sort_Permutation, elem_of_elements.
    apply elem_of_list_to_set.
  - apply StronglySorted_merge_sort; apply _.
Qed.

(** ** The steps of the loops *)

Lemma fbind_Done {A B} (m : F A) (k : A → F B) s a s1 :
  m s = (Done a, s1) → fbind m k s = k a s1.
Proof. intros Hm. unfold fbind. by rewrite Hm. Qed.

Lemma on_model_Returns {A} (m : M DataFrameModel.state A) s a sm :
  m (shots_model s) = (Returns a, sm) →
  on_model m s = (Done a, set_shots_model sm s).
Proof. intros Hm. unfold on_model. by rewrite Hm. Qed.

Section Loops.
Context `{!Helpers}.

(** A message is taken from [from_singleshot], the rows it reports are
    written and the status percent of the shot is set (lines 1007-1014). *)
Lemma singleshot_receive filepath m messages (k : F unit) s fps r :
  DataFrameModel.columns_wf (shots_model s) →
  DataFrameModel.table_of (shots_model s) fps →
  fps !! r = Some filepath →
  (∀ entry, entry ∈ updated_data m →
            DataFrameModel.leaves_filepath_column entry.2) →
  ∃ sm,
    (fmodify (got_from_singleshot m messages) ;;
     update_rows (updated_data m) ;;
     match status_percent m with
     | Some p => on_model (DataFrameModel.set_status_percent filepath p)
     | None => fret ()
     end ;;
     k) s
    = k (set_shots_model sm (got_from_singleshot m messages s))
    ∧ DataFrameModel.columns_wf sm ∧ DataFrameModel.table_of sm fps
    ∧ DataFrameModel.row_deleted_off_disk sm r
      = DataFrameModel.row_deleted_off_disk (shots_model s) r
    ∧ DataFrameModel.row_status sm r
      = match status_percent m with
        | Some p => Some p
        | None => DataFrameModel.row_status (shots_model s) r
        end
    ∧ ∀ r', r' ≠ r →
        DataFrameModel.row_status sm r'
        = DataFrameModel.row_status (shots_model s) r'.
Proof.
  intros Hwf Ht Hr Hdata.
  set (s1 := got_from_singleshot m messages s).
  destruct (update_rows_model (updated_data m) (shots_model s) fps Hwf Ht Hdata)
    as (sm1 & Hrun1 & Hwf1 & Ht1 & Hit1).
  assert (update_rows (updated_data m) s1 = (Done (), set_shots_model sm1 s1))
    as Hupd by (by apply on_model_Returns).
  unfold fbind at 1. cbn [fmodify]. fold s1.
  rewrite (fbind_Done _ _ _ _ _ Hupd).
  destruct (row_status_shot_items (shots_model s) sm1 r Hit1) as [Hst1 Hdel1].
  destruct (status_percent m) as [p|].
  - exists (DataFrameModel.set_model
              (Qt.update_item r DataFrameModel.COL_STATUS
                 (Qt.setStatusPercent p)) sm1).
    split_and!.
    + erewrite fbind_Done; [reflexivity|].
      unfold on_model. cbn [shots_model set_shots_model].
      by rewrite (set_status_percent_spec filepath p sm1 fps r).
    + by apply update_status_wf.
    + by apply update_status_table.
    + rewrite row_deleted_update, decide_True by done. rewrite <- Hdel1.
      unfold DataFrameModel.row_deleted_off_disk.
      by destruct (Qt.item_at r DataFrameModel.COL_STATUS
                     (DataFrameModel.model sm1)).
    + rewrite row_status_update, decide_True by done.
      destruct (table_of_status_item sm1 fps r Ht1) as [st ->];
        [by eapply lookup_lt_Some|done].
    + intros r' Hne. rewrite row_status_update, decide_False by done.
      apply (row_status_shot_items _ _ _ Hit1).
  - exists sm1. split_and!; try done.
    intros r' _. apply (row_status_shot_items _ _ _ Hit1).
Qed.

(** C4.  A shot of the table whose file exists is dispatched, and the
    worker reports progress any number of times and then an error.  When
    the file still exists as the error arrives, [analysis_paused] becomes
    true and the shot is not marked as deleted; when it does not, the shot
    is marked as deleted off disk, its status percent is 100, and
    [analysis_paused] is as it was.  In both cases
    [do_singleshot_analysis] returns.  The shot is taken not to be marked
    as deleted before, as no shot waiting for analysis is, and the data
    reported not to name the filepath column. *)
Theorem singleshot_error_pauses_or_marks_deleted
    filepath progress m rest s fps r :
  DataFrameModel.columns_wf (shots_model s) →
  DataFrameModel.table_of (shots_model s) fps →
  fps !! r = Some filepath →
  DataFrameModel.row_deleted_off_disk (shots_model s) r = false →
  exists_ s filepath = true →
  from_singleshot s = progress ++ m :: rest →
  Forall (λ m, signal m = "progress") progress → signal m = "error" →
  Forall (λ m, ∀ entry, entry ∈ updated_data m →
                 DataFrameModel.leaves_filepath_column entry.2)
         (progress ++ [m]) →
  ∃ s', do_singleshot_analysis filepath s = (Done (), s')
    ∧ to_singleshot s' = to_singleshot s ++ [filepath]
    ∧ from_singleshot s' = rest
    ∧ if exists_then m filepath
      then analysis_paused s' = true
           ∧ DataFrameModel.row_deleted_off_disk (shots_model s') r = false
      else analysis_paused s' = analysis_paused s
           ∧ DataFrameModel.row_deleted_off_disk (shots_model s') r = true
           ∧ DataFrameModel.row_status (shots_model s') r = Some 100%Z.
Proof.
  intros Hwf Ht Hr Hdel Hexists Hqueue Hprogress Herror Hdata.
  unfold do_singleshot_analysis, fbind at 1. cbn [fgets]. rewrite Hexists.
  cbn [negb]. unfold fbind at 1. cbn [fmodify].
  set (s0 := put_to_singleshot filepath s).
  change (from_singleshot s0) with (from_singleshot s). rewrite Hqueue.
  assert (to_singleshot s0 = to_singleshot s ++ [filepath]) as Hto by done.
  assert (analysis_paused s0 = analysis_paused s) as Hpaused by done.
  assert (Hwf0 : DataFrameModel.columns_wf (shots_model s0)) by done.
  assert (Ht0 : DataFrameModel.table_of (shots_model s0) fps) by done.
  assert (Hdel0 : DataFrameModel.row_deleted_off_disk (shots_model s0) r
                  = false) by done.
  rewrite <- Hto, <- Hpaused. clearbody s0.
  clear Hqueue Hexists Hwf Ht Hdel Hto Hpaused s.
  revert s0 Hwf0 Ht0 Hdel0.
  induction progress as [|m0 progress IH]; intros s Hwf Ht Hdel.
  - cbn [app] in Hdata. rewrite Forall_singleton in Hdata.
    cbn [app singleshot_replies].
    destruct (singleshot_receive filepath m rest
      (if String.eqb (signal m) "done" then fret ()
       else if String.eqb (signal m) "error" then
         do! present := fgets (λ s, exists_ s filepath) in
         if negb present
         then on_model (DataFrameModel.mark_as_deleted_off_disk filepath)
         else pause_analysis
       else if String.eqb (signal m) "progress"
       then singleshot_replies filepath rest
       else λ s, (Fails ValueError, s)) s fps r Hwf Ht Hr Hdata)
      as (sm & Hrun & Hwf1 & Ht1 & Hdel1 & Hst1 & _).
    rewrite Hrun, Herror. cbn [String.eqb Ascii.eqb Bool.eqb].
    unfold fbind at 1. cbn [fgets exists_ set_shots_model got_from_singleshot].
    destruct (exists_then m filepath) eqn:Hthen; cbn [negb].
    + eexists. split; [reflexivity|]. split_and!; try done.
      cbn. by rewrite Hdel1.
    + erewrite on_model_Returns;
        [|by eapply mark_as_deleted_off_disk_spec].
      eexists. split; [reflexivity|]. cbn [shots_model set_shots_model].
      rewrite Hdel1, Hdel. split_and!; try done.
      * rewrite row_deleted_update, decide_True by done.
        destruct (table_of_status_item sm fps r Ht1) as [st ->];
          [by eapply lookup_lt_Some|done].
      * rewrite row_status_update, decide_True by done.
        destruct (table_of_status_item sm fps r Ht1) as [st ->];
          [by eapply lookup_lt_Some|done].
  - apply Forall_cons in Hprogress as [Hsig Hprogress].
    rewrite <- app_comm_cons in Hdata.
    apply Forall_cons in Hdata as [Hdata0 Hdata].
    rewrite <- app_comm_cons. cbn [singleshot_replies].
    destruct (singleshot_receive filepath m0 (progress ++ m :: rest)
      (if String.eqb (signal m0) "done" then fret ()
       else if String.eqb (signal m0) "error" then
         do! present := fgets (λ s, exists_ s filepath) in
         if negb present
         then on_model (DataFrameModel.mark_as_deleted_off_disk filepath)
         else pause_analysis
       else if String.eqb (signal m0) "progress"
       then singleshot_replies filepath (progress ++ m :: rest)
       else λ s, (Fails ValueError, s)) s fps r Hwf Ht Hr Hdata0)
      as (sm & Hrun & Hwf1 & Ht1 & Hdel1 & Hst1 & _).
    rewrite Hrun, Hsig. cbn [String.eqb Ascii.eqb Bool.eqb].
    destruct (IH Hprogress Hdata
                (set_shots_model sm
                   (got_from_singleshot m0 (progress ++ m :: rest) s)))
      as (s' & Hrun' & Hrest); [done|done|by rewrite <- Hdel|].
    exists s'. split; [exact Hrun'|exact Hrest].
Qed.

End Loops.

(** C4 at the example table: [/lab/shots/1.h5] is dispatched, the worker
    reports progress and then an error.  With the file gone the shot is
    marked as deleted and analysis goes on; with the file present analysis
    is paused. *)
Lemma singleshot_error_pauses_or_marks_deleted_witness :
  (∃ s', @do_singleshot_analysis DataFrameModel.example_helpers
           "/lab/shots/1.h5"
           (box_of DataFrameModel.two_shots (λ _, true)
              [report_progress; report_error false] [])
         = (Done (), s')
     ∧ analysis_paused s' = false
     ∧ DataFrameModel.row_deleted_off_disk (shots_model s') 1 = true
     ∧ DataFrameModel.row_status (shots_model s') 1 = Some 100%Z)
  ∧ (∃ s', @do_singleshot_analysis DataFrameModel.example_helpers
             "/lab/shots/1.h5"
             (box_of DataFrameModel.two_shots (λ _, true)
                [report_progress; report_error true] [])
           = (Done (), s')
       ∧ analysis_paused s' = true
       ∧ DataFrameModel.row_deleted_off_disk (shots_model s') 1 = false).
Proof.
  destruct two_shots_table as [Hwf Ht].
  split.
  - destruct (@singleshot_error_pauses_or_marks_deleted
                DataFrameModel.example_helpers "/lab/shots/1.h5"
                [report_progress] (report_error false) []
                (box_of DataFrameModel.two_shots (λ _, true)
                   [report_progress; report_error false] [])
                ["/lab/shots/0.h5"; "/lab/shots/1.h5"] 1)
      as (s' & Hrun & _ & _ & Hp & Hdel & Hst).
    + exact Hwf.
    + exact Ht.
    + reflexivity.
    + vm_compute. reflexivity.
    + reflexivity.
    + reflexivity.
    + apply Forall_singleton. reflexivity.
    + reflexivity.
    + apply Forall_cons. split; [|apply Forall_singleton].
      * intros entry [->|[]%elem_of_nil]%elem_of_cons.
        apply example_report_leaves_filepath_column.
      * intros entry []%elem_of_nil.
    + exists s'. split_and!; [exact Hrun|exact Hp|exact Hdel|exact Hst].
  - destruct (@singleshot_error_pauses_or_marks_deleted
                DataFrameModel.example_helpers "/lab/shots/1.h5"
                [report_progress] (report_error true) []
                (box_of DataFrameModel.two_shots (λ _, true)
                   [report_progress; report_error true] [])
                ["/lab/shots/0.h5"; "/lab/shots/1.h5"] 1)
      as (s' & Hrun & _ & _ & Hp & Hdel).
    + exact Hwf.
    + exact Ht.
    + reflexivity.
    + vm_compute. reflexivity.
    + reflexivity.
    + reflexivity.
    + apply Forall_singleton. reflexivity.
    + reflexivity.
    + apply Forall_cons. split; [|apply Forall_singleton].
      * intros entry [->|[]%elem_of_nil]%elem_of_cons.
        apply example_report_leaves_filepath_column.
      * intros entry []%elem_of_nil.
    + exists s'. split_and!; [exact Hrun|exact Hp|exact Hdel].
Defined.

Import DataFrameModelFacts.

(** ** The incoming buffer loop and [analysis_paused] *)

Lemma ignores_pause_fret {A} (a : A) : ignores_pause (fret a).
Proof. done. Qed.

Lemma ignores_pause_stop {A} (r : progress A) : ignores_pause (λ s, (r, s)).
Proof. done. Qed.

Lemma ignores_pause_fmodify (f : state → state) :
  (∀ b s, f (set_analysis_paused b s) = set_analysis_paused b (f s)) →
  ignores_pause (fmodify f).
Proof. intros Hf b s. unfold fmodify. cbn. by rewrite Hf. Qed.

Lemma ignores_pause_fbind {A B} (m : F A) (k : A → F B) :
  ignores_pause m → (∀ a, ignores_pause (k a)) → ignores_pause (fbind m k).
Proof.
  intros Hm Hk b s. unfold fbind. rewrite Hm.
  destruct (m s) as [[a|e| |] s1]; cbn [fst snd]; try done. apply Hk.
Qed.

Lemma ignores_pause_on_model {A} (m : M DataFrameModel.state A) :
  ignores_pause (on_model m).
Proof.
  intros b s. unfold on_model. cbn [shots_model set_analysis_paused].
  by destruct (m (shots_model s)) as [[a|e] sm].
Qed.

Lemma ignores_pause_try_except (body : F unit) (handler : exn → F unit) :
  ignores_pause body → (∀ e, ignores_pause (handler e)) →
  ignores_pause (try_except body handler).
Proof.
  intros Hbody Hhandler b s. unfold try_except. rewrite Hbody.
  destruct (body s) as [[a|e| |] s1]; cbn [fst snd]; try done.
  destruct (is_Exception e); [apply Hhandler|done].
Qed.

Section Loops.
Context `{!Helpers}.

Lemma ignores_pause_add_batch filepaths : ignores_pause (add_batch filepaths).
Proof.
  unfold add_batch. apply ignores_pause_fbind.
  { by apply ignores_pause_fmodify. }
  intros _. destruct (read_shots 0 (remove_duplicates filepaths))
    as [[dataframes not_found]|e]; [|apply ignores_pause_stop].
  destruct (delete_indices not_found (remove_duplicates filepaths));
    [apply ignores_pause_fret|].
  apply ignores_pause_fbind; [apply ignores_pause_on_model|].
  intros _. by apply ignores_pause_fmodify.
Qed.

Lemma ignores_pause_incoming_buffer_loop_round arrived :
  ignores_pause (incoming_buffer_loop_round arrived).
Proof.
  intros b s. unfold incoming_buffer_loop_round.
  change (next_batch arrived (set_analysis_paused b s))
    with (next_batch arrived s).
  destruct (next_batch arrived s) as [[filepaths queue]|]; [|done].
  apply ignores_pause_try_except.
  - apply ignores_pause_fbind; [by apply ignores_pause_fmodify|].
    intros _. apply ignores_pause_add_batch.
  - intros e. by apply ignores_pause_fmodify.
Qed.

(** What a round of the incoming buffer loop leaves alone. *)
Lemma add_batch_frame filepaths s r s' :
  add_batch filepaths s = (r, s') →
  r ≠ Blocks ∧ r ≠ OutOfFuel
  ∧ incoming_queue s' = incoming_queue s
  ∧ to_singleshot s' = to_singleshot s
  ∧ analysis_paused s' = analysis_paused s
  ∧ logged s' = logged s ++ [Adding filepaths].
Proof.
  unfold add_batch, fbind at 1. cbn [fmodify].
  destruct (read_shots 0 (remove_duplicates filepaths))
    as [[dataframes not_found]|e]; [|by intros [= <- <-]].
  destruct (delete_indices not_found (remove_duplicates filepaths))
    as [|fp fps]; [by intros [= <- <-]|].
  unfold fbind, on_model. cbn [shots_model log_info].
  destruct (DataFrameModel.add_files (fp :: fps) _ false (shots_model s))
    as [[[]|e] sm]; by intros [= <- <-].
Qed.

Lemma drain_app queue : ∀ filepaths batch_size,
  (drain queue filepaths batch_size).1 ++ (drain queue filepaths batch_size).2
  = filepaths ++ queue.
Proof.
  induction queue as [|x queue IH]; intros filepaths batch_size;
    cbn [drain].
  - done.
  - case_decide.
    + cbn [fst snd]. by rewrite <- app_assoc.
    + rewrite IH. by rewrite <- app_assoc.
Qed.

Lemma read_shots_all_found : ∀ filepaths dataframes i,
  Forall2 (λ fp df, get_dataframe_from_shot fp = Returns df)
          filepaths dataframes →
  read_shots i filepaths = Returns (dataframes, []).
Proof.
  induction filepaths as [|fp filepaths IH]; intros dataframes i Hall.
  - by apply Forall2_nil_inv_l in Hall as ->.
  - apply Forall2_cons_inv_l in Hall as (df & dfs & Hfp & Hall & ->).
    cbn [read_shots]. rewrite Hfp, (IH dfs (S i) Hall). done.
Qed.

(** The files of a batch that can all be read are added to the table. *)
Lemma add_batch_spec batch dataframes s fps :
  DataFrameModel.integer_indexing (shots_model s) = false →
  DataFrameModel.columns_wf (shots_model s) →
  DataFrameModel.table_of (shots_model s) fps →
  batch ≠ [] →
  Forall2 (λ fp df, get_dataframe_from_shot fp = Returns df)
          (remove_duplicates batch) dataframes →
  DataFrameModel.rows_for (concat_with_padding dataframes)
    (remove_duplicates batch) →
  (∀ to_add new',
     DataFrameModel.check_duplicates
       (DataFrameModel.row_number_by_filepath (shots_model s))
       (remove_duplicates batch) [] (Some (concat_with_padding dataframes))
     = Returns (to_add, Some new') → to_add ≠ [] →
     DataFrameModel.concat_ok (shots_model s) new') →
  (∀ fp, fp ∈ batch → DataFrameModel.shown_in_full fp) →
  ∃ sm, add_batch batch s
        = (Done (), set_analysis_pending true
                      (set_shots_model sm (log_info (Adding batch) s)))
    ∧ DataFrameModel.columns_wf sm
    ∧ DataFrameModel.table_of sm
        (fps ++ filter (λ fp, fp ∉ fps) (remove_duplicates batch)).
Proof.
  intros Hflag Hwf Ht Hbatch Hread Hrows Hconcat Hfull.
  destruct (remove_duplicates_spec batch) as (Hnd & Helem & _).
  destruct (add_files_spec (remove_duplicates batch)
              (concat_with_padding dataframes) false (shots_model s) fps)
    as (sm & Hrun & Hwf' & Ht' & _); try done.
  { by apply NoDup_filter. }
  { intros fp Hfp. by apply Hfull, Helem. }
  exists sm. split; [|done].
  unfold add_batch, fbind at 1. cbn [fmodify].
  rewrite (read_shots_all_found _ _ 0 Hread). cbn [delete_indices foldr].
  destruct (remove_duplicates batch) as [|fp l] eqn:Hl.
  { destruct batch as [|x batch]; [done|].
    pose proof (proj2 (Helem x) (list_elem_of_here _ _)) as Hx.
    by apply elem_of_nil in Hx. }
  apply Forall2_cons_inv_l in Hread as (df & dfs & _ & _ & ->).
  unfold fbind, on_model. cbn [shots_model log_info].
  by rewrite Hrun.
Qed.

(** C6.  A round of the incoming buffer loop goes on in the same way
    whatever [analysis_paused] is and does not change it; with a filepath
    queued it does not wait: it takes a batch of one filepath or more off
    the front of the queue, and, when the files can be read, the table
    then holds them after the shots it held and [analysis_pending] is
    set.  The analysis loop is what reads the flag: when it is set, a
    round of the loop dispatches nothing and stops.  For the files to be
    added the table is taken consistent, [integer_indexing] off, and the
    frame made of them by [concat_with_padding] to hold one row for
    each. *)
Theorem ingestion_ignores_analysis_paused :
  (∀ arrived b s,
     incoming_buffer_loop_round arrived (set_analysis_paused b s)
     = ((incoming_buffer_loop_round arrived s).1,
        set_analysis_paused b (incoming_buffer_loop_round arrived s).2))
  ∧ (∀ arrived s, incoming_queue s ≠ [] →
       ∃ r s' batch,
         incoming_buffer_loop_round arrived s = (r, s')
         ∧ r ≠ Blocks ∧ batch ≠ []
         ∧ incoming_queue s ++ arrived = batch ++ incoming_queue s'
         ∧ Adding batch ∈ logged s')
  ∧ (∀ arrived s batch queue dataframes fps,
       next_batch arrived s = Some (batch, queue) →
       DataFrameModel.integer_indexing (shots_model s) = false →
       DataFrameModel.columns_wf (shots_model s) →
       DataFrameModel.table_of (shots_model s) fps →
       Forall2 (λ fp df, get_dataframe_from_shot fp = Returns df)
               (remove_duplicates batch) dataframes →
       DataFrameModel.rows_for (concat_with_padding dataframes)
         (remove_duplicates batch) →
       (∀ to_add new',
          DataFrameModel.check_duplicates
            (DataFrameModel.row_number_by_filepath (shots_model s))
            (remove_duplicates batch) []
            (Some (concat_with_padding dataframes))
          = Returns (to_add, Some new') → to_add ≠ [] →
          DataFrameModel.concat_ok (shots_model s) new') →
       (∀ fp, fp ∈ batch → DataFrameModel.shown_in_full fp) →
       ∃ s', incoming_buffer_loop_round arrived s = (Done (), s')
         ∧ DataFrameModel.table_of (shots_model s')
             (fps ++ filter (λ fp, fp ∉ fps) (remove_duplicates batch))
         ∧ incoming_queue s' = queue
         ∧ analysis_pending s' = true
         ∧ analysis_paused s' = analysis_paused s)
  ∧ (∀ fuel at_least_one_shot_analysed s,
       analysis_paused s = true →
       analysis_rounds (S fuel) at_least_one_shot_analysed s
       = (Done (), log_info AnalysisIsPaused s)).
Proof.
  split_and!.
  - intros arrived. apply ignores_pause_incoming_buffer_loop_round.
  - intros arrived s Hqueue. unfold incoming_buffer_loop_round.
    destruct (next_batch arrived s) as [[batch queue]|] eqn:Hnext.
    2:{ unfold next_batch in Hnext. by destruct (incoming_queue s). }
    pose proof (next_batch_length _ _ _ _ Hnext) as [Hlen _].
    assert (incoming_queue s ++ arrived = batch ++ queue) as Hsplit.
    { unfold next_batch in Hnext.
      destruct (incoming_queue s) as [|x q]; [done|].
      pose proof (drain_app (q ++ arrived) [x]
        (len (DataFrameModel.dataframe (shots_model s)) / 3 + 1)) as Happ.
      destruct (drain _ _ _) as [b q'].
      assert (b = batch ∧ q' = queue) as [-> ->]
        by (split; congruence).
      cbn [fst snd] in Happ. by rewrite Happ. }
    unfold try_except, fbind. cbn [fmodify].
    destruct (add_batch batch (set_incoming_queue queue s)) as [r s1] eqn:Hadd.
    destruct (add_batch_frame _ _ _ _ Hadd)
      as (Hblocks & Hfuel & Hq & _ & _ & Hlog).
    assert (Adding batch ∈ logged s1) as Hin.
    { rewrite Hlog. apply elem_of_app. right. apply list_elem_of_here. }
    assert (batch ≠ []) as Hne by (intros ->; simpl in Hlen; lia).
    destruct r as [[]|e| |]; [| |done|done].
    + exists (Done ()), s1, batch. rewrite Hq. done.
    + destruct (is_Exception e).
      * eexists _, _, batch. split; [reflexivity|].
        cbn. rewrite Hq. done.
      * exists (Fails e), s1, batch. rewrite Hq. done.
  - intros arrived s batch queue dataframes fps Hnext Hflag Hwf Ht Hread
      Hrows Hconcat Hfull.
    pose proof (next_batch_length _ _ _ _ Hnext) as [Hlen _].
    assert (batch ≠ []) as Hne by (intros ->; simpl in Hlen; lia).
    destruct (add_batch_spec batch dataframes (set_incoming_queue queue s) fps)
      as (sm & Hrun & _ & Ht'); try done.
    unfold incoming_buffer_loop_round. rewrite Hnext.
    unfold try_except, fbind. cbn [fmodify]. rewrite Hrun.
    eexists. split; [reflexivity|]. done.
  - intros fuel b s Hpaused. cbn [analysis_rounds].
    unfold fbind, fgets. rewrite Hpaused. done.
Qed.

End Loops.

(** C6 at the example table, with analysis paused and
    [/lab/shots/1.h5] queued: the incoming buffer loop adds the shot, and
    the analysis loop dispatches nothing. *)
Lemma ingestion_ignores_analysis_paused_witness :
  (∃ s', @incoming_buffer_loop_round DataFrameModel.example_helpers []
           (set_analysis_paused true
              (set_incoming_queue ["/lab/shots/1.h5"]
                 (box_of DataFrameModel.one_shot (λ _, true) [] [])))
         = (Done (), s')
     ∧ DataFrameModel.table_of (shots_model s')
         ["/lab/shots/0.h5"; "/lab/shots/1.h5"]
     ∧ incoming_queue s' = []
     ∧ analysis_pending s' = true
     ∧ analysis_paused s' = true)
  ∧ @analysis_rounds DataFrameModel.example_helpers 1 false
      (set_analysis_paused true
         (set_incoming_queue ["/lab/shots/1.h5"]
            (box_of DataFrameModel.one_shot (λ _, true) [] [])))
    = (Done (),
       log_info AnalysisIsPaused
         (set_analysis_paused true
            (set_incoming_queue ["/lab/shots/1.h5"]
               (box_of DataFrameModel.one_shot (λ _, true) [] [])))).
Proof.
  destruct (@ingestion_ignores_analysis_paused DataFrameModel.example_helpers)
    as (_ & _ & Hadds & Hpaused).
  split.
  - assert (["/lab/shots/0.h5"]
              ++ filter (λ fp, fp ∉ ["/lab/shots/0.h5"])
                   (remove_duplicates ["/lab/shots/1.h5"])
            = ["/lab/shots/0.h5"; "/lab/shots/1.h5"]) as Hshots
      by (vm_compute; reflexivity).
    destruct (Hadds []
                (set_analysis_paused true
                   (set_incoming_queue ["/lab/shots/1.h5"]
                      (box_of DataFrameModel.one_shot (λ _, true) [] [])))
                ["/lab/shots/1.h5"] []
                [DataFrameModel.example_shot "/lab/shots/1.h5"]
                ["/lab/shots/0.h5"])
      as (s' & Hrun & Ht & Hq & Hpending & Hp).
    9:{ exists s'. rewrite Hshots in Ht. split_and!; done. }
    + vm_compute. reflexivity.
    + reflexivity.
    + exact one_shot_wf.
    + exact one_shot_table.
    + vm_compute. constructor; [reflexivity|constructor].
    + split; vm_compute; reflexivity.
    + intros to_add new' Hcheck _. vm_compute in Hcheck.
      injection Hcheck as <- <-. split.
      * vm_compute. reflexivity.
      * vm_compute. lia.
      * vm_compute. apply list_elem_of_here.
      * vm_compute. reflexivity.
    + intros fp [->|[]%elem_of_nil]%elem_of_cons. vm_compute. reflexivity.
  - apply (Hpaused 0 false). reflexivity.
Defined.

Import DataFrameModelFacts.

(** ** Multishot analysis *)

Lemma set_shots_model_same s : set_shots_model (shots_model s) s = s.
Proof. by destruct s. Qed.

Section Loops.
Context `{!Helpers}.

Lemma get_first_incomplete_Done s filepath :
  DataFrameModel.get_first_incomplete (shots_model s) = Returns filepath →
  on_model (λ sm, (DataFrameModel.get_first_incomplete sm, sm)) s
  = (Done filepath, s).
Proof.
  intros Hfirst. unfold on_model. rewrite Hfirst.
  by rewrite set_shots_model_same.
Qed.

(** What [do_multishot_analysis] can change: [multishot_required] is
    cleared only when a 'done' message was taken. *)
Lemma multishot_replies_frame : ∀ messages s r s',
  multishot_replies messages s = (r, s') →
  to_multishot s' = to_multishot s
  ∧ logged s' = logged s
  ∧ (multishot_required s' = multishot_required s
     ∨ (multishot_required s' = false ∧ r = Done ()
        ∧ ∃ before m, messages = before ++ m :: from_multishot s'
                      ∧ signal m = "done")).
Proof.
  induction messages as [|m messages IH]; intros s r s'.
  { intros [= <- <-]. split_and!; try done. by left. }
  cbn [multishot_replies]. unfold fbind at 1. cbn [fmodify].
  set (s1 := got_from_multishot m messages s).
  unfold fbind at 1, update_rows, on_model.
  destruct (for_each _ _ (shots_model s1)) as [[[]|e] sm].
  2:{ intros [= <- <-]. split_and!; try done. by left. }
  destruct (String.eqb (signal m) "done") eqn:Hdone.
  { intros [= <- <-]. split_and!; try done. right. split_and!; try done.
    exists [], m. split; [done|]. by apply String.eqb_eq. }
  destruct (String.eqb (signal m) "error").
  { intros [= <- <-]. split_and!; try done. by left. }
  intros Hrun. apply IH in Hrun as (Hto & Hsingle & Hrequired).
  split_and!; try done. destruct Hrequired as [Heq|(Hfalse & -> & Hdone')].
  - by left.
  - right. split_and!; try done.
    destruct Hdone' as (before & m' & -> & Hsig).
    by exists (m :: before), m'.
Qed.

(** The routine reports an error: the flag is left as it is, analysis is
    paused and the table holds the same shots with the same status. *)
Lemma multishot_replies_error : ∀ before m rest s fps,
  DataFrameModel.columns_wf (shots_model s) →
  DataFrameModel.table_of (shots_model s) fps →
  Forall (λ m, signal m ≠ "done" ∧ signal m ≠ "error") before →
  signal m = "error" →
  Forall (λ m, ∀ entry, entry ∈ updated_data m →
                 DataFrameModel.leaves_filepath_column entry.2)
         (before ++ [m]) →
  ∃ s', multishot_replies (before ++ m :: rest) s = (Done (), s')
    ∧ multishot_required s' = multishot_required s
    ∧ analysis_paused s' = true
    ∧ from_multishot s' = rest
    ∧ DataFrameModel.columns_wf (shots_model s')
    ∧ DataFrameModel.table_of (shots_model s') fps
    ∧ DataFrameModel.get_first_incomplete (shots_model s')
      = DataFrameModel.get_first_incomplete (shots_model s).
Proof.
  induction before as [|m0 before IH]; intros m rest s fps Hwf Ht Hbefore
    Herror Hdata.
  - cbn [app] in Hdata. rewrite Forall_singleton in Hdata.
    cbn [app multishot_replies]. unfold fbind at 1. cbn [fmodify].
    set (s1 := got_from_multishot m rest s).
    destruct (update_rows_model (updated_data m) (shots_model s) fps
                Hwf Ht Hdata) as (sm & Hrun & Hwf' & Ht' & Hitems).
    rewrite (fbind_Done _ _ _ _ _
               (on_model_Returns _ s1 _ _ Hrun : update_rows _ s1 = _)).
    rewrite Herror. cbn [String.eqb Ascii.eqb Bool.eqb].
    eexists. split; [reflexivity|]. split_and!; try done.
    unfold DataFrameModel.get_first_incomplete.
    by apply first_incomplete_shot_items.
  - apply Forall_cons in Hbefore as [[Hnd Hne] Hbefore].
    rewrite <- app_comm_cons in Hdata.
    apply Forall_cons in Hdata as [Hdata0 Hdata].
    rewrite <- app_comm_cons. cbn [multishot_replies].
    unfold fbind at 1. cbn [fmodify].
    set (s1 := got_from_multishot m0 (before ++ m :: rest) s).
    destruct (update_rows_model (updated_data m0) (shots_model s) fps
                Hwf Ht Hdata0) as (sm & Hrun & Hwf' & Ht' & Hitems).
    rewrite (fbind_Done _ _ _ _ _
               (on_model_Returns _ s1 _ _ Hrun : update_rows _ s1 = _)).
    apply String.eqb_neq in Hnd, Hne. rewrite Hnd, Hne.
    destruct (IH m rest (set_shots_model sm s1) fps)
      as (s' & Hrun' & Hreq & Hpaused & Hfrom & Hwf'' & Ht'' & Hfirst);
      try done.
    exists s'. split_and!; try done.
    rewrite Hfirst. unfold DataFrameModel.get_first_incomplete.
    by apply first_incomplete_shot_items.
Qed.

(** C3.  When the analysis loop, not paused and having analysed a shot
    in this pass, finds no incomplete shot, it sets [multishot_required]
    and runs [do_multishot_analysis], which asks the multishot routine box
    for a run.  Whatever the routine box answers, the flag is cleared only
    when a 'done' message was taken.  When the run ends with an 'error'
    message the flag is as it was, analysis is paused and the shots are as
    they were; and when the user then resumes analysis with the flag set
    and no shot incomplete, the loop asks for a multishot run again.  For
    the run that ends with an error the table is taken consistent and the
    data reported not to name the filepath column. *)
Theorem multishot_runs_and_is_retried :
  (∀ fuel s,
     analysis_paused s = false →
     DataFrameModel.get_first_incomplete (shots_model s) = Returns None →
     (analysis_rounds (S fuel) true ;; multishot_if_required) s
     = do_multishot_analysis
         (log_info DoingMultishotAnalysis (set_multishot_required true s)))
  ∧ (∀ s r s',
       do_multishot_analysis s = (r, s') →
       to_multishot s' = S (to_multishot s)
       ∧ (multishot_required s' = multishot_required s
          ∨ (multishot_required s' = false ∧ r = Done ()
             ∧ ∃ before m, from_multishot s = before ++ m :: from_multishot s'
                           ∧ signal m = "done")))
  ∧ (∀ s fps before m rest,
       DataFrameModel.columns_wf (shots_model s) →
       DataFrameModel.table_of (shots_model s) fps →
       from_multishot s = before ++ m :: rest →
       Forall (λ m, signal m ≠ "done" ∧ signal m ≠ "error") before →
       signal m = "error" →
       Forall (λ m, ∀ entry, entry ∈ updated_data m →
                      DataFrameModel.leaves_filepath_column entry.2)
              (before ++ [m]) →
       ∃ s', do_multishot_analysis s = (Done (), s')
         ∧ multishot_required s' = multishot_required s
         ∧ analysis_paused s' = true
         ∧ DataFrameModel.get_first_incomplete (shots_model s')
           = DataFrameModel.get_first_incomplete (shots_model s))
  ∧ (∀ fuel s,
       multishot_required s = true →
       DataFrameModel.get_first_incomplete (shots_model s) = Returns None →
       ∃ r s', analysis_loop_round (S fuel) (on_analysis_running_toggled false s)
               = (r, s')
         ∧ to_multishot s' = S (to_multishot s)
         ∧ DoingMultishotAnalysis ∈ logged s').
Proof.
  split_and!.
  - intros fuel s Hpaused Hfirst. unfold fbind at 1.
    cbn [analysis_rounds]. unfold fbind at 1. cbn [fgets]. rewrite Hpaused.
    cbn [negb]. rewrite (fbind_Done _ _ _ _ _
                           (get_first_incomplete_Done s None Hfirst)).
    cbn [fmodify]. unfold multishot_if_required, fbind at 1.
    cbn [fgets multishot_required set_multishot_required].
    unfold fbind at 1. cbn [fmodify]. done.
  - intros s r s'. unfold do_multishot_analysis, fbind at 1. cbn [fmodify].
    intros (Hto & _ & Hreq)%multishot_replies_frame. split; [done|].
    done.
  - intros s fps before m rest Hwf Ht Hqueue Hbefore Herror Hdata.
    unfold do_multishot_analysis, fbind at 1. cbn [fmodify].
    change (from_multishot (put_to_multishot s)) with (from_multishot s).
    rewrite Hqueue.
    destruct (multishot_replies_error before m rest (put_to_multishot s) fps)
      as (s' & Hrun & Hreq & Hpaused & _ & _ & _ & Hfirst); try done.
    exists s'. split_and!; done.
  - intros fuel s Hrequired Hfirst.
    unfold analysis_loop_round, fbind at 1.
    cbn [fgets on_analysis_running_toggled analysis_pending
         set_analysis_pending negb].
    set (s0 := set_analysis_pending true (set_analysis_paused false s)).
    unfold try_except, analysis_try, fbind at 1. cbn [fmodify].
    set (s1 := set_analysis_pending false s0).
    assert (analysis_rounds (S fuel) false s1 = (Done (), s1)) as Hrounds.
    { cbn [analysis_rounds]. unfold fbind at 1. cbn [fgets].
      change (analysis_paused s1) with false. cbn [negb].
      by rewrite (fbind_Done _ _ _ _ _
                    (get_first_incomplete_Done s1 None Hfirst)). }
    rewrite (fbind_Done _ _ _ _ _ Hrounds).
    unfold multishot_if_required, fbind at 1. cbn [fgets].
    change (multishot_required s1) with (multishot_required s).
    rewrite Hrequired. unfold fbind at 1. cbn [fmodify].
    unfold do_multishot_analysis, fbind at 1. cbn [fmodify].
    set (s2 := put_to_multishot (log_info DoingMultishotAnalysis s1)).
    destruct (multishot_replies (from_multishot s2) s2) as [r s'] eqn:Hrun.
    destruct (multishot_replies_frame _ _ _ _ Hrun) as (Hto & Hlog & _).
    assert (DoingMultishotAnalysis ∈ logged s') as Hin.
    { rewrite Hlog. apply elem_of_app. right. apply list_elem_of_here. }
    destruct r as [[]|e| |]; try (by eexists _, _).
    destruct (is_Exception e); by eexists _, _.
Qed.

End Loops.

(** C3 at the example table, whose only shot is done: the loop asks for a
    multishot run; the routine reports an error, which leaves the flag set
    and pauses analysis; once analysis is resumed the loop asks again. *)
Lemma multishot_runs_and_is_retried_witness :
  (@analysis_rounds DataFrameModel.example_helpers 1 true ;;
   @multishot_if_required DataFrameModel.example_helpers)
    (box_of DataFrameModel.one_shot (λ _, true) [] [report_error true])
  = @do_multishot_analysis DataFrameModel.example_helpers
      (log_info DoingMultishotAnalysis
         (set_multishot_required true
            (box_of DataFrameModel.one_shot (λ _, true) []
               [report_error true])))
  ∧ (∃ s', @do_multishot_analysis DataFrameModel.example_helpers
             (set_multishot_required true
                (box_of DataFrameModel.one_shot (λ _, true) []
                   [report_error true]))
           = (Done (), s')
       ∧ multishot_required s' = true ∧ analysis_paused s' = true)
  ∧ (∃ r s', @analysis_loop_round DataFrameModel.example_helpers 1
               (on_analysis_running_toggled false
                  (set_analysis_paused true
                     (set_multishot_required true
                        (box_of DataFrameModel.one_shot (λ _, true) [] []))))
             = (r, s')
       ∧ to_multishot s' = 1).
Proof.
  destruct (@multishot_runs_and_is_retried DataFrameModel.example_helpers)
    as (Hruns & _ & Herror & Hretry).
  split_and!.
  - apply (Hruns 0). 
    + reflexivity.
    + vm_compute. reflexivity.
  - destruct (Herror
                (set_multishot_required true
                   (box_of DataFrameModel.one_shot (λ _, true) []
                      [report_error true]))
                ["/lab/shots/0.h5"] [] (report_error true) [])
      as (s' & Hrun & Hrequired & Hpaused & _).
    + exact one_shot_wf.
    + exact one_shot_table.
    + reflexivity.
    + apply Forall_nil_2.
    + reflexivity.
    + apply Forall_singleton. intros entry []%elem_of_nil.
    + exists s'. split_and!; [exact Hrun|exact Hrequired|exact Hpaused].
  - destruct (Hretry 0
                (set_analysis_paused true
                   (set_multishot_required true
                      (box_of DataFrameModel.one_shot (λ _, true) [] []))))
      as (r & s' & Hrun & Hto & _).
    + reflexivity.
    + vm_compute. reflexivity.
    + exists r, s'. split; [exact Hrun|exact Hto].
Defined.

Import DataFrameModelFacts.

(** ** What the analysis loop keeps *)

Lemma hoare_fret {A} (a : A) (Q : A → state → Prop) E :
  hoare (Q a) (fret a) Q E.
Proof. by intros s. Qed.

Lemma hoare_stop {A} (r : progress A) (P : state → Prop) Q :
  (∀ a, r ≠ Done a) → hoare P (λ s, (r, s)) Q P.
Proof. intros Hr s HP. destruct r; [by destruct (Hr a)|done..]. Qed.

Lemma hoare_fmodify (f : state → state) (P : state → Prop) Q E :
  (∀ s, P s → Q () (f s)) → hoare P (fmodify f) Q E.
Proof. intros Hf s HP. by apply Hf. Qed.

Lemma hoare_fgets {A} (f : state → A) (P : state → Prop) Q E :
  (∀ s, P s → Q (f s) s) → hoare P (fgets f) Q E.
Proof. intros Hf s HP. by apply Hf. Qed.

Lemma hoare_fbind {A B} (m : F A) (k : A → F B) P Q R E :
  hoare P m Q E → (∀ a, hoare (Q a) (k a) R E) → hoare P (fbind m k) R E.
Proof.
  intros Hm Hk s HP. specialize (Hm s HP). unfold fbind.
  destruct (m s) as [[a|e| |] s1]; try done. by apply Hk.
Qed.

Lemma hoare_on_model {A} (m : M DataFrameModel.state A) (P : state → Prop) Q E :
  (∀ s, P s → match m (shots_model s) with
              | (Returns a, sm) => Q a (set_shots_model sm s)
              | (Raises e, sm) => E (set_shots_model sm s)
              end) →
  hoare P (on_model m) Q E.
Proof.
  intros Hm s HP. specialize (Hm s HP). unfold on_model.
  by destruct (m (shots_model s)) as [[a|e] sm].
Qed.

Lemma hoare_try_except (body : F unit) (handler : exn → F unit) P Q E :
  hoare P body Q E → (∀ e, hoare E (handler e) Q E) →
  hoare P (try_except body handler) Q E.
Proof.
  intros Hbody Hhandler s HP. specialize (Hbody s HP). unfold try_except.
  destruct (body s) as [[a|e| |] s1]; try done.
  destruct (is_Exception e); [by apply Hhandler|done].
Qed.

Lemma hoare_pre {A} (P P' : state → Prop) (m : F A) Q E :
  (∀ s, P' s → P s) → hoare P m Q E → hoare P' m Q E.
Proof. intros HP Hm s HP'. by apply Hm, HP. Qed.

Section Keeps.
Context `{!Helpers}.
Variables (fps : list string) (i : nat) (base : list string).

Local Abbreviation waits := (done_shot_waits fps i base).
Local Abbreviation keeps m := (hoare waits m (λ _, waits) waits).

Lemma keeps_fbind {A B} (m : F A) (k : A → F B) :
  hoare waits m (λ _, waits) waits →
  (∀ a, hoare waits (k a) (λ _, waits) waits) →
  hoare waits (fbind m k) (λ _, waits) waits.
Proof. apply hoare_fbind. Qed.

Lemma keeps_fret {A} (a : A) : hoare waits (fret a) (λ _, waits) waits.
Proof. by intros s. Qed.

(** A step that leaves the table and the queues alone. *)
Lemma keeps_control (f : state → state) :
  (∀ s, shots_model (f s) = shots_model s) →
  (∀ s, to_singleshot (f s) = to_singleshot s) →
  (∀ s, from_singleshot (f s) = from_singleshot s) →
  (∀ s, from_multishot (f s) = from_multishot s) →
  keeps (fmodify f).
Proof.
  intros Hm Hto Hs Hmu. apply hoare_fmodify. intros s [].
  split; by rewrite ?Hm, ?Hto, ?Hs, ?Hmu.
Qed.

Lemma keeps_model (sm : DataFrameModel.state) s :
  waits s →
  DataFrameModel.columns_wf sm → DataFrameModel.table_of sm fps →
  DataFrameModel.row_status sm i = Some 100%Z →
  waits (set_shots_model sm s).
Proof. intros [] Hwf Ht Hst. by split. Qed.

Lemma keeps_update_rows m :
  reports_results m → keeps (update_rows (updated_data m)).
Proof.
  intros Hm. apply hoare_on_model. intros s Hs.
  destruct (update_rows_model (updated_data m) (shots_model s) fps)
    as (sm & -> & Hwf & Ht & Hitems);
    [apply Hs|apply Hs|done|].
  apply keeps_model; try done.
  rewrite (proj1 (row_status_shot_items _ _ i Hitems)). apply Hs.
Qed.

Lemma keeps_set_status_percent filepath p r :
  fps !! r = Some filepath → r ≠ i →
  keeps (on_model (DataFrameModel.set_status_percent filepath p)).
Proof.
  intros Hr Hne. apply hoare_on_model. intros s Hs.
  rewrite (set_status_percent_spec filepath p _ fps r (dw_table _ _ _ _ Hs) Hr).
  apply keeps_model; [done| | |].
  - apply update_status_wf, Hs.
  - apply update_status_table, Hs.
  - rewrite row_status_update, decide_False by done. apply Hs.
Qed.

Lemma keeps_mark_as_deleted_off_disk filepath r :
  fps !! r = Some filepath → r ≠ i →
  keeps (on_model (DataFrameModel.mark_as_deleted_off_disk filepath)).
Proof.
  intros Hr Hne. apply hoare_on_model. intros s Hs.
  rewrite (mark_as_deleted_off_disk_spec filepath _ fps r
             (dw_table _ _ _ _ Hs) Hr).
  destruct (DataFrameModel.row_deleted_off_disk (shots_model s) r).
  - rewrite set_shots_model_same. done.
  - apply keeps_model; [done| | |].
    + apply update_status_wf, Hs.
    + apply update_status_table, Hs.
    + rewrite row_status_update, decide_False by done. apply Hs.
Qed.

Lemma keeps_pause_analysis : keeps pause_analysis.
Proof. by apply keeps_control. Qed.

Lemma keeps_singleshot_replies filepath r : ∀ messages,
  fps !! r = Some filepath → r ≠ i →
  Forall reports_results messages →
  keeps (singleshot_replies filepath messages).
Proof.
  intros messages Hr Hne.
  induction messages as [|m messages IH]; intros Hmessages.
  { by apply hoare_stop. }
  apply Forall_cons in Hmessages as [Hm Hmessages].
  cbn [singleshot_replies]. apply keeps_fbind.
  { apply hoare_fmodify. intros s []. by split. }
  intros _. apply keeps_fbind; [by apply keeps_update_rows|].
  intros _. apply keeps_fbind.
  { destruct (status_percent m);
      [by eapply keeps_set_status_percent|apply keeps_fret]. }
  intros _. destruct (String.eqb (signal m) "done"); [apply keeps_fret|].
  destruct (String.eqb (signal m) "error").
  { apply keeps_fbind; [by apply hoare_fgets|].
    intros present. simpl. destruct (negb present).
    - by eapply keeps_mark_as_deleted_off_disk.
    - apply keeps_pause_analysis. }
  destruct (String.eqb (signal m) "progress"); [by apply IH|].
  by apply hoare_stop.
Qed.

Lemma keeps_do_singleshot_analysis filepath r :
  fps !! r = Some filepath → r ≠ i → keeps (do_singleshot_analysis filepath).
Proof.
  intros Hr Hne. unfold do_singleshot_analysis.
  apply keeps_fbind; [by apply hoare_fgets|].
  intros present. destruct (negb present).
  { by eapply keeps_mark_as_deleted_off_disk. }
  apply keeps_fbind.
  - apply hoare_fmodify. intros s Hs.
    destruct (dw_sent _ _ _ _ Hs) as (sent & Hsent & Hnot).
    destruct Hs. split; try done.
    exists (sent ++ [filepath]). split.
    + cbn. by rewrite Hsent, <- app_assoc.
    + intros fp Hfp. rewrite elem_of_app, list_elem_of_singleton.
      intros [Hin| ->]; [by apply (Hnot fp)|].
      apply Hne. eapply NoDup_lookup; [|exact Hr|exact Hfp].
      by eapply table_of_NoDup.
  - intros _ s Hs.
    apply (keeps_singleshot_replies filepath r (from_singleshot s) Hr Hne
             (dw_singleshot _ _ _ _ Hs) s Hs).
Qed.

Lemma keeps_multishot_replies : ∀ messages,
  Forall reports_results messages → keeps (multishot_replies messages).
Proof.
  induction messages as [|m messages IH]; intros Hmessages.
  { by apply hoare_stop. }
  apply Forall_cons in Hmessages as [Hm Hmessages].
  cbn [multishot_replies]. apply keeps_fbind.
  { apply hoare_fmodify. intros s []. by split. }
  intros _. apply keeps_fbind; [by apply keeps_update_rows|].
  intros _. destruct (String.eqb (signal m) "done").
  { by apply keeps_control. }
  destruct (String.eqb (signal m) "error");
    [apply keeps_pause_analysis|by apply IH].
Qed.

Lemma keeps_do_multishot_analysis : keeps do_multishot_analysis.
Proof.
  unfold do_multishot_analysis. apply keeps_fbind.
  { by apply keeps_control. }
  intros _ s Hs.
  apply (keeps_multishot_replies (from_multishot s)
           (dw_multishot _ _ _ _ Hs) s Hs).
Qed.

Lemma keeps_multishot_if_required : keeps multishot_if_required.
Proof.
  unfold multishot_if_required.
  apply keeps_fbind; [by apply hoare_fgets|].
  intros []; [|apply keeps_fret].
  apply keeps_fbind; [by apply keeps_control|].
  intros _. apply keeps_do_multishot_analysis.
Qed.

Lemma keeps_analysis_rounds : ∀ fuel at_least_one_shot_analysed,
  keeps (analysis_rounds fuel at_least_one_shot_analysed).
Proof.
  induction fuel as [|fuel IH]; intros b.
  { by apply hoare_stop. }
  cbn [analysis_rounds]. apply keeps_fbind; [by apply hoare_fgets|].
  intros paused. destruct (negb paused); [|by apply keeps_control].
  apply (hoare_fbind _ _ waits
           (λ o s, waits s
                   ∧ match o with
                     | Some filepath => ∃ r, fps !! r = Some filepath ∧ r ≠ i
                     | None => True
                     end)).
  - apply hoare_on_model. intros s Hs.
    destruct (first_incomplete_cases _ _ (dw_table _ _ _ _ Hs))
      as [[-> _]|(r & fp & -> & Hr & Hne & _)];
      rewrite set_shots_model_same; split; try done.
    exists r. split; [done|]. intros ->.
    by rewrite (dw_status _ _ _ _ Hs) in Hne.
  - intros [filepath|].
    + intros s (Hs & r & Hr & Hne). revert s Hs.
      apply keeps_fbind; [by apply keeps_control|].
      intros _. apply keeps_fbind;
        [by eapply keeps_do_singleshot_analysis|].
      intros _. apply keeps_fbind; [apply keeps_multishot_if_required|].
      intros _. apply IH.
    + intros s [Hs _]. revert s Hs.
      destruct b; [by apply keeps_control|apply keeps_fret].
Qed.

Lemma keeps_analysis_loop_round fuel : keeps (analysis_loop_round fuel).
Proof.
  unfold analysis_loop_round. apply keeps_fbind; [by apply hoare_fgets|].
  intros pending. destruct (negb pending); [by apply hoare_stop|].
  apply hoare_try_except.
  - unfold analysis_try. apply keeps_fbind; [by apply keeps_control|].
    intros _. apply keeps_fbind; [apply keeps_analysis_rounds|].
    intros _. apply keeps_multishot_if_required.
  - intros e. apply keeps_fbind; [by apply keeps_control|].
    intros _. apply keeps_pause_analysis.
Qed.

End Keeps.

Section Loops.
Context `{!Helpers}.

(** A shot at 100 percent is left at 100 percent by a pass of the
    analysis loop, and is not dispatched. *)
Lemma done_shot_not_dispatched fuel s fps i r s' :
  DataFrameModel.columns_wf (shots_model s) →
  DataFrameModel.table_of (shots_model s) fps →
  DataFrameModel.row_status (shots_model s) i = Some 100%Z →
  Forall reports_results (from_singleshot s) →
  Forall reports_results (from_multishot s) →
  analysis_loop_round fuel s = (r, s') →
  DataFrameModel.row_status (shots_model s') i = Some 100%Z
  ∧ ∃ sent, to_singleshot s' = to_singleshot s ++ sent
            ∧ ∀ fp, fps !! i = Some fp → fp ∉ sent.
Proof.
  intros Hwf Ht Hst Hsingle Hmulti Hrun.
  assert (done_shot_waits fps i (to_singleshot s) s) as Hs.
  { split; try done. exists []. split; [by rewrite app_nil_r|].
    intros fp _. apply not_elem_of_nil. }
  pose proof (keeps_analysis_loop_round fps i (to_singleshot s) fuel s Hs)
    as Hkeeps.
  rewrite Hrun in Hkeeps.
  assert (done_shot_waits fps i (to_singleshot s) s') as Hs'
    by (by destruct r).
  split; [apply Hs'|apply Hs'].
Qed.

(** C1, as amended.  On a consistent table [get_first_incomplete]
    returns the first shot in row order whose status percent is not 100,
    and [None] when there is none.  A round of the analysis loop that is
    not paused puts that shot on [to_singleshot] when its file exists, and
    when it does not marks it as deleted off disk, at 100 percent, without
    dispatching it.  A shot at 100 percent is left at 100 percent by a
    pass of the analysis loop and is not among the filepaths the pass puts
    on [to_singleshot].  [mark_selection_not_done] sets the status percent
    of a selected row to 0, unless the row is marked as deleted off disk
    and its file is still missing, when the row is left as it is; the rows
    not selected are left alone. *)
Theorem singleshot_analysis_runs_once_per_file :
  (∀ sm fps,
     DataFrameModel.table_of sm fps →
     (DataFrameModel.get_first_incomplete sm = Returns None
      ∧ ∀ i, i < length fps →
             DataFrameModel.row_status sm i = Some 100%Z)
     ∨ (∃ i fp, DataFrameModel.get_first_incomplete sm = Returns (Some fp)
          ∧ fps !! i = Some fp
          ∧ DataFrameModel.row_status sm i ≠ Some 100%Z
          ∧ ∀ j, j < i → DataFrameModel.row_status sm j = Some 100%Z))
  ∧ (∀ fuel at_least_one_shot_analysed s fp,
       analysis_paused s = false →
       DataFrameModel.get_first_incomplete (shots_model s)
       = Returns (Some fp) →
       exists_ s fp = true →
       analysis_rounds (S fuel) at_least_one_shot_analysed s
       = (singleshot_replies fp (from_singleshot s) ;;
          multishot_if_required ;;
          analysis_rounds fuel true)
           (put_to_singleshot fp (log_info (Analysing fp) s)))
  ∧ (∀ fuel at_least_one_shot_analysed s fps r fp,
       DataFrameModel.table_of (shots_model s) fps →
       fps !! r = Some fp →
       analysis_paused s = false →
       DataFrameModel.get_first_incomplete (shots_model s)
       = Returns (Some fp) →
       exists_ s fp = false →
       DataFrameModel.row_deleted_off_disk (shots_model s) r = false →
       ∃ s1, analysis_rounds (S fuel) at_least_one_shot_analysed s
             = (multishot_if_required ;; analysis_rounds fuel true) s1
         ∧ to_singleshot s1 = to_singleshot s
         ∧ DataFrameModel.row_status (shots_model s1) r = Some 100%Z
         ∧ DataFrameModel.row_deleted_off_disk (shots_model s1) r = true)
  ∧ (∀ fuel s fps i r s',
       DataFrameModel.columns_wf (shots_model s) →
       DataFrameModel.table_of (shots_model s) fps →
       DataFrameModel.row_status (shots_model s) i = Some 100%Z →
       Forall reports_results (from_singleshot s) →
       Forall reports_results (from_multishot s) →
       analysis_loop_round fuel s = (r, s') →
       DataFrameModel.row_status (shots_model s') i = Some 100%Z
       ∧ ∃ sent, to_singleshot s' = to_singleshot s ++ sent
                 ∧ ∀ fp, fps !! i = Some fp → fp ∉ sent)
  ∧ (∀ (selected : gset nat) s fps,
       DataFrameModel.table_of (shots_model s) fps →
       (∀ r, r ∈ selected → r < length fps) →
       ∃ s', on_mark_selection_not_done_clicked selected s = (Done (), s')
         ∧ analysis_pending s' = true
         ∧ ∀ r fp, fps !! r = Some fp →
             DataFrameModel.row_status (shots_model s') r
             = if decide (r ∈ selected)
               then if DataFrameModel.row_deleted_off_disk (shots_model s) r
                       && negb (exists_ s fp)
                    then DataFrameModel.row_status (shots_model s) r
                    else Some 0%Z
               else DataFrameModel.row_status (shots_model s) r).
Proof.
  split_and!.
  - intros sm fps. apply first_incomplete_cases.
  - intros fuel b s fp Hpaused Hfirst Hexists. cbn [analysis_rounds].
    unfold fbind at 1. cbn [fgets]. rewrite Hpaused. cbn [negb].
    rewrite (fbind_Done _ _ _ _ _ (get_first_incomplete_Done s _ Hfirst)).
    unfold fbind at 1. cbn [fmodify].
    unfold do_singleshot_analysis, fbind at 1.
    unfold fbind at 1. cbn [fgets exists_ log_info]. rewrite Hexists.
    cbn [negb]. unfold fbind at 1. cbn [fmodify]. reflexivity.
  - intros fuel b s fps r fp Ht Hr Hpaused Hfirst Hexists Hdel.
    cbn [analysis_rounds].
    unfold fbind at 1. cbn [fgets]. rewrite Hpaused. cbn [negb].
    rewrite (fbind_Done _ _ _ _ _ (get_first_incomplete_Done s _ Hfirst)).
    unfold fbind at 1. cbn [fmodify].
    unfold do_singleshot_analysis, fbind at 1.
    unfold fbind at 1. cbn [fgets exists_ log_info]. rewrite Hexists.
    cbn [negb]. unfold on_model. cbn [shots_model log_info].
    rewrite (mark_as_deleted_off_disk_spec fp _ fps r Ht Hr), Hdel.
    eexists. split; [reflexivity|]. cbn [shots_model set_shots_model].
    split_and!.
    + done.
    + rewrite row_status_update, decide_True by done.
      destruct (table_of_status_item _ fps r Ht) as [st ->];
        [by eapply lookup_lt_Some|done].
    + rewrite row_deleted_update, decide_True by done.
      destruct (table_of_status_item _ fps r Ht) as [st ->];
        [by eapply lookup_lt_Some|done].
  - intros fuel s fps i r s'. apply done_shot_not_dispatched.
  - intros selected s fps Ht Hsel.
    destruct (mark_selection_not_done_spec (exists_ s) selected
                (shots_model s) fps Ht Hsel) as (sm & Hrun & _ & _ & Hrows).
    unfold on_mark_selection_not_done_clicked, fbind at 1. cbn [fgets].
    rewrite (fbind_Done _ _ _ _ _ (on_model_Returns _ s _ _ Hrun)).
    eexists. split; [reflexivity|]. split; [done|].
    intros r fp Hfp. apply (Hrows r fp Hfp).
Qed.

End Loops.

(** C1 at the example table, where [/lab/shots/0.h5] is done and
    [/lab/shots/1.h5] waits: the loop dispatches the second shot; a pass
    of the loop leaves the first at 100 percent and does not dispatch it;
    marked not done, the first shot is at 0 percent. *)
Lemma singleshot_analysis_runs_once_per_file_witness :
  @analysis_rounds DataFrameModel.example_helpers 1 false
    (box_of DataFrameModel.two_shots (λ _, true) [report_done] [])
  = (@singleshot_replies DataFrameModel.example_helpers "/lab/shots/1.h5"
       [report_done] ;;
     @multishot_if_required DataFrameModel.example_helpers ;;
     @analysis_rounds DataFrameModel.example_helpers 0 true)
      (put_to_singleshot "/lab/shots/1.h5"
         (log_info (Analysing "/lab/shots/1.h5")
            (box_of DataFrameModel.two_shots (λ _, true) [report_done] [])))
  ∧ (DataFrameModel.row_status
       (shots_model
          (@analysis_loop_round DataFrameModel.example_helpers 3
             (box_of DataFrameModel.two_shots (λ _, true) [report_done] [])).2)
       0 = Some 100%Z
     ∧ ∃ sent,
         to_singleshot
           (@analysis_loop_round DataFrameModel.example_helpers 3
              (box_of DataFrameModel.two_shots (λ _, true) [report_done] [])).2
         = [] ++ sent
         ∧ "/lab/shots/0.h5" ∉ sent)
  ∧ (∃ s', on_mark_selection_not_done_clicked {[0]}
             (box_of DataFrameModel.one_shot (λ _, true) [] [])
           = (Done (), s')
       ∧ DataFrameModel.row_status (shots_model s') 0 = Some 0%Z).
Proof.
  destruct (@singleshot_analysis_runs_once_per_file
              DataFrameModel.example_helpers)
    as (_ & Hdispatch & _ & Hdone & Hmark).
  destruct two_shots_table as [Hwf Ht].
  split_and!.
  - apply (Hdispatch 0 false).
    + reflexivity.
    + vm_compute. reflexivity.
    + reflexivity.
  - apply (Hdone 3 (box_of DataFrameModel.two_shots (λ _, true)
                      [report_done] [])
             ["/lab/shots/0.h5"; "/lab/shots/1.h5"] 0
             (@analysis_loop_round DataFrameModel.example_helpers 3
                (box_of DataFrameModel.two_shots (λ _, true)
                   [report_done] [])).1).
    + exact Hwf.
    + exact Ht.
    + vm_compute. reflexivity.
    + apply Forall_singleton. intros entry []%elem_of_nil.
    + apply Forall_nil_2.
    + apply surjective_pairing.
  - destruct (Hdone 3 (box_of DataFrameModel.two_shots (λ _, true)
                         [report_done] [])
                ["/lab/shots/0.h5"; "/lab/shots/1.h5"] 0
                (@analysis_loop_round DataFrameModel.example_helpers 3
                   (box_of DataFrameModel.two_shots (λ _, true)
                      [report_done] [])).1
                (@analysis_loop_round DataFrameModel.example_helpers 3
                   (box_of DataFrameModel.two_shots (λ _, true)
                      [report_done] [])).2)
      as (_ & sent & Hsent & Hnot).
    + exact Hwf.
    + exact Ht.
    + vm_compute. reflexivity.
    + apply Forall_singleton. intros entry []%elem_of_nil.
    + apply Forall_nil_2.
    + apply surjective_pairing.
    + exists sent. split; [exact Hsent|]. apply Hnot. reflexivity.
  - destruct (Hmark {[0]} (box_of DataFrameModel.one_shot (λ _, true) [] [])
                ["/lab/shots/0.h5"] one_shot_table)
      as (s' & Hrun & _ & Hrows).
    + intros r ->%elem_of_singleton. simpl. lia.
    + exists s'. split; [exact Hrun|].
      rewrite (Hrows 0 "/lab/shots/0.h5" eq_refl). vm_compute. reflexivity.
Defined.

(** C1 as stated fails: marking a shot not done does not always reset
    it.  The shot [/lab/shots/1.h5] waits at 0 percent and its file is
    missing: a pass of the analysis loop marks it as deleted off disk, at
    100 percent; the user then marks it not done, and it is still at 100
    percent. *)
Lemma mark_not_done_leaves_deleted_shot_done :
  DataFrameModel.row_status DataFrameModel.two_shots 1 = Some 0%Z
  ∧ DataFrameModel.row_status
      (shots_model
         (@analysis_loop_round DataFrameModel.example_helpers 2
            (box_of DataFrameModel.two_shots (λ _, false) [] [])).2)
      1 = Some 100%Z
  ∧ DataFrameModel.row_status
      (shots_model
         (on_mark_selection_not_done_clicked {[1]}
            (@analysis_loop_round DataFrameModel.example_helpers 2
               (box_of DataFrameModel.two_shots (λ _, false) [] [])).2).2)
      1 = Some 100%Z.
Proof. split_and!; vm_compute; reflexivity. Qed.

(** ** The batch taken from the queue *)

Lemma drain_full queue : ∀ filepaths batch_size,
  (drain queue filepaths batch_size).2 ≠ [] →
  batch_size ≤ length (drain queue filepaths batch_size).1.
Proof.
  induction queue as [|x queue IH]; intros filepaths batch_size;
    cbn [drain]; [done|].
  case_decide as Hfull; [done|]. apply IH.
Qed.

(** X7. A batch of the incoming buffer loop is a prefix of the queue (as
    filled meanwhile) and the rest stays queued in order: no filepath is
    lost or reordered.  It holds at least one filepath and at most
    [batch_size] of them, or two when [batch_size] is 1; and filepaths stay
    queued only behind a batch of [batch_size] or more. *)
Theorem next_batch_is_a_prefix arrived s batch queue :
  next_batch arrived s = Some (batch, queue) →
  batch ++ queue = incoming_queue s ++ arrived
  ∧ 1 ≤ length batch
  ∧ length batch
      ≤ (len (DataFrameModel.dataframe (shots_model s)) / 3 + 1) `max` 2
  ∧ (queue ≠ [] →
     len (DataFrameModel.dataframe (shots_model s)) / 3 + 1 ≤ length batch).
Proof.
  unfold next_batch. destruct (incoming_queue s) as [|x q]; [done|].
  set (batch_size := len (DataFrameModel.dataframe (shots_model s)) / 3 + 1).
  intros Hd.
  pose proof (drain_length (q ++ arrived) [x] batch_size) as Hlen.
  pose proof (drain_app (q ++ arrived) [x] batch_size) as Happ.
  pose proof (drain_full (q ++ arrived) [x] batch_size) as Hfull.
  destruct (drain _ _ _) as [b q']. injection Hd as -> ->.
  cbn [fst snd length] in *. split_and!; [done|lia|lia|done].
Qed.

(** With one shot in the table [batch_size] is 1: of two filepaths
    queued and a third that arrives meanwhile, the batch takes two. *)
Lemma next_batch_is_a_prefix_witness :
  next_batch ["/lab/shots/3.h5"]
    (set_incoming_queue ["/lab/shots/1.h5"; "/lab/shots/2.h5"]
       (box_of DataFrameModel.one_shot (λ _, true) [] []))
  = Some (["/lab/shots/1.h5"; "/lab/shots/2.h5"], ["/lab/shots/3.h5"])
  ∧ ["/lab/shots/1.h5"; "/lab/shots/2.h5"] ++ ["/lab/shots/3.h5"]
    = incoming_queue
        (set_incoming_queue ["/lab/shots/1.h5"; "/lab/shots/2.h5"]
           (box_of DataFrameModel.one_shot (λ _, true) [] []))
      ++ ["/lab/shots/3.h5"].
Proof.
  split; [reflexivity|].
  apply (next_batch_is_a_prefix ["/lab/shots/3.h5"]
           (set_incoming_queue ["/lab/shots/1.h5"; "/lab/shots/2.h5"]
              (box_of DataFrameModel.one_shot (λ _, true) [] []))
           ["/lab/shots/1.h5"; "/lab/shots/2.h5"] ["/lab/shots/3.h5"]).
  reflexivity.
Defined.

(** ** Shot files that cannot be read *)

Lemma delete_indices_cons x (l : list string) (js : list nat) :
  delete_indices (S <$> js) (x :: l) = x :: delete_indices js l.
Proof.
  unfold delete_indices. induction js as [|j js IH]; [done|].
  cbn [fmap list_fmap foldr]. fold (fmap S js). by rewrite IH.
Qed.

Section Loops.
Context `{!Helpers}.

Lemma read_shots_kept : ∀ filepaths i dataframes indices,
  read_shots i filepaths = Returns (dataframes, indices) →
  Forall (λ x, i ≤ x) indices
  ∧ delete_indices ((λ x, x - i) <$> indices) filepaths
    = filter (λ fp, not_found fp = false) filepaths
  ∧ Forall2 (λ fp df, get_dataframe_from_shot fp = Returns df)
            (filter (λ fp, not_found fp = false) filepaths) dataframes.
Proof.
  induction filepaths as [|fp filepaths IH]; intros i dataframes indices.
  { intros [= <- <-]. by split_and!. }
  cbn [read_shots]. rewrite filter_cons.
  destruct (get_dataframe_from_shot fp) as [df|e] eqn:Hfp.
  - assert (not_found fp = false) as Hfound.
    { unfold not_found. by rewrite Hfp. }
    destruct (read_shots (S i) filepaths) as [[dfs nf]|e] eqn:Hrest; [|done].
    intros [= <- <-]. destruct (IH _ _ _ Hrest) as (Hge & Hkept & Hall).
    rewrite decide_True by done. split_and!.
    + eapply Forall_impl; [exact Hge|]. intros x Hx. simpl in Hx. lia.
    + rewrite <- Hkept, <- delete_indices_cons. f_equal.
      rewrite <- list_fmap_compose. apply Forall_fmap_ext.
      eapply Forall_impl; [exact Hge|]. intros x Hx. simpl in *. lia.
    + by constructor.
  - destruct e; try done.
    assert (not_found fp = true) as Hfound.
    { unfold not_found. by rewrite Hfp. }
    destruct (read_shots (S i) filepaths) as [[dfs nf]|e] eqn:Hrest; [|done].
    intros [= <- <-]. destruct (IH _ _ _ Hrest) as (Hge & Hkept & Hall).
    rewrite decide_False by (by rewrite Hfound). split_and!.
    + constructor; [done|].
      eapply Forall_impl; [exact Hge|]. intros x Hx. simpl in Hx. lia.
    + rewrite <- Hkept. cbn [fmap list_fmap]. rewrite Nat.sub_diag.
      fold (fmap (λ x, x - i) nf).
      replace ((λ x, x - i) <$> nf) with (S <$> ((λ x, x - S i) <$> nf)).
      * unfold delete_indices at 1. cbn [foldr].
        fold (delete_indices (S <$> ((λ x, x - S i) <$> nf)) (fp :: filepaths)).
        by rewrite delete_indices_cons.
      * rewrite <- list_fmap_compose. apply Forall_fmap_ext.
        eapply Forall_impl; [exact Hge|]. intros x Hx. simpl in *. lia.
    + done.
Qed.

Lemma read_shots_total : ∀ filepaths i,
  (∀ fp e, fp ∈ filepaths → get_dataframe_from_shot fp = Raises e →
           e = IOError) →
  ∃ dataframes indices, read_shots i filepaths = Returns (dataframes, indices).
Proof.
  induction filepaths as [|fp filepaths IH]; intros i Hio; [by eexists _, _|].
  cbn [read_shots].
  destruct (IH (S i)) as (dfs & nf & ->).
  { intros fp' e Hin. apply Hio. by right. }
  destruct (get_dataframe_from_shot fp) as [df|e] eqn:Hfp; [by eexists _, _|].
  rewrite (Hio fp e) by (done || by left). by eexists _, _.
Qed.

(** X8. When every shot file of a batch can be read or raises [IOError],
    lines 906-929 return; the filepaths left after the deletions are
    exactly those whose file did not raise [IOError], in their order, and
    the frames read are theirs, one for one in the same order. *)
Theorem unreadable_files_are_left_out filepaths :
  (∀ fp e, fp ∈ filepaths → get_dataframe_from_shot fp = Raises e →
           e = IOError) →
  ∃ dataframes indices,
    read_shots 0 filepaths = Returns (dataframes, indices)
    ∧ delete_indices indices filepaths
      = filter (λ fp, not_found fp = false) filepaths
    ∧ Forall2 (λ fp df, get_dataframe_from_shot fp = Returns df)
              (delete_indices indices filepaths) dataframes.
Proof.
  intros Hio. destruct (read_shots_total filepaths 0 Hio) as (dfs & nf & Hrun).
  exists dfs, nf. split; [done|].
  destruct (read_shots_kept _ _ _ _ Hrun) as (_ & Hkept & Hall).
  assert ((λ x, x - 0) <$> nf = nf) as Hnf.
  { rewrite <- (list_fmap_id nf) at 2. apply list_fmap_ext.
    intros _ x _. simpl. lia. }
  rewrite Hnf in Hkept. by rewrite Hkept.
Qed.

End Loops.

(** Of three files the second one is not under [/lab/shots/] and is
    not found. *)
Lemma unreadable_files_are_left_out_witness :
  ∃ dataframes indices,
    @read_shots DataFrameModel.example_helpers 0
      ["/lab/shots/1.h5"; "/tmp/2.h5"; "/lab/shots/3.h5"]
    = Returns (dataframes, indices)
    ∧ delete_indices indices
        ["/lab/shots/1.h5"; "/tmp/2.h5"; "/lab/shots/3.h5"]
      = ["/lab/shots/1.h5"; "/lab/shots/3.h5"].
Proof.
  destruct (@unreadable_files_are_left_out DataFrameModel.example_helpers
              ["/lab/shots/1.h5"; "/tmp/2.h5"; "/lab/shots/3.h5"])
    as (dfs & nf & Hrun & Hkept & _).
  - intros fp e Hin. unfold get_dataframe_from_shot. simpl.
    unfold DataFrameModel.example_get_dataframe_from_shot.
    destruct (String.prefix "/lab/shots/" fp); [done|]. by intros [= <-].
  - exists dfs, nf. split; [exact Hrun|]. rewrite Hkept. reflexivity.
Defined.

Section Loops.
Context `{!Helpers}.

Lemma read_shots_raises : ∀ filepaths i fp e,
  fp ∈ filepaths → get_dataframe_from_shot fp = Raises e → e ≠ IOError →
  ∃ e', read_shots i filepaths = Raises e' ∧ e' ≠ IOError
        ∧ ∃ fp', fp' ∈ filepaths ∧ get_dataframe_from_shot fp' = Raises e'.
Proof.
  induction filepaths as [|fp0 filepaths IH]; intros i fp e Hin Hfp Hne.
  { by apply elem_of_nil in Hin. }
  cbn [read_shots]. apply elem_of_cons in Hin as [->|Hin].
  { rewrite Hfp. exists e. split_and!; [by destruct e|done|].
    exists fp0. split; [by left|done]. }
  destruct (IH (S i) fp e Hin Hfp Hne) as (e' & -> & Hne' & fp' & Hin' & Hfp').
  destruct (get_dataframe_from_shot fp0) as [df|e0] eqn:Hfp0.
  - exists e'. split_and!; [done|done|]. exists fp'. split; [by right|done].
  - destruct e0;
      try (eexists; split_and!; [reflexivity|discriminate|];
           exists fp0; split; [by left|done]).
    exists e'. split_and!; [done|done|]. exists fp'. split; [by right|done].
Qed.

(** X9. When reading a shot file of the batch raises an exception other
    than [IOError], the round of the incoming buffer loop completes with
    that exception raised in a thread of its own, and the whole batch is
    lost: the table is as it was, so the readable files of the batch are not
    added either, the filepaths of the batch are no longer queued, and
    [analysis_pending] is not set. *)
Theorem read_error_loses_the_batch arrived s batch queue fp e :
  next_batch arrived s = Some (batch, queue) →
  fp ∈ batch → get_dataframe_from_shot fp = Raises e → e ≠ IOError →
  (∀ fp e, fp ∈ batch → get_dataframe_from_shot fp = Raises e →
           is_Exception e = true) →
  ∃ e' s', incoming_buffer_loop_round arrived s = (Done (), s')
    ∧ raised_in_thread s' = raised_in_thread s ++ [e'] ∧ e' ≠ IOError
    ∧ shots_model s' = shots_model s
    ∧ incoming_queue s' = queue
    ∧ analysis_pending s' = analysis_pending s.
Proof.
  intros Hbatch Hin Hfp Hne Hexc.
  destruct (remove_duplicates_spec batch) as (_ & Hsame & _).
  destruct (read_shots_raises (remove_duplicates batch) 0 fp e)
    as (e' & Hread & Hne' & fp' & Hin' & Hfp'); [by apply Hsame|done|done|].
  exists e'. unfold incoming_buffer_loop_round. rewrite Hbatch.
  unfold try_except, fbind at 1. cbn [fmodify].
  unfold add_batch, fbind at 1. cbn [fmodify]. rewrite Hread.
  rewrite (Hexc fp' e') by (by apply Hsame || done).
  eexists. split; [reflexivity|]. by split_and!.
Qed.

End Loops.

Lemma read_error_loses_the_batch_witness :
  ∃ s', @incoming_buffer_loop_round
          {| concat_with_padding := DataFrameModel.example_concat;
             replace_with_padding := DataFrameModel.example_replace;
             get_dataframe_from_shot := λ fp,
               if String.eqb fp "/lab/shots/2.h5" then Raises KeyError
               else DataFrameModel.example_get_dataframe_from_shot fp;
             splitlines := λ s, [s];
             notna := DataFrameModel.example_notna;
             format_04d := DataFrameModel.example_format_04d |} []
          (set_incoming_queue ["/lab/shots/1.h5"; "/lab/shots/2.h5"]
             (box_of DataFrameModel.one_shot (λ _, true) [] []))
        = (Done (), s')
    ∧ raised_in_thread s' = [KeyError]
    ∧ shots_model s' = DataFrameModel.one_shot
    ∧ incoming_queue s' = [].
Proof.
  destruct (@read_error_loses_the_batch
              {| concat_with_padding := DataFrameModel.example_concat;
                 replace_with_padding := DataFrameModel.example_replace;
                 get_dataframe_from_shot := λ fp,
                   if String.eqb fp "/lab/shots/2.h5" then Raises KeyError
                   else DataFrameModel.example_get_dataframe_from_shot fp;
                 splitlines := λ s, [s];
                 notna := DataFrameModel.example_notna;
                 format_04d := DataFrameModel.example_format_04d |} []
              (set_incoming_queue ["/lab/shots/1.h5"; "/lab/shots/2.h5"]
                 (box_of DataFrameModel.one_shot (λ _, true) [] []))
              ["/lab/shots/1.h5"; "/lab/shots/2.h5"] []
              "/lab/shots/2.h5" KeyError)
    as (e' & s' & Hrun & Hraised & _ & Hmodel & Hqueue & _).
  - reflexivity.
  - apply elem_of_cons. right. apply list_elem_of_here.
  - reflexivity.
  - discriminate.
  - intros fp e [->|[->|[]%elem_of_nil]%elem_of_cons]%elem_of_cons;
      intros [= <-]; reflexivity.
  - exists s'. split; [exact Hrun|]. split_and!; [|exact Hmodel|exact Hqueue].
    vm_compute in Hrun. injection Hrun as <-. reflexivity.
Defined.

(** ** The replies of the singleshot routine box *)

Section Loops.
Context `{!Helpers}.

(** The messages that report progress are taken one after the other. *)
Lemma singleshot_progress_run filepath rest fps r : ∀ progress s,
  DataFrameModel.columns_wf (shots_model s) →
  DataFrameModel.table_of (shots_model s) fps →
  fps !! r = Some filepath →
  Forall (λ m, signal m = "progress") progress →
  Forall reports_results progress →
  ∃ s1, singleshot_replies filepath (progress ++ rest) s
        = singleshot_replies filepath rest s1
    ∧ DataFrameModel.columns_wf (shots_model s1)
    ∧ DataFrameModel.table_of (shots_model s1) fps
    ∧ to_singleshot s1 = to_singleshot s
    ∧ analysis_paused s1 = analysis_paused s
    ∧ raised_in_thread s1 = raised_in_thread s
    ∧ DataFrameModel.row_deleted_off_disk (shots_model s1) r
      = DataFrameModel.row_deleted_off_disk (shots_model s) r
    ∧ (∀ r', r' ≠ r →
         DataFrameModel.row_status (shots_model s1) r'
         = DataFrameModel.row_status (shots_model s) r').
Proof.
  intros progress.
  induction progress as [|m0 progress IH]; intros s Hwf Ht Hr Hsig Hdata.
  { exists s. by split_and!. }
  apply Forall_cons in Hsig as [Hsig0 Hsig].
  apply Forall_cons in Hdata as [Hdata0 Hdata].
  rewrite <- app_comm_cons. cbn [singleshot_replies].
  destruct (singleshot_receive filepath m0 (progress ++ rest)
    (if String.eqb (signal m0) "done" then fret ()
     else if String.eqb (signal m0) "error" then
       do! present := fgets (λ s, exists_ s filepath) in
       if negb present
       then on_model (DataFrameModel.mark_as_deleted_off_disk filepath)
       else pause_analysis
     else if String.eqb (signal m0) "progress"
     then singleshot_replies filepath (progress ++ rest)
     else λ s, (Fails ValueError, s)) s fps r Hwf Ht Hr Hdata0)
    as (sm & Hrun & Hwf1 & Ht1 & Hdel1 & _ & Hst1).
  rewrite Hrun, Hsig0. cbn [String.eqb Ascii.eqb Bool.eqb].
  destruct (IH (set_shots_model sm
                  (got_from_singleshot m0 (progress ++ rest) s)))
    as (s1 & Hrun1 & Hwf2 & Ht2 & Hto & Hpaused & Hraised & Hdel2 & Hst2);
    [done..|].
  exists s1. split_and!; try done.
  - by rewrite Hdel2.
  - intros r' Hne. rewrite (Hst2 r' Hne). by apply Hst1.
Qed.

(** X10. A shot of the table whose file exists is dispatched, and the
    worker reports progress any number of times and then 'done'.
    [do_singleshot_analysis] returns with the filepath put once on
    [to_singleshot] and the messages taken off [from_singleshot]; analysis
    is not paused and nothing is raised; the shot shows the status percent
    of the last message, no other status changes, and the table stays
    consistent. *)
Theorem singleshot_done_returns filepath progress m rest s fps r :
  DataFrameModel.columns_wf (shots_model s) →
  DataFrameModel.table_of (shots_model s) fps →
  fps !! r = Some filepath →
  exists_ s filepath = true →
  from_singleshot s = progress ++ m :: rest →
  Forall (λ m, signal m = "progress") progress → signal m = "done" →
  Forall reports_results (progress ++ [m]) →
  ∃ s', do_singleshot_analysis filepath s = (Done (), s')
    ∧ to_singleshot s' = to_singleshot s ++ [filepath]
    ∧ from_singleshot s' = rest
    ∧ analysis_paused s' = analysis_paused s
    ∧ raised_in_thread s' = raised_in_thread s
    ∧ DataFrameModel.columns_wf (shots_model s')
    ∧ DataFrameModel.table_of (shots_model s') fps
    ∧ DataFrameModel.row_deleted_off_disk (shots_model s') r
      = DataFrameModel.row_deleted_off_disk (shots_model s) r
    ∧ (∀ p, status_percent m = Some p →
         DataFrameModel.row_status (shots_model s') r = Some p)
    ∧ (∀ r', r' ≠ r →
         DataFrameModel.row_status (shots_model s') r'
         = DataFrameModel.row_status (shots_model s) r').
Proof.
  intros Hwf Ht Hr Hexists Hqueue Hprogress Hdone Hdata.
  apply Forall_app in Hdata as [Hdata Hdata_m].
  rewrite Forall_singleton in Hdata_m.
  unfold do_singleshot_analysis, fbind at 1. cbn [fgets]. rewrite Hexists.
  cbn [negb]. unfold fbind at 1. cbn [fmodify].
  set (s0 := put_to_singleshot filepath s).
  change (from_singleshot s0) with (from_singleshot s). rewrite Hqueue.
  destruct (singleshot_progress_run filepath (m :: rest) fps r progress s0)
    as (s1 & -> & Hwf1 & Ht1 & Hto1 & Hpaused1 & Hraised1 & Hdel1 & Hst1);
    [done..|].
  cbn [singleshot_replies].
  destruct (singleshot_receive filepath m rest
    (if String.eqb (signal m) "done" then fret ()
     else if String.eqb (signal m) "error" then
       do! present := fgets (λ s, exists_ s filepath) in
       if negb present
       then on_model (DataFrameModel.mark_as_deleted_off_disk filepath)
       else pause_analysis
     else if String.eqb (signal m) "progress"
     then singleshot_replies filepath rest
     else λ s, (Fails ValueError, s)) s1 fps r Hwf1 Ht1 Hr Hdata_m)
    as (sm & Hrun & Hwf2 & Ht2 & Hdel2 & Hst2 & Hother2).
  rewrite Hrun, Hdone. cbn [String.eqb Ascii.eqb Bool.eqb].
  eexists. split; [reflexivity|].
  cbn [to_singleshot from_singleshot analysis_paused raised_in_thread
       shots_model set_shots_model got_from_singleshot].
  split_and!; try done.
  - by rewrite Hdel2.
  - intros p Hp. by rewrite Hst2, Hp.
  - intros r' Hne. rewrite (Hother2 r' Hne). by apply Hst1.
Qed.

(** X11. When a worker sends a signal other than 'done', 'error' and
    'progress', [do_singleshot_analysis] raises [ValueError]; the analysis
    loop catches it, raises a [RuntimeError] in a thread of its own, pauses
    analysis and completes its round: the loop goes on. *)
Theorem invalid_signal_pauses_analysis fuel filepath progress m rest s fps r :
  DataFrameModel.columns_wf (shots_model s) →
  DataFrameModel.table_of (shots_model s) fps →
  fps !! r = Some filepath →
  analysis_pending s = true → analysis_paused s = false →
  DataFrameModel.get_first_incomplete (shots_model s)
  = Returns (Some filepath) →
  exists_ s filepath = true →
  from_singleshot s = progress ++ m :: rest →
  Forall (λ m, signal m = "progress") progress →
  signal m ≠ "done" → signal m ≠ "error" → signal m ≠ "progress" →
  Forall reports_results (progress ++ [m]) →
  (∃ s1, do_singleshot_analysis filepath s = (Fails ValueError, s1))
  ∧ ∃ s', analysis_loop_round (S fuel) s = (Done (), s')
      ∧ analysis_paused s' = true
      ∧ raised_in_thread s' = raised_in_thread s ++ [RuntimeError]
      ∧ to_singleshot s' = to_singleshot s ++ [filepath]
      ∧ from_singleshot s' = rest.
Proof.
  intros Hwf Ht Hr Hpending Hpaused Hfirst Hexists Hqueue Hprogress
    Hdone Herror Hprog Hdata.
  apply Forall_app in Hdata as [Hdata Hdata_m].
  rewrite Forall_singleton in Hdata_m.
  apply String.eqb_neq in Hdone, Herror, Hprog.
  assert (Hfails : ∀ s0,
    shots_model s0 = shots_model s → exists_ s0 = exists_ s →
    from_singleshot s0 = from_singleshot s →
    ∃ s1, do_singleshot_analysis filepath s0 = (Fails ValueError, s1)
      ∧ analysis_paused s1 = analysis_paused s0
      ∧ raised_in_thread s1 = raised_in_thread s0
      ∧ to_singleshot s1 = to_singleshot s0 ++ [filepath]
      ∧ from_singleshot s1 = rest).
  { intros s0 Hmodel Hdisk Hfrom.
    unfold do_singleshot_analysis, fbind at 1. cbn [fgets].
    rewrite Hdisk, Hexists. cbn [negb]. unfold fbind at 1. cbn [fmodify].
    set (s0' := put_to_singleshot filepath s0).
    change (from_singleshot s0') with (from_singleshot s0).
    rewrite Hfrom, Hqueue.
    destruct (singleshot_progress_run filepath (m :: rest) fps r progress s0')
      as (s1 & -> & Hwf1 & Ht1 & Hto1 & Hpaused1 & Hraised1 & _);
      [by (change (shots_model s0') with (shots_model s0); rewrite Hmodel)..
      |done|done|done|].
    cbn [singleshot_replies].
    destruct (singleshot_receive filepath m rest
      (if String.eqb (signal m) "done" then fret ()
       else if String.eqb (signal m) "error" then
         do! present := fgets (λ s, exists_ s filepath) in
         if negb present
         then on_model (DataFrameModel.mark_as_deleted_off_disk filepath)
         else pause_analysis
       else if String.eqb (signal m) "progress"
       then singleshot_replies filepath rest
       else λ s, (Fails ValueError, s)) s1 fps r Hwf1 Ht1 Hr Hdata_m)
      as (sm & Hrun & _).
    rewrite Hrun, Hdone, Herror, Hprog.
    eexists. split; [reflexivity|].
    cbn [to_singleshot from_singleshot analysis_paused raised_in_thread
         shots_model set_shots_model got_from_singleshot].
    by split_and!. }
  split.
  { destruct (Hfails s) as (s1 & Hrun & _); [done..|]. eauto. }
  unfold analysis_loop_round, fbind at 1. cbn [fgets]. rewrite Hpending.
  cbn [negb]. unfold try_except, analysis_try, fbind at 1. cbn [fmodify].
  set (s0 := set_analysis_pending false s).
  unfold fbind at 1. cbn [analysis_rounds]. unfold fbind at 1. cbn [fgets].
  change (analysis_paused s0) with (analysis_paused s). rewrite Hpaused.
  cbn [negb].
  rewrite (fbind_Done _ _ _ _ _
             (get_first_incomplete_Done s0 (Some filepath) Hfirst)).
  unfold fbind at 1. cbn [fmodify]. unfold fbind at 1.
  destruct (Hfails (log_info (Analysing filepath) s0))
    as (s1 & -> & Hpaused1 & Hraised1 & Hto1 & Hfrom1); [done..|].
  cbn [is_Exception]. unfold fbind at 1. cbn [fmodify]. unfold pause_analysis.
  cbn [fmodify].
  eexists. split; [reflexivity|].
  cbn [to_singleshot from_singleshot analysis_paused raised_in_thread
       set_analysis_paused raise_exception_in_thread].
  rewrite Hraised1, Hto1, Hfrom1. by split_and!.
Qed.

End Loops.

Lemma report_progress_reports_results : reports_results report_progress.
Proof.
  intros entry [->|[]%elem_of_nil]%elem_of_cons.
  apply example_report_leaves_filepath_column.
Qed.

Lemma no_data_reports_results m : updated_data m = [] → reports_results m.
Proof. intros Hm entry. rewrite Hm. by intros ?%elem_of_nil. Qed.

(** The second shot of the example table is analysed: the worker reports
    progress and then that it is done. *)
Lemma singleshot_done_returns_witness :
  ∃ s', @do_singleshot_analysis DataFrameModel.example_helpers
          "/lab/shots/1.h5"
          (box_of DataFrameModel.two_shots (λ _, true)
             [report_progress; report_done] [])
        = (Done (), s')
    ∧ to_singleshot s' = ["/lab/shots/1.h5"]
    ∧ DataFrameModel.row_status (shots_model s') 1 = Some 100%Z.
Proof.
  destruct two_shots_table as [Hwf Ht].
  destruct (@singleshot_done_returns DataFrameModel.example_helpers
              "/lab/shots/1.h5" [report_progress] report_done []
              (box_of DataFrameModel.two_shots (λ _, true)
                 [report_progress; report_done] [])
              ["/lab/shots/0.h5"; "/lab/shots/1.h5"] 1)
    as (s' & Hrun & Hto & _ & _ & _ & _ & _ & _ & Hstatus & _).
  - exact Hwf.
  - exact Ht.
  - reflexivity.
  - reflexivity.
  - reflexivity.
  - apply Forall_singleton. reflexivity.
  - reflexivity.
  - apply Forall_cons. split; [apply report_progress_reports_results|].
    apply Forall_singleton. by apply no_data_reports_results.
  - exists s'. split_and!; [exact Hrun|exact Hto|]. by apply Hstatus.
Defined.

(** The worker answers the second shot of the example table with a signal
    that does not exist. *)
Lemma invalid_signal_pauses_analysis_witness :
  ∃ s', @analysis_loop_round DataFrameModel.example_helpers 1
          (box_of DataFrameModel.two_shots (λ _, true)
             [{| signal := "finished"; status_percent := None;
                 updated_data := []; exists_then := λ _, true |}] [])
        = (Done (), s')
    ∧ analysis_paused s' = true
    ∧ raised_in_thread s' = [RuntimeError].
Proof.
  destruct two_shots_table as [Hwf Ht].
  destruct (@invalid_signal_pauses_analysis DataFrameModel.example_helpers 0
              "/lab/shots/1.h5" []
              {| signal := "finished"; status_percent := None;
                 updated_data := []; exists_then := λ _, true |} []
              (box_of DataFrameModel.two_shots (λ _, true)
                 [{| signal := "finished"; status_percent := None;
                     updated_data := []; exists_then := λ _, true |}] [])
              ["/lab/shots/0.h5"; "/lab/shots/1.h5"] 1)
    as (_ & s' & Hrun & Hpaused & Hraised & _).
  - exact Hwf.
  - exact Ht.
  - reflexivity.
  - reflexivity.
  - reflexivity.
  - vm_compute. reflexivity.
  - reflexivity.
  - reflexivity.
  - apply Forall_nil_2.
  - discriminate.
  - discriminate.
  - discriminate.
  - apply Forall_singleton. by apply no_data_reports_results.
  - exists s'. split_and!; [exact Hrun|exact Hpaused|exact Hraised].
Defined.

(** ** Multishot analysis while analysis is paused *)

Section Loops.
Context `{!Helpers}.

Lemma multishot_replies_to_singleshot : ∀ messages s r s',
  multishot_replies messages s = (r, s') →
  to_singleshot s' = to_singleshot s.
Proof.
  induction messages as [|m messages IH]; intros s r s'.
  { by intros [= <- <-]. }
  cbn [multishot_replies]. unfold fbind at 1. cbn [fmodify].
  set (s1 := got_from_multishot m messages s).
  unfold fbind at 1, update_rows, on_model.
  destruct (for_each _ _ (shots_model s1)) as [[[]|e] sm].
  2:{ by intros [= <- <-]. }
  destruct (String.eqb (signal m) "done"). { by intros [= <- <-]. }
  destruct (String.eqb (signal m) "error"). { by intros [= <- <-]. }
  intros Hrun. by apply IH in Hrun as ->.
Qed.

(** X12. Pausing analysis does not hold back a multishot analysis that is
    required: when the loop is woken with [analysis_paused] and
    [multishot_required] both set, it notes that analysis is paused,
    dispatches no shot, and asks the multishot routine box for a run. *)
Theorem paused_loop_runs_required_multishot fuel s :
  analysis_pending s = true → analysis_paused s = true →
  multishot_required s = true →
  ∃ r s', analysis_loop_round (S fuel) s = (r, s')
    ∧ to_multishot s' = S (to_multishot s)
    ∧ to_singleshot s' = to_singleshot s
    ∧ logged s' = logged s ++ [AnalysisIsPaused; DoingMultishotAnalysis].
Proof.
  intros Hpending Hpaused Hrequired.
  unfold analysis_loop_round, fbind at 1. cbn [fgets]. rewrite Hpending.
  cbn [negb]. unfold try_except, analysis_try, fbind at 1. cbn [fmodify].
  set (s0 := set_analysis_pending false s).
  unfold fbind at 1. cbn [analysis_rounds]. unfold fbind at 1. cbn [fgets].
  change (analysis_paused s0) with (analysis_paused s). rewrite Hpaused.
  cbn [negb fmodify].
  unfold multishot_if_required, fbind at 1. cbn [fgets].
  change (multishot_required (log_info AnalysisIsPaused s0))
    with (multishot_required s).
  rewrite Hrequired. unfold fbind at 1. cbn [fmodify].
  unfold do_multishot_analysis, fbind at 1. cbn [fmodify].
  set (s2 := put_to_multishot
               (log_info DoingMultishotAnalysis
                  (log_info AnalysisIsPaused s0))).
  destruct (multishot_replies (from_multishot s2) s2) as [r s'] eqn:Hrun.
  destruct (multishot_replies_frame _ _ _ _ Hrun) as (Hto & Hlog & _).
  pose proof (multishot_replies_to_singleshot _ _ _ _ Hrun) as Hsingle.
  assert (logged s2 = logged s ++ [AnalysisIsPaused; DoingMultishotAnalysis])
    as Hlog2.
  { unfold s2. cbn [logged put_to_multishot log_info]. by rewrite <- app_assoc. }
  destruct r as [[]|e| |]; try (eexists _, _; split; [reflexivity|];
    by rewrite Hto, Hsingle, Hlog, Hlog2).
  destruct (is_Exception e); eexists _, _; (split; [reflexivity|]);
    cbn [to_multishot to_singleshot logged pause_analysis fmodify fbind
         set_analysis_paused raise_exception_in_thread];
    by rewrite Hto, Hsingle, Hlog, Hlog2.
Qed.

End Loops.

(** The example table with its shot done, analysis paused and a multishot
    analysis required, as after a click on the button that runs it: the
    routine box is asked for a run and nothing answers yet. *)
Lemma paused_loop_runs_required_multishot_witness :
  ∃ r s', @analysis_loop_round DataFrameModel.example_helpers 1
            (on_run_multishot_analysis_clicked
               (set_analysis_paused true
                  (box_of DataFrameModel.one_shot (λ _, true) [] [])))
          = (r, s')
    ∧ to_multishot s' = 1
    ∧ to_singleshot s' = []
    ∧ logged s' = [AnalysisIsPaused; DoingMultishotAnalysis].
Proof.
  apply (@paused_loop_runs_required_multishot DataFrameModel.example_helpers 0
           (on_run_multishot_analysis_clicked
              (set_analysis_paused true
                 (box_of DataFrameModel.one_shot (λ _, true) [] []))));
    reflexivity.
Defined.

End FileBoxFacts.

(** * Properties of closing the main window *)

Module LyseFacts.
Import Lyse.

Section SaveData.
Context {V : Type} `{!EqDecision V}.

Lemma only_window_geometry_spec (current_data old_data : gmap string V) :
  (∀ key, key ∉ ui_keys → is_Some (current_data !! key) →
          is_Some (old_data !! key)) →
  ∃ b, only_window_geometry_is_different current_data old_data = Returns b
       ∧ (b = true ↔ same_but_geometry current_data old_data).
Proof.
  intros Hkeys. unfold only_window_geometry_is_different.
  rewrite decide_True.
  2:{ apply Forall_forall. intros key [Hui Hin]%list_elem_of_filter.
      apply Hkeys; [done|].
      apply list_elem_of_fmap in Hin as ([k v] & -> & Hkv%elem_of_map_to_list).
      by exists v. }
  eexists. split; [done|]. rewrite bool_decide_eq_true, Forall_forall. split.
  - intros Hall key Hui [v Hv]. apply Hall, list_elem_of_filter. split; [done|].
    apply list_elem_of_fmap. exists (key, v). split; [done|].
    by apply elem_of_map_to_list.
  - intros Hsame key [Hui Hin]%list_elem_of_filter. apply Hsame; [done|].
    apply list_elem_of_fmap in Hin as ([k v] & -> & Hkv%elem_of_map_to_list).
    by exists v.
Qed.

(** X13. [on_close_event()], when every key of the current save data
    other than the ui keys is in the data last saved, returns, and returns
    [False] only when something other than the window geometry has changed
    since the last save and the user presses Cancel.  The workers are
    terminated exactly when it returns [True].  The configuration is
    written, to the file of the last save, exactly when the data changed
    and either only the geometry differs (then without asking) or the user
    presses Yes.  Nothing is asked or written when nothing was saved before
    or nothing has changed. *)
Theorem on_close_event_cases (answer : reply) (s : state V) :
  (∀ old_data key, last_save_data s = Some old_data →
     key ∉ ui_keys → is_Some (gui s !! key) → is_Some (old_data !! key)) →
  ∃ closes writes : bool,
    on_close_event answer s
    = (Returns closes,
       {| gui := gui s;
          last_save_data :=
            if writes then Some (gui s) else last_save_data s;
          last_save_config_file := last_save_config_file s;
          written :=
            written s ++ (if writes then [(last_save_config_file s, gui s)]
                          else []);
          terminations :=
            if closes then S (terminations s) else terminations s |})
    ∧ (closes = false ↔
       ∃ old_data, last_save_data s = Some old_data ∧ gui s ≠ old_data
         ∧ ¬ same_but_geometry (gui s) old_data ∧ answer = Cancel)
    ∧ (writes = true ↔
       ∃ old_data, last_save_data s = Some old_data ∧ gui s ≠ old_data
         ∧ (same_but_geometry (gui s) old_data ∨ answer = Yes)).
Proof.
  intros Hkeys. destruct s as [g last file w n]. cbn [gui last_save_data] in *.
  unfold on_close_event, bind at 1. cbn [gets gui]. unfold bind at 1.
  cbn [gets last_save_data].
  destruct last as [old|].
  2:{ exists true, false. split; [by rewrite app_nil_r|].
      split; split; try done; by intros (? & ? & _). }
  case_decide as Hchanged.
  2:{ exists true, false. split; [by rewrite app_nil_r|].
      split; split; try done; intros (? & [= <-] & Hne & _); by destruct Hchanged. }
  unfold bind at 1, lift.
  destruct (only_window_geometry_spec g old) as (b & -> & Hb);
    [intros key; by apply (Hkeys old key)|].
  destruct b.
  - assert (same_but_geometry g old) as Hsame by (by apply Hb).
    exists true, true. split; [done|]. split; split; try done.
    + intros (? & [= <-] & _ & Hn & _). by destruct Hn.
    + intros _. exists old. by split_and!; [| |left].
  - assert (¬ same_but_geometry g old) as Hsame.
    { intros Hs. by apply Hb in Hs. }
    destruct answer.
    + exists true, true. split; [done|]. split; split; try done.
      * by intros (? & _ & _ & _ & ?).
      * intros _. exists old. by split_and!; [| |right].
    + exists true, false. split; [by rewrite app_nil_r|].
      split; split; try done.
      * by intros (? & _ & _ & _ & ?).
      * intros (? & [= <-] & _ & [?|?]); done.
    + exists false, false. split; [by rewrite app_nil_r|].
      split; split; try done.
      * intros _. by exists old.
      * intros (? & [= <-] & _ & [?|?]); done.
Qed.

End SaveData.

(** The window was moved since the last save: the configuration is saved
    without asking and the window closes, whatever the user would
    answer. *)
Lemma on_close_event_cases_witness :
  (on_close_event Cancel
     (example_state {[ "singleshot" := "fit.py"; "window_pos" := "40,10" ]})).1
  = Returns true.
Proof.
  destruct (on_close_event_cases Cancel
              (example_state
                 {[ "singleshot" := "fit.py"; "window_pos" := "40,10" ]}))
    as (closes & writes & Hrun & Hcloses & _).
  - intros old_data key [= <-] Hui [v Hv].
    cbn [gui example_state] in Hv.
    apply lookup_insert_Some in Hv as [[<- <-]|[Hne Hv]]; [by eexists|].
    apply lookup_singleton_Some in Hv as [<- <-].
    exfalso. apply Hui. unfold ui_keys. set_solver.
  - rewrite Hrun. cbn [fst]. f_equal.
    vm_compute in Hrun. by injection Hrun as <- _.
Defined.

(** ** Loading a saved dataframe *)

Import pandas.
Import DataFrameModelFacts.

Lemma need_updating_snoc changed (filepaths : list string) filepath :
  need_updating changed (filepaths ++ [filepath])
  = (if changed filepath then [length filepaths] else [])
      ++ need_updating changed filepaths.
Proof.
  unfold need_updating. rewrite imap_app, filter_app, fmap_app, reverse_app.
  f_equal. cbn [imap]. rewrite filter_cons, filter_nil. cbn [snd].
  rewrite Nat.add_0_r. by destruct (changed filepath).
Qed.

Lemma elem_of_need_updating changed (filepaths : list string) index :
  index ∈ need_updating changed filepaths
  ↔ ∃ filepath, filepaths !! index = Some filepath ∧ changed filepath = true.
Proof.
  unfold need_updating. rewrite elem_of_reverse, list_elem_of_fmap. split.
  - intros ([i fp] & -> & [Hc Hin]%list_elem_of_filter).
    apply elem_of_lookup_imap in Hin as (j & y & [= -> ->] & Hj). eauto.
  - intros (fp & Hfp & Hc). exists (index, fp). split; [done|].
    apply list_elem_of_filter. split; [done|].
    apply elem_of_lookup_imap. eauto.
Qed.

Lemma pop_changed_app changed : ∀ (filepaths : list string) s l,
  pop_changed (need_updating changed filepaths) (filepaths ++ l) s
  = (FileBox.Done (filter (λ fp, changed fp = false) filepaths ++ l),
     FileBox.set_incoming_queue
       (FileBox.incoming_queue s
          ++ reverse (filter (λ fp, changed fp = true) filepaths)) s).
Proof.
  induction filepaths as [|x filepaths IH] using rev_ind; intros s l.
  { unfold need_updating. cbn. rewrite app_nil_r. by destruct s. }
  rewrite need_updating_snoc, !filter_app, !filter_cons, !filter_nil,
    reverse_app, <- !app_assoc.
  destruct (changed x) eqn:Hx.
  - rewrite decide_False, decide_True by done.
    cbn [app pop_changed reverse]. rewrite lookup_app_r by done.
    rewrite Nat.sub_diag. cbn [lookup list_lookup].
    unfold FileBox.fbind at 1. cbn [FileBox.fmodify].
    rewrite delete_middle, IH. f_equal.
    cbn [FileBox.incoming_queue FileBox.set_incoming_queue].
    rewrite <- app_assoc. by destruct s.
  - rewrite decide_True, decide_False by (done || by intros ?).
    cbn [app reverse]. apply IH.
Qed.

Lemma pop_changed_spec changed (filepaths : list string) s :
  pop_changed (need_updating changed filepaths) filepaths s
  = (FileBox.Done (filter (λ fp, changed fp = false) filepaths),
     FileBox.set_incoming_queue
       (FileBox.incoming_queue s
          ++ reverse (filter (λ fp, changed fp = true) filepaths)) s).
Proof.
  pose proof (pop_changed_app changed filepaths s []) as Hpop.
  by rewrite !app_nil_r in Hpop.
Qed.

Lemma remaining_from_unchanged changed (R : list nat) : ∀ (l : list string) i,
  (∀ j fp, l !! j = Some fp → (i + j) ∈ R ↔ changed fp = true) →
  DataFrameModel.remaining_from i R l = filter (λ fp, changed fp = false) l.
Proof.
  induction l as [|x l IH]; intros i HR; [done|].
  cbn [DataFrameModel.remaining_from]. rewrite filter_cons.
  pose proof (HR 0 x eq_refl) as Hx. rewrite Nat.add_0_r in Hx.
  rewrite IH.
  2:{ intros j fp Hj. rewrite <- (HR (S j) fp Hj). by rewrite Nat.add_succ_r. }
  destruct (changed x) eqn:Hc.
  - rewrite decide_True by (by apply Hx). by rewrite decide_False.
  - rewrite decide_False; [by rewrite decide_True|].
    intros Hin%Hx. done.
Qed.

Lemma drop_need_updating changed df (filepaths : list string) :
  DataFrameModel.rows_for df filepaths →
  ∃ df', drop (need_updating changed filepaths) df = Returns df'
    ∧ columns df' = columns df ∧ nlevels df' = nlevels df
    ∧ DataFrameModel.stored_filepaths (nlevels df) df'
      = VStr <$> filter (λ fp, changed fp = false) filepaths
    ∧ ((∀ fp, fp ∈ filepaths → changed fp = false) → df' = df).
Proof.
  intros [Hindex Hstored Hcolumn]. unfold drop. rewrite decide_True.
  2:{ apply Forall_forall. intros label (fp & Hfp & _)%elem_of_need_updating.
      rewrite Hindex. apply elem_of_seq. apply lookup_lt_Some in Hfp. lia. }
  eexists. split; [done|]. cbn [columns nlevels rows]. split_and!; [done|done| |].
  - unfold DataFrameModel.stored_filepaths. cbn [rows].
    assert (length (rows df) = length filepaths) as Hlen.
    { apply (f_equal length) in Hindex. unfold index in Hindex.
      by rewrite length_fmap, length_seq in Hindex. }
    rewrite (drop_rows_remaining
               (λ r, cell r (DataFrameModel.filepath_colname (nlevels df)))
               _ (rows df) 0).
    2:{ rewrite Hlen. exact Hindex. }
    unfold DataFrameModel.stored_filepaths in Hstored. rewrite Hstored.
    rewrite <- remaining_from_fmap. f_equal.
    apply remaining_from_unchanged. intros j fp Hj. cbn [plus].
    rewrite elem_of_need_updating. split.
    + intros (fp' & Hj' & Hc). congruence.
    + intros Hc. eauto.
  - intros Hnone. destruct df as [cs n rs]. cbn [columns nlevels rows]. f_equal.
    apply filter_all, Forall_forall. intros r _.
    intros (fp & Hfp & Hc)%elem_of_need_updating.
    rewrite (Hnone fp) in Hc; [done|]. by eapply list_elem_of_lookup_2.
Qed.

Section LoadDataframe.
Context `{!Helpers}.

(** X15. When a saved dataframe is loaded, the shots whose file has changed
    since the export are put on the incoming queue, last position first, to
    be read anew, and their rows are dropped from the frame; the other
    shots go to [add_files] with [done=True], in their order and with the
    rows that store their filepaths.  When no file has changed nothing is
    queued and, on a consistent table with [integer_indexing] off, the
    shots of the frame that the table does not hold yet are appended as
    done. *)
Theorem load_dataframe_requeues_changed df filepaths changed s :
  DataFrameModel.rows_for df filepaths →
  ∃ df',
    on_load_dataframe_triggered df filepaths changed s
    = FileBox.on_model
        (DataFrameModel.add_files
           (filter (λ fp, changed fp = false) filepaths) (Some df') true)
        (FileBox.set_incoming_queue
           (FileBox.incoming_queue s
              ++ reverse (filter (λ fp, changed fp = true) filepaths)) s)
    ∧ columns df' = columns df ∧ nlevels df' = nlevels df
    ∧ DataFrameModel.stored_filepaths (nlevels df) df'
      = VStr <$> filter (λ fp, changed fp = false) filepaths
    ∧ ((∀ fp, fp ∈ filepaths → changed fp = false) →
       ∀ fps,
       DataFrameModel.integer_indexing (FileBox.shots_model s) = false →
       DataFrameModel.columns_wf (FileBox.shots_model s) →
       DataFrameModel.table_of (FileBox.shots_model s) fps →
       NoDup (filter (λ fp, fp ∉ fps) filepaths) →
       (∀ to_add new',
          DataFrameModel.check_duplicates
            (DataFrameModel.row_number_by_filepath (FileBox.shots_model s))
            filepaths [] (Some df)
          = Returns (to_add, Some new') → to_add ≠ [] →
          DataFrameModel.concat_ok (FileBox.shots_model s) new') →
       (∀ fp, fp ∈ filepaths → DataFrameModel.shown_in_full fp) →
       ∃ s', on_load_dataframe_triggered df filepaths changed s
             = (FileBox.Done (), s')
         ∧ FileBox.incoming_queue s' = FileBox.incoming_queue s
         ∧ DataFrameModel.table_of (FileBox.shots_model s')
             (fps ++ filter (λ fp, fp ∉ fps) filepaths)
         ∧ DataFrameModel.shot_items
             (DataFrameModel.model (FileBox.shots_model s'))
           = DataFrameModel.shot_items
               (DataFrameModel.model (FileBox.shots_model s))
               ++ (DataFrameModel.appended true
                     <$> filter (λ fp, fp ∉ fps) filepaths)).
Proof.
  intros Hrows.
  destruct (drop_need_updating changed df filepaths Hrows)
    as (df' & Hdrop & Hcols & Hlev & Hstored & Hsame).
  assert (Hrun : on_load_dataframe_triggered df filepaths changed s
    = FileBox.on_model
        (DataFrameModel.add_files
           (filter (λ fp, changed fp = false) filepaths) (Some df') true)
        (FileBox.set_incoming_queue
           (FileBox.incoming_queue s
              ++ reverse (filter (λ fp, changed fp = true) filepaths)) s)).
  { unfold on_load_dataframe_triggered, FileBox.fbind.
    by rewrite pop_changed_spec, Hdrop. }
  exists df'. split_and!; try done.
  intros Hnone fps Hflag Hwf Ht Hnd Hconcat Hfull.
  rewrite Hrun, (Hsame Hnone).
  assert (filter (λ fp, changed fp = false) filepaths = filepaths) as ->.
  { apply filter_all, Forall_forall. intros fp Hfp. by apply Hnone. }
  assert (filter (λ fp, changed fp = true) filepaths = []) as ->.
  { apply elem_of_nil_inv. intros fp [Hc Hfp]%list_elem_of_filter.
    by rewrite (Hnone fp Hfp) in Hc. }
  cbn [reverse]. rewrite app_nil_r.
  assert (FileBox.set_incoming_queue (FileBox.incoming_queue s) s = s) as ->
    by (by destruct s).
  destruct (add_files_spec filepaths df true (FileBox.shots_model s) fps
              Hflag Hwf Ht Hnd Hrows Hconcat Hfull)
    as (sm & Hadd & _ & Ht' & Hitems).
  rewrite (FileBoxFacts.on_model_Returns _ _ _ _ Hadd).
  eexists. split; [reflexivity|]. by split_and!.
Qed.

End LoadDataframe.

(** A frame of two shots is loaded into the example table; the file of the
    second shot has changed since the export. *)
Lemma load_dataframe_requeues_changed_witness :
  ∃ df',
    @on_load_dataframe_triggered DataFrameModel.example_helpers
      (DataFrameModel.example_concat
         [DataFrameModel.example_shot "/lab/shots/1.h5";
          DataFrameModel.example_shot "/lab/shots/2.h5"])
      ["/lab/shots/1.h5"; "/lab/shots/2.h5"]
      (λ fp, String.eqb fp "/lab/shots/2.h5")
      (FileBox.box_of DataFrameModel.one_shot (λ _, true) [] [])
    = FileBox.on_model
        (@DataFrameModel.add_files DataFrameModel.example_helpers
           ["/lab/shots/1.h5"] (Some df') true)
        (FileBox.set_incoming_queue ["/lab/shots/2.h5"]
           (FileBox.box_of DataFrameModel.one_shot (λ _, true) [] []))
    ∧ DataFrameModel.stored_filepaths 2 df' = [VStr "/lab/shots/1.h5"].
Proof.
  destruct (@load_dataframe_requeues_changed DataFrameModel.example_helpers
              (DataFrameModel.example_concat
                 [DataFrameModel.example_shot "/lab/shots/1.h5";
                  DataFrameModel.example_shot "/lab/shots/2.h5"])
              ["/lab/shots/1.h5"; "/lab/shots/2.h5"]
              (λ fp, String.eqb fp "/lab/shots/2.h5")
              (FileBox.box_of DataFrameModel.one_shot (λ _, true) [] []))
    as (df' & Hrun & _ & _ & Hstored & _).
  - split; vm_compute; reflexivity.
  - exists df'. split; [exact Hrun|exact Hstored].
Defined.

End LyseFacts.

(** * Properties of the axis limits of a plot *)

Module PlotFacts.
Import Plot.

Section Limits.
Context {L : Type}.

(** X14. Limits saved before the figure is cleared come back when they are
    restored: of the axes the script has drawn since, each one that had a
    predecessor at the same position takes the limits of that predecessor,
    and each further one keeps the limits it was drawn with; the number of
    axes is as drawn.  Without saved limits, restoring raises [TypeError]
    as soon as the figure has axes. *)
Theorem restore_axis_limits_after_save (self : plot L) (drawn : list (axes L)) :
  (∃ restored,
     restore_axis_limits (draw_axes drawn (clear (save_axis_limits self)))
     = Returns restored
     ∧ length (figure_axes restored) = length drawn
     ∧ (∀ i ax, drawn !! i = Some ax →
          figure_axes restored !! i
          = Some (default ax (figure_axes self !! i)))
     ∧ lock_axes restored = lock_axes self
     ∧ identifier restored = identifier self)
  ∧ (axis_limits self = None → drawn ≠ [] →
     restore_axis_limits (draw_axes drawn (clear self)) = Raises TypeError).
Proof.
  split.
  - eexists. split; [reflexivity|].
    cbn [figure_axes lock_axes identifier axis_limits draw_axes clear
         save_axis_limits].
    split_and!; [by rewrite length_imap| |done|done].
    intros i ax Hi. rewrite list_lookup_imap, Hi. cbn [fmap option_fmap option_map].
    f_equal. rewrite lookup_map_seq_0, list_lookup_fmap.
    by destruct (figure_axes self !! i) as [[x y]|].
  - intros Hnone Hdrawn. unfold restore_axis_limits.
    cbn [axis_limits draw_axes clear figure_axes]. rewrite Hnone.
    by destruct drawn.
Qed.

End Limits.

(** A plot made in this run has no saved limits; the script draws two sets
    of axes. *)
Lemma restore_axis_limits_after_save_witness :
  restore_axis_limits
    (draw_axes [ {| xlim := (0, 1)%Z; ylim := (0, 1)%Z |};
                 {| xlim := (0, 5)%Z; ylim := (0, 5)%Z |} ]
       (clear {| identifier := "1"; figure_axes := [];
                 lock_axes := true; axis_limits := None |}))
  = Raises TypeError.
Proof.
  apply (restore_axis_limits_after_save
           {| identifier := "1"; figure_axes := [];
              lock_axes := true; axis_limits := None |}
           [ {| xlim := (0, 1)%Z; ylim := (0, 1)%Z |};
             {| xlim := (0, 5)%Z; ylim := (0, 5)%Z |} ]).
  - reflexivity.
  - discriminate.
Defined.

End PlotFacts.
